(** * msigner: ordinals PSBT signer, shallow embedding

    The TypeScript sources embedded here are [src/constant.ts],
    [src/util.ts], [src/vendors/feeprovider.ts] and [src/signer.ts].

    Conventions of the embedding.
    - A JavaScript [number] holding satoshis, counts or basis points is a [Z].
    - A [Buffer] is a list of bytes.
    - An [async] function is a function into [result]: [Return v] for a
      fulfilled promise, [Throw e] for a rejected one.
    - Providers are records of functions into [response]; a call to one is
      wrapped in [await], which turns a failure into an exception that is
      none of the signer's own.
    - [bitcoinjs-lib] and the JavaScript built-ins are not part of the
      repository; they enter through the class [BitcoinJs].
    - A function that writes to the listing document returns the document
      as the call leaves it together with its completion. *)

From Stdlib Require Import ZArith List String Ascii Bool Lia.
From Stdlib Require Import Permutation Sorted.
From Stdlib Require Strings.Byte.
From Stdlib Require Import DecimalString.
Import ListNotations.

Set Implicit Arguments.
Open Scope string_scope.
Open Scope Z_scope.

(** ** Exceptions and the error monad *)

(** Texts carried by [InvalidArgumentError].  The two diagnostics built from
    template literals keep their numeric arguments instead of the rendered
    text. *)
Inductive Message : Type :=
| Msg (text : string)
| NotEnoughCardinalFunds (has needed : Z)
| NotEnoughFundsToBuy (price required missing : Z).

Inductive Error : Type :=
| InvalidArgumentError (message : Message)
| TypeError                       (* property read on [undefined] *)
| ExternalError (origin : string) (* rejection by a provider or by the library *).

Inductive result (A : Type) : Type :=
| Return (a : A)
| Throw (e : Error).
Arguments Return {A} a.
Arguments Throw {A} e.

Definition bind {A B : Type} (m : result A) (k : A -> result B) : result B :=
  match m with
  | Return a => k a
  | Throw e => Throw e
  end.

Notation "x <- m ;; k" := (bind m (fun x => k))
  (at level 61, m at next level, right associativity).
Notation "' pat <- m ;; k" := (bind m (fun x => match x with pat => k end))
  (at level 61, pat pattern, m at next level, right associativity).

(** What code outside the repository gives back: an answer, or a failure
    (a rejected promise of a provider, an exception of the library). *)
Inductive response (A : Type) : Type :=
| Answer (a : A)
| Failure (reason : string).
Arguments Answer {A} a.
Arguments Failure {A} reason.

(** [await f(x)], or a plain call into the library: a failure propagates as
    an exception that is none of the signer's own. *)
Definition await {A : Type} (r : response A) : result A :=
  match r with
  | Answer a => Return a
  | Failure reason => Throw (ExternalError reason)
  end.

(** [try { body } catch { handler }] *)
Definition try_catch {A : Type} (body : result A) (handler : A) : A :=
  match body with
  | Return a => a
  | Throw _ => handler
  end.

Definition isInvalidArgument {A : Type} (r : result A) : bool :=
  match r with
  | Throw (InvalidArgumentError _) => true
  | _ => false
  end.

Definition returns {A : Type} (r : result A) : bool :=
  match r with
  | Return _ => true
  | Throw _ => false
  end.

(** ** JavaScript values *)

Definition Buffer : Type := list Byte.byte.

(** Truthiness of a string and of an optional string. *)
Definition truthy (s : string) : bool := negb (s =? EmptyString)%string.

Definition truthy_opt (o : option string) : bool :=
  match o with
  | Some s => truthy s
  | None => false
  end.

(** [a || b] on strings, the first argument possibly [undefined]. *)
Definition or_else (a : option string) (b : string) : string :=
  if truthy_opt a then match a with Some s => s | None => b end else b.

(** [s.split(':')] *)
Fixpoint split_colon_aux (cur : string) (s : string) : list string :=
  match s with
  | EmptyString => [cur]
  | String c rest =>
      if Ascii.eqb c ":"%char
      then cur :: split_colon_aux EmptyString rest
      else split_colon_aux (cur ++ String c EmptyString) rest
  end.

Definition split_colon (s : string) : list string := split_colon_aux EmptyString s.

(** [arr.push(x)] *)
Definition push {A : Type} (arr : list A) (x : A) : list A := (arr ++ [x])%list.

(** [arr[i]] on a dense array: [None] is [undefined]. *)
Definition at_index {A : Type} (l : list A) (i : nat) : option A := nth_error l i.

(** Arrays that may hold [undefined]: an entry [None] is [undefined] (or a
    hole, which reads the same). *)
Definition JsArray (A : Type) : Type := list (option A).

Definition js_get {A : Type} (arr : JsArray A) (i : nat) : option A :=
  match nth_error arr i with
  | Some x => x
  | None => None
  end.

(** [arr[i] = v]: replaces the entry when [i] is in range, otherwise grows the
    array up to index [i]. *)
Fixpoint js_set {A : Type} (arr : JsArray A) (i : nat) (v : option A) : JsArray A :=
  match i, arr with
  | O, [] => [v]
  | O, _ :: rest => v :: rest
  | S j, [] => None :: js_set [] j v
  | S j, x :: rest => x :: js_set rest j v
  end.

(** Hexadecimal rendering of a buffer, [buf.toString('hex')]. *)
Definition hex_digit (n : N) : ascii :=
  match n with
  | 0%N => "0" | 1%N => "1" | 2%N => "2" | 3%N => "3"
  | 4%N => "4" | 5%N => "5" | 6%N => "6" | 7%N => "7"
  | 8%N => "8" | 9%N => "9" | 10%N => "a" | 11%N => "b"
  | 12%N => "c" | 13%N => "d" | 14%N => "e" | _ => "f"
  end%char.

Definition hex_of_byte (b : Byte.byte) : string :=
  let n := Byte.to_N b in
  String (hex_digit (N.div n 16)) (String (hex_digit (N.modulo n 16)) EmptyString).

Definition toHex (buf : Buffer) : string :=
  fold_right (fun b acc => hex_of_byte b ++ acc) EmptyString buf.

(** ** src/constant.ts *)

Definition BUYING_PSBT_SELLER_SIGNATURE_INDEX : nat := 2.
Definition BUYING_PSBT_BUYER_RECEIVE_INDEX : nat := 1.

Definition DEFAULT_DUMMY_UTXO_VALUE : Z := 600.
Definition DEFAULT_DUMMY_UTXO_MAX_VALUE : Z := 1000.
Definition DEFAULT_DUMMY_UTXO_MIN_VALUE : Z := 580.
Definition DEFAULT_ORDINALS_POSTAGE_VALUE : Z := 10000.

(** The runtime values read from the environment when the module loads. *)
Class Constants : Type := {
  DUMMY_UTXO_VALUE : Z;
  DUMMY_UTXO_MAX_VALUE : Z;
  DUMMY_UTXO_MIN_VALUE : Z;
  ORDINALS_POSTAGE_VALUE : Z;
  PLATFORM_FEE_ADDRESS : string
}.

(** The values taken when no environment variable is set. *)
Definition defaultConstants : Constants := {|
  DUMMY_UTXO_VALUE := DEFAULT_DUMMY_UTXO_VALUE;
  DUMMY_UTXO_MAX_VALUE := DEFAULT_DUMMY_UTXO_MAX_VALUE;
  DUMMY_UTXO_MIN_VALUE := DEFAULT_DUMMY_UTXO_MIN_VALUE;
  ORDINALS_POSTAGE_VALUE := DEFAULT_ORDINALS_POSTAGE_VALUE;
  PLATFORM_FEE_ADDRESS := EmptyString
|}.

(** ** Providers (src/providers.ts) *)

Record IFeeProvider : Type := {
  getFees : string -> response Z
}.

(** ** src/vendors/feeprovider.ts *)

(** The parameter [includeChangeOutput : 0 | 1 = 1]: [None] is an omitted
    argument. *)
Definition changeOutputCount (includeChangeOutput : option bool) : Z :=
  match includeChangeOutput with
  | Some b => Z.b2z b
  | None => 1
  end.

Definition calculateTxBytesFeeWithRate
    (vinsLength voutsLength feeRate : Z) (includeChangeOutput : option bool) : Z :=
  let baseTxSize := 10 in
  let inSize := 180 in
  let outSize := 34 in
  let txSize :=
    baseTxSize
    + vinsLength * inSize
    + voutsLength * outSize
    + changeOutputCount includeChangeOutput * outSize in
  txSize * feeRate.

Definition calculateTxBytesFee
    (vinsLength voutsLength : Z) (feeRateTier : string)
    (feeProvider : IFeeProvider) (includeChangeOutput : option bool) : result Z :=
  feeRate <- await (getFees feeProvider feeRateTier) ;;
  Return (calculateTxBytesFeeWithRate vinsLength voutsLength feeRate includeChangeOutput).

Definition getSellerOrdOutputValue (price makerFeeBp prevUtxoValue : Z) : Z :=
  price - (price * makerFeeBp) / 10000 + prevUtxoValue.

(** ** Data model *)

(** The fields of [bitcoin.Network] read by the signer. *)
Module Network.
Record t : Type := { bech32 : string; pubKeyHash : Z; scriptHash : Z }.
End Network.

Module TxStatus.
Record t : Type := { confirmed : bool }.
End TxStatus.

Module AddressTxsUtxo.
Record t : Type := { txid : string; vout : Z; value : Z; status : TxStatus.t }.
End AddressTxsUtxo.

(** [bitcoin.Transaction]: inputs with their witness stacks, and outputs. *)
Module TxIn.
Record t : Type := {
  hash : Buffer; index : Z; script : Buffer; sequence : Z; witness : list Buffer
}.
End TxIn.

Module TxOut.
Record t : Type := { script : Buffer; value : Z }.
End TxOut.

Module Transaction.
Record t : Type := {
  version : Z; locktime : Z; ins : list TxIn.t; outs : list TxOut.t
}.
End Transaction.

Module MappedUtxo.
Record t : Type := {
  txid : string; vout : Z; value : Z; status : TxStatus.t; tx : Transaction.t
}.
End MappedUtxo.

Module IOrdItem.
Record t : Type := {
  id : string; owner : string; location : string; output : string; outputValue : Z
}.
End IOrdItem.

(** [IGetRawTransactionVerboseResult] *)
Module Vin.
Record t : Type := { txid : string; vout : Z }.
End Vin.

Module VerboseTx.
Record t : Type := { confirmations : Z; vin : list Vin.t }.
End VerboseTx.

(** [IAnalyzePSBTResult]; only [is_final] of each input is read. *)
Module AnalyzeInput.
Record t : Type := { is_final : bool }.
End AnalyzeInput.

Module AnalyzeResult.
Record t : Type := { inputs : list AnalyzeInput.t }.
End AnalyzeResult.

Record IRPCProvider : Type := {
  getrawtransaction : string -> response string;
  getrawtransactionVerbose : string -> response VerboseTx.t;
  (* [None] is a nullish answer, which the caller guards with [?.] *)
  analyzepsbt : string -> response (option AnalyzeResult.t)
}.

Record IItemProvider : Type := {
  getTokenByOutput : string -> response (option IOrdItem.t)
}.

Record IMarketplaceFeeProvider : Type := {
  getMakerFeeBp : string -> response Z
}.

(** *** PSBT *)

(** Per-input PSBT fields ([psbt.data.inputs]). *)
Module PsbtInput.
Record t : Type := {
  nonWitnessUtxo : option Buffer;
  witnessUtxo : option TxOut.t;
  sighashType : option Z;
  tapInternalKey : option Buffer;
  redeemScript : option Buffer;
  finalScriptWitness : option Buffer
}.
End PsbtInput.

(** An element of [psbt.txOutputs]; [address] is [undefined] when the script
    has no address form. *)
Module PsbtTxOutput.
Record t : Type := { address : option string; value : Z }.
End PsbtTxOutput.

(** [bitcoin.Psbt]: the unsigned transaction of the global map ([version],
    [locktime], [ins], [outs]) and the per-input and per-output maps. *)
Module Psbt.
Record t : Type := {
  version : Z;
  locktime : Z;
  ins : JsArray TxIn.t;
  outs : list PsbtTxOutput.t;
  inputs : JsArray PsbtInput.t;
  outputs : list Buffer
}.

(** [new bitcoin.Psbt({ network })] *)
Definition empty : t :=
  {| version := 2; locktime := 0; ins := []; outs := []; inputs := []; outputs := [] |}.

Definition inputCount (p : t) : nat := List.length (inputs p).
Definition txInputs (p : t) : JsArray TxIn.t := ins p.
Definition txOutputs (p : t) : list PsbtTxOutput.t := outs p.
End Psbt.

(** The object handed to [psbt.addInput]. *)
Module InputArg.
Record t : Type := {
  hash : string;
  index : option Z;          (* [parseInt] may give [NaN] *)
  nonWitnessUtxo : Buffer;
  witnessUtxo : option TxOut.t;
  sighashType : option Z;
  tapInternalKey : option Buffer;
  redeemScript : option Buffer
}.
End InputArg.

(** The object handed to [psbt.addOutput]. *)
Module OutputArg.
Record t : Type := { address : string; value : Z }.
End OutputArg.

Module Bech32Result.
Record t : Type := { version : Z; prefix : string; data : Buffer }.
End Bech32Result.

(** *** Listing state ([IListingState]) *)

Module Seller.
Record t : Type := {
  makerFeeBp : Z;
  sellerOrdAddress : string;
  price : Z;
  ordItem : IOrdItem.t;
  sellerReceiveAddress : string;
  unsignedListingPSBTBase64 : option string;
  signedListingPSBTBase64 : option string;
  tapInternalKey : option string
}.

Definition set_unsignedListingPSBTBase64 (s : t) (v : string) : t :=
  {| makerFeeBp := makerFeeBp s;
     sellerOrdAddress := sellerOrdAddress s;
     price := price s;
     ordItem := ordItem s;
     sellerReceiveAddress := sellerReceiveAddress s;
     unsignedListingPSBTBase64 := Some v;
     signedListingPSBTBase64 := signedListingPSBTBase64 s;
     tapInternalKey := tapInternalKey s |}.
End Seller.

Module Buyer.
Record t : Type := {
  takerFeeBp : Z;
  buyerAddress : string;
  buyerTokenReceiveAddress : string;
  feeRateTier : string;
  buyerPublicKey : option string;
  unsignedBuyingPSBTBase64 : option string;
  unsignedBuyingPSBTInputSize : option Z;
  signedBuyingPSBTBase64 : option string;
  buyerDummyUTXOs : option (list MappedUtxo.t);
  buyerPaymentUTXOs : option (list AddressTxsUtxo.t);
  mergedSignedBuyingPSBTBase64 : option string
}.

Definition set_unsignedBuyingPSBT (b : t) (base64 : string) (size : Z) : t :=
  {| takerFeeBp := takerFeeBp b;
     buyerAddress := buyerAddress b;
     buyerTokenReceiveAddress := buyerTokenReceiveAddress b;
     feeRateTier := feeRateTier b;
     buyerPublicKey := buyerPublicKey b;
     unsignedBuyingPSBTBase64 := Some base64;
     unsignedBuyingPSBTInputSize := Some size;
     signedBuyingPSBTBase64 := signedBuyingPSBTBase64 b;
     buyerDummyUTXOs := buyerDummyUTXOs b;
     buyerPaymentUTXOs := buyerPaymentUTXOs b;
     mergedSignedBuyingPSBTBase64 := mergedSignedBuyingPSBTBase64 b |}.
End Buyer.

Module IListingState.
Record t : Type := {
  network : Network.t;
  seller : Seller.t;
  buyer : option Buyer.t
}.
End IListingState.

(** [IOrdAPIPostPSBTListing] *)
Module IOrdAPIPostPSBTListing.
Record t : Type := {
  price : Z;
  tokenId : string;
  sellerReceiveAddress : string;
  signedListingPSBTBase64 : string;
  tapInternalKey : option string
}.
End IOrdAPIPostPSBTListing.

Module SignerConfig.
Record t : Type := {
  network : Network.t;
  rpcProvider : IRPCProvider;
  feeProvider : IFeeProvider;
  itemProvider : IItemProvider;
  marketplaceFeeProvider : option IMarketplaceFeeProvider;
  platformFeeAddress : option string
}.
End SignerConfig.

(** ** The library boundary *)

(** Operations of [bitcoinjs-lib], of Node's [Buffer] and of the JavaScript
    core that the signer calls.  Those that can throw return a [response], or an
    [option] where every call site catches the exception. *)
Class BitcoinJs : Type := {
  (* bitcoin.address *)
  fromBase58Check : string -> option (Z * Buffer);
  fromBech32 : string -> option Bech32Result.t;
  fromOutputScript : Buffer -> Network.t -> response string;
  (* bitcoin.Transaction *)
  Transaction_fromHex : string -> response Transaction.t;
  Transaction_toBuffer : Transaction.t -> Buffer;
  (* bitcoin.payments *)
  p2wpkh_output : Buffer -> response Buffer;
  p2sh_output : Buffer -> response Buffer;
  (* bitcoin.Psbt: parsing, serialisation, and the validation that
     [addInput] and [addOutput] run before they append *)
  Psbt_fromBase64 : string -> Network.t -> response Psbt.t;
  Psbt_toBase64 : Psbt.t -> response string;
  checkInput : Psbt.t -> InputArg.t -> response unit;
  checkOutput : Psbt.t -> OutputArg.t -> response unit;
  (* Buffer.from(s, 'hex') *)
  Buffer_from_hex : string -> Buffer;
  (* Number(x) and parseInt(x); the argument [None] is [undefined], the result
     [None] is any value that is not an integer (NaN included) *)
  Number : option string -> option Z;
  parseInt : option string -> option Z;
  (* the process-wide default RPC client *)
  getDefaultRPC : IRPCProvider
}.

(** Decimal rendering of an integer inside a template literal. *)
Definition string_of_Z (z : Z) : string :=
  DecimalString.NilZero.string_of_int (Z.to_int z).

(** [s.toLowerCase()] on ASCII text. *)
Definition lower_ascii (c : ascii) : ascii :=
  let n := nat_of_ascii c in
  if (Nat.leb 65 n && Nat.leb n 90)%bool then ascii_of_nat (n + 32) else c.

Fixpoint toLowerCase (s : string) : string :=
  match s with
  | EmptyString => EmptyString
  | String c rest => String (lower_ascii c) (toLowerCase rest)
  end.

Definition startsWith (s p : string) : bool := String.prefix p s.

Definition isSome {A : Type} (o : option A) : bool :=
  match o with
  | Some _ => true
  | None => false
  end.

Inductive AddressType : Type := p2pkh | p2sh | p2wpkh | p2wsh | p2tr | unknown.

(** ** src/vendors/mempool.ts *)

(** A property of an object literal: absent, present with the value
    [undefined], or present with a value. *)
Inductive property (A : Type) : Type :=
| Absent
| Undefined
| Present (a : A).
Arguments Absent {A}.
Arguments Undefined {A}.
Arguments Present {A} a.

(** [p ?? d] *)
Definition nullish_or {A : Type} (p : property A) (d : A) : A :=
  match p with
  | Present a => a
  | _ => d
  end.

(** What [{ ...base, ...over }] holds at a key where [base] holds [b] and
    [over] has the property [p]; [None] is [undefined]. *)
Definition spread {A : Type} (b : option A) (p : property A) : option A :=
  match p with
  | Absent => b
  | Undefined => None
  | Present a => Some a
  end.

(** [Partial<FeesRecommended>] *)
Module PartialFees.
Record t : Type := {
  fastestFee : property Z;
  halfHourFee : property Z;
  hourFee : property Z;
  minimumFee : property Z
}.

(** The default argument [{}]. *)
Definition empty : t :=
  {| fastestFee := Absent; halfHourFee := Absent; hourFee := Absent; minimumFee := Absent |}.
End PartialFees.

(** [FeesRecommended] as an object at run time: a field [None] is
    [undefined]. *)
Module FeesRecommended.
Record t : Type := {
  fastestFee : option Z;
  halfHourFee : option Z;
  hourFee : option Z;
  minimumFee : option Z
}.
End FeesRecommended.

Module StaticFeeProvider.
Record t : Type := { fees : FeesRecommended.t }.

(** [new StaticFeeProvider(fees)] *)
Definition new (fees : PartialFees.t) : t :=
  {| fees :=
       {| FeesRecommended.fastestFee := Some (nullish_or (PartialFees.fastestFee fees) 20);
          FeesRecommended.halfHourFee := Some (nullish_or (PartialFees.halfHourFee fees) 10);
          FeesRecommended.hourFee := Some (nullish_or (PartialFees.hourFee fees) 5);
          FeesRecommended.minimumFee := Some (nullish_or (PartialFees.minimumFee fees) 1) |} |}.

(** The promise of [getFees] always resolves; [None] is [undefined]. *)
Definition getFees (this : t) (feeRateTier : string) : option Z :=
  if (feeRateTier =? "fastestFee")%string then FeesRecommended.fastestFee (fees this)
  else if (feeRateTier =? "halfHourFee")%string then FeesRecommended.halfHourFee (fees this)
  else if (feeRateTier =? "hourFee")%string then FeesRecommended.hourFee (fees this)
  else if (feeRateTier =? "minimumFee")%string then FeesRecommended.minimumFee (fees this)
  else FeesRecommended.hourFee (fees this).

Definition getFeesRecommended (this : t) : FeesRecommended.t := fees this.

(** [this.fees = { ...this.fees, ...fees }] *)
Definition setFees (this : t) (fees' : PartialFees.t) : t :=
  {| fees :=
       {| FeesRecommended.fastestFee :=
            spread (FeesRecommended.fastestFee (fees this)) (PartialFees.fastestFee fees');
          FeesRecommended.halfHourFee :=
            spread (FeesRecommended.halfHourFee (fees this)) (PartialFees.halfHourFee fees');
          FeesRecommended.hourFee :=
            spread (FeesRecommended.hourFee (fees this)) (PartialFees.hourFee fees');
          FeesRecommended.minimumFee :=
            spread (FeesRecommended.minimumFee (fees this)) (PartialFees.minimumFee fees') |} |}.
End StaticFeeProvider.

(** [MempoolProvider], with the one call of the mempool.space client that
    [getFees] makes. *)
Module MempoolProvider.
Record t : Type := { api_fees_getFeesRecommended : response FeesRecommended.t }.

Definition getFeesRecommended (this : t) : response FeesRecommended.t :=
  api_fees_getFeesRecommended this.

Definition getFees (this : t) (feeRateTier : string) : response (option Z) :=
  match getFeesRecommended this with
  | Answer res =>
      Answer
        (if (feeRateTier =? "fastestFee")%string then FeesRecommended.fastestFee res
         else if (feeRateTier =? "halfHourFee")%string then FeesRecommended.halfHourFee res
         else if (feeRateTier =? "hourFee")%string then FeesRecommended.hourFee res
         else if (feeRateTier =? "minimumFee")%string then FeesRecommended.minimumFee res
         else FeesRecommended.hourFee res)
  | Failure reason => Failure reason
  end.
End MempoolProvider.

(** The four members of [FeeRateTier]. *)
Definition knownTier (feeRateTier : string) : bool :=
  (feeRateTier =? "fastestFee")%string || (feeRateTier =? "halfHourFee")%string
  || (feeRateTier =? "hourFee")%string || (feeRateTier =? "minimumFee")%string.

(** The property of a partial fee object that a tier selects, and the rate
    that the constructor of [StaticFeeProvider] takes when it is missing. *)
Definition selectedFee (fees : PartialFees.t) (feeRateTier : string) : property Z :=
  if (feeRateTier =? "fastestFee")%string then PartialFees.fastestFee fees
  else if (feeRateTier =? "halfHourFee")%string then PartialFees.halfHourFee fees
  else if (feeRateTier =? "minimumFee")%string then PartialFees.minimumFee fees
  else PartialFees.hourFee fees.

Definition defaultRate (feeRateTier : string) : Z :=
  if (feeRateTier =? "fastestFee")%string then 20
  else if (feeRateTier =? "halfHourFee")%string then 10
  else if (feeRateTier =? "minimumFee")%string then 1
  else 5.

(** ** src/networks.ts *)

(** [ChainNetwork], without its URL fields; an optional field [None] is
    absent. *)
Module ChainNetwork.
Record t : Type := {
  name : string;
  symbol : string;
  network : Network.t;
  supportsSegwit : bool;
  supportsTaproot : bool;
  defaultRpcPort : option Z;
  minimumFee : option Z;
  dustLimit : option Z
}.
End ChainNetwork.

(** What reading a property of an object literal gives: an own property, a
    member inherited from [Object.prototype] (a function or an object, which
    is truthy and has no property [network]), or [undefined]. *)
Inductive member (A : Type) : Type :=
| Own (a : A)
| Inherited
| NoMember.
Arguments Own {A} a.
Arguments Inherited {A}.
Arguments NoMember {A}.

Definition Object_prototype_keys : list string :=
  [ "constructor"; "__defineGetter__"; "__defineSetter__"; "hasOwnProperty";
    "__lookupGetter__"; "__lookupSetter__"; "isPrototypeOf"; "propertyIsEnumerable";
    "toString"; "valueOf"; "__proto__"; "toLocaleString" ].

Fixpoint own_property {A : Type} (key : string) (entries : list (string * A)) : option A :=
  match entries with
  | [] => None
  | (k, v) :: rest => if (key =? k)%string then Some v else own_property key rest
  end.

(** [object[key]] on an object literal with the given entries. *)
Definition get_member {A : Type} (entries : list (string * A)) (key : string) : member A :=
  match own_property key entries with
  | Some v => Own v
  | None =>
      if existsb (String.eqb key) Object_prototype_keys then Inherited else NoMember
  end.

(** [[...new Set(names)]]: the first occurrence of each name, in order. *)
Fixpoint unique_from (seen : list string) (names : list string) : list string :=
  match names with
  | [] => []
  | n :: rest =>
      if existsb (String.eqb n) seen then unique_from seen rest
      else n :: unique_from (n :: seen) rest
  end.

Definition unique (names : list string) : list string := unique_from [] names.

(** The outcome of [getNetwork]: a chain, an inherited member handed out as
    if it were a chain, or the [Error] thrown. *)
Inductive NetworkLookup : Type :=
| NetworkFound (chain : ChainNetwork.t)
| NetworkInherited
| UnknownNetwork (message : string).

(** The first argument of [createSignerConfig]. *)
Inductive ChainArgument : Type :=
| ByObject (chain : ChainNetwork.t)
| ByName (name : string).

(** The object that [createSignerConfig] returns; [network] is [undefined]
    when the chain was an inherited member. *)
Module SignerConfigObject.
Record t : Type := {
  network : option Network.t;
  rpcProvider : IRPCProvider;
  feeProvider : IFeeProvider;
  itemProvider : IItemProvider;
  marketplaceFeeProvider : option IMarketplaceFeeProvider;
  platformFeeAddress : string
}.
End SignerConfigObject.

(** [process.env]: a variable that is not set reads [undefined]. *)
Definition Environment : Type := string -> option string.

Definition bitcoin_networks_testnet : Network.t :=
  {| Network.bech32 := "tb"; Network.pubKeyHash := 111; Network.scriptHash := 196 |}.

(** [FullnodeRPC] of [src/vendors/fullnoderpc.ts], an instance being the
    configuration it was built from, and the module-level default instance.
    [Number] is the JavaScript conversion; a [port] or [timeout] of [None]
    is a value that is not an integer. *)
Module FullnodeRPC.
Record t : Type := {
  host : string;
  port : option Z;
  user : string;
  pass : string;
  timeout : option Z
}.

(** [FullnodeRPC.fromEnv()] *)
Definition fromEnv (Number : option string -> option Z) (env : Environment) : t :=
  {| host := or_else (env "BITCOIN_RPC_HOST") "http://localhost";
     port := match env "BITCOIN_RPC_PORT" with
             | Some value => Number (Some value)
             | None => Some 8332
             end;
     user := or_else (env "BITCOIN_RPC_USER") "__cookie__";
     pass := or_else (env "BITCOIN_RPC_PASS") EmptyString;
     timeout := match env "BITCOIN_RPC_TIMEOUT" with
                | Some value => Number (Some value)
                | None => Some 120000
                end |}.

(** [getDefaultRPC()] on the module variable [defaultInstance]: the instance
    returned and the variable as the call leaves it. *)
Definition getDefaultRPC (Number : option string -> option Z) (env : Environment)
    (defaultInstance : option t) : t * option t :=
  match defaultInstance with
  | Some instance => (instance, Some instance)
  | None => (fromEnv Number env, Some (fromEnv Number env))
  end.

(** [setDefaultRPC(instance)] *)
Definition setDefaultRPC (instance : t) (defaultInstance : option t) : option t :=
  Some instance.
End FullnodeRPC.

(** ** A test double of the library and of the providers

    Small concrete instances on which the definitions evaluate; the
    scenario is the swap S1 of the specification (price 100000, maker fee
    100 bp, taker fee 200 bp, postage 10000, offset 0, two dummies of 600). *)

Definition hex_value (c : ascii) : option N :=
  let n := N_of_ascii c in
  if (N.leb 48 n && N.leb n 57)%bool then Some (n - 48)%N
  else if (N.leb 97 n && N.leb n 102)%bool then Some (n - 87)%N
  else if (N.leb 65 n && N.leb n 70)%bool then Some (n - 55)%N
  else None.

(** [Buffer.from(s, 'hex')]: decoding stops at the first pair that is not
    hexadecimal. *)
Fixpoint bytes_of_hex (s : string) : Buffer :=
  match s with
  | String a (String b rest) =>
      match hex_value a, hex_value b with
      | Some x, Some y =>
          match Byte.of_N (16 * x + y) with
          | Some byte => byte :: bytes_of_hex rest
          | None => []
          end
      | _, _ => []
      end
  | _ => []
  end.

Definition digit_value (c : ascii) : option Z :=
  let n := N_of_ascii c in
  if (N.leb 48 n && N.leb n 57)%bool then Some (Z.of_N (n - 48)) else None.

Fixpoint decimal_digits (acc : Z) (s : string) : option Z :=
  match s with
  | EmptyString => Some acc
  | String c rest =>
      match digit_value c with
      | Some d => decimal_digits (10 * acc + d) rest
      | None => None
      end
  end.

(** [Number] and [parseInt] restricted to plain decimal numerals. *)
Definition decimalNumber (x : option string) : option Z :=
  match x with
  | Some s => decimal_digits 0 s
  | None => None
  end.

Definition decimalParseInt (x : option string) : option Z :=
  match x with
  | Some (String c rest) => decimal_digits 0 (String c rest)
  | _ => None
  end.

Definition sampleTxid : string :=
  "00000000000000000000000000000000000000000000000000000000000000aa".

Definition sampleItem : IOrdItem.t :=
  {| IOrdItem.id := "inscription-0";
     IOrdItem.owner := "seller-ord";
     IOrdItem.location := sampleTxid ++ ":0:0";
     IOrdItem.output := sampleTxid ++ ":0";
     IOrdItem.outputValue := 10000 |}.

Definition sampleTx : Transaction.t :=
  {| Transaction.version := 2;
     Transaction.locktime := 0;
     Transaction.ins := [];
     Transaction.outs := [ {| TxOut.script := bytes_of_hex "51"; TxOut.value := 10000 |} ] |}.

Definition sampleRPC : IRPCProvider :=
  {| getrawtransaction := fun _ => Answer "rawtx";
     getrawtransactionVerbose :=
       fun _ => Answer {| VerboseTx.confirmations := 6; VerboseTx.vin := [] |};
     analyzepsbt :=
       fun _ => Answer (Some {| AnalyzeResult.inputs := [ {| AnalyzeInput.is_final := true |} ] |}) |}.

Definition sampleFees : IFeeProvider := {| getFees := fun _ => Answer 1 |}.

Definition sampleItems : IItemProvider :=
  {| getTokenByOutput := fun _ => Answer (Some sampleItem) |}.

(** An indexer that knows no inscription. *)
Definition emptyIndexer : IItemProvider := {| getTokenByOutput := fun _ => Answer None |}.

Definition sampleMarketplace : IMarketplaceFeeProvider :=
  {| getMakerFeeBp := fun _ => Answer 100 |}.

(** A signed listing with one input and the payout output, and the same
    listing stripped of its output. *)
Definition signedListingPsbt : Psbt.t :=
  {| Psbt.version := 2;
     Psbt.locktime := 0;
     Psbt.ins :=
       [ Some {| TxIn.hash := rev (bytes_of_hex sampleTxid); TxIn.index := 0;
                 TxIn.script := []; TxIn.sequence := 4294967295; TxIn.witness := [] |} ];
     Psbt.outs :=
       [ {| PsbtTxOutput.address := Some "seller-receive"; PsbtTxOutput.value := 109000 |} ];
     Psbt.inputs :=
       [ Some {| PsbtInput.nonWitnessUtxo := Some [];
                 PsbtInput.witnessUtxo := None;
                 PsbtInput.sighashType := Some 131;
                 PsbtInput.tapInternalKey := None;
                 PsbtInput.redeemScript := None;
                 PsbtInput.finalScriptWitness := None |} ];
     Psbt.outputs := [ [] ] |}.

(** The listing of scenario S5, paying one satoshi less than the payout. *)
Definition tamperedListingPsbt : Psbt.t :=
  {| Psbt.version := 2;
     Psbt.locktime := 0;
     Psbt.ins := Psbt.ins signedListingPsbt;
     Psbt.outs :=
       [ {| PsbtTxOutput.address := Some "seller-receive"; PsbtTxOutput.value := 108999 |} ];
     Psbt.inputs := Psbt.inputs signedListingPsbt;
     Psbt.outputs := [ [] ] |}.

Definition listingPsbtWithoutOutput : Psbt.t :=
  {| Psbt.version := 2;
     Psbt.locktime := 0;
     Psbt.ins := Psbt.ins signedListingPsbt;
     Psbt.outs := [];
     Psbt.inputs := Psbt.inputs signedListingPsbt;
     Psbt.outputs := [] |}.

(** A signed buying PSBT with four inputs, slot 2 holding a placeholder. *)
Definition placeholderIn (n : Z) : option TxIn.t :=
  Some {| TxIn.hash := []; TxIn.index := n; TxIn.script := [];
          TxIn.sequence := 4294967295; TxIn.witness := [] |}.

Definition placeholderInput : option PsbtInput.t :=
  Some {| PsbtInput.nonWitnessUtxo := None;
          PsbtInput.witnessUtxo := None;
          PsbtInput.sighashType := None;
          PsbtInput.tapInternalKey := None;
          PsbtInput.redeemScript := None;
          PsbtInput.finalScriptWitness := None |}.

Definition signedBuyingPsbt : Psbt.t :=
  {| Psbt.version := 2;
     Psbt.locktime := 0;
     Psbt.ins := [ placeholderIn 0; placeholderIn 1; placeholderIn 2; placeholderIn 3 ];
     Psbt.outs :=
       [ {| PsbtTxOutput.address := Some "buyer"; PsbtTxOutput.value := 1200 |};
         {| PsbtTxOutput.address := Some "buyer-ordinals"; PsbtTxOutput.value := 10000 |};
         {| PsbtTxOutput.address := Some "seller-receive"; PsbtTxOutput.value := 109000 |} ];
     Psbt.inputs := [ placeholderInput; placeholderInput; placeholderInput; placeholderInput ];
     Psbt.outputs := [ []; []; [] ] |}.

(** *** Bech32 (BIP 173, BIP 350) as [bitcoin.address.fromBech32] decodes it *)

Definition bech32_charset : string := "qpzry9x8gf2tvdw0s3jn54khce6mua7l".

Fixpoint index_of (c : ascii) (s : string) (i : Z) : option Z :=
  match s with
  | EmptyString => None
  | String d rest => if Ascii.eqb c d then Some i else index_of c rest (i + 1)
  end.

Definition bech32_generators : list Z :=
  [996825010; 642813549; 513874426; 1027748829; 705979059].

Definition polymod_step (chk v : Z) : Z :=
  let b := Z.shiftr chk 25 in
  let chk := Z.lxor (Z.shiftl (Z.land chk 33554431) 5) v in
  fst (fold_left
         (fun '(acc, i) g => (if Z.testbit b i then Z.lxor acc g else acc, i + 1))
         bech32_generators (chk, 0)).

Definition polymod (values : list Z) : Z := fold_left polymod_step values 1.

Definition code_of (c : ascii) : Z := Z.of_N (N_of_ascii c).

Definition hrp_expand (hrp : string) : list Z :=
  (map (fun c => Z.shiftr (code_of c) 5) (list_ascii_of_string hrp)
   ++ [0]
   ++ map (fun c => Z.land (code_of c) 31) (list_ascii_of_string hrp))%list.

(** Position of the last separator [1]. *)
Fixpoint last_one (s : string) (i : nat) (found : option nat) : option nat :=
  match s with
  | EmptyString => found
  | String c rest => last_one rest (S i) (if Ascii.eqb c "1"%char then Some i else found)
  end.

Fixpoint words_of (s : string) : option (list Z) :=
  match s with
  | EmptyString => Some []
  | String c rest =>
      match index_of c bech32_charset 0, words_of rest with
      | Some v, Some vs => Some (v :: vs)
      | _, _ => None
      end
  end.

(** Regrouping of 5-bit words into bytes, without padding. *)
Fixpoint from_words (words : list Z) (acc bits : Z) : option (list Z) :=
  match words with
  | [] => if (bits <? 5) && (Z.land acc (Z.shiftl 1 bits - 1) =? 0) then Some [] else None
  | w :: rest =>
      let acc := Z.lor (Z.shiftl acc 5) w in
      let bits := bits + 5 in
      if 8 <=? bits then
        match from_words rest (Z.land acc (Z.shiftl 1 (bits - 8) - 1)) (bits - 8) with
        | Some bytes => Some (Z.shiftr acc (bits - 8) :: bytes)
        | None => None
        end
      else from_words rest acc bits
  end.

Definition upper_ascii (c : ascii) : ascii :=
  let n := nat_of_ascii c in
  if (Nat.leb 97 n && Nat.leb n 122)%bool then ascii_of_nat (n - 32) else c.

Fixpoint toUpperCase (s : string) : string :=
  match s with
  | EmptyString => EmptyString
  | String c rest => String (upper_ascii c) (toUpperCase rest)
  end.

(** The human-readable part and the data words of a string whose checksum
    is [checksum] (1 for bech32, 734539939 for bech32m). *)
Definition bech32_decode (checksum : Z) (address : string) : option (string * list Z) :=
  let lowered := toLowerCase address in
  if negb ((address =? lowered)%string || (address =? toUpperCase address)%string) then None
  else if Nat.ltb 90 (String.length lowered) then None
  else
    match last_one lowered 0 None with
    | Some i =>
        let hrp := substring 0 i lowered in
        let dataPart := substring (S i) (String.length lowered) lowered in
        if Nat.eqb i 0 || Nat.ltb (String.length dataPart) 6 then None
        else
          match words_of dataPart with
          | Some ws =>
              if polymod (hrp_expand hrp ++ ws) =? checksum
              then Some (hrp, firstn (List.length ws - 6) ws)
              else None
          | None => None
          end
    | None => None
    end.

Fixpoint bytes_of_Z (l : list Z) : option Buffer :=
  match l with
  | [] => Some []
  | z :: rest =>
      match Byte.of_N (Z.to_N z), bytes_of_Z rest with
      | Some b, Some bs => Some (b :: bs)
      | _, _ => None
      end
  end.

(** Witness version 0 comes in bech32, the other versions in bech32m. *)
Definition bech32_fromBech32 (address : string) : option Bech32Result.t :=
  let decoded :=
    match bech32_decode 1 address with
    | Some (hrp, v :: ws) => if v =? 0 then Some (hrp, v, ws) else None
    | Some (_, []) => None
    | None =>
        match bech32_decode 734539939 address with
        | Some (hrp, v :: ws) => if v =? 0 then None else Some (hrp, v, ws)
        | _ => None
        end
    end in
  match decoded with
  | Some (hrp, v, ws) =>
      match from_words ws 0 0 with
      | Some bytes =>
          match bytes_of_Z bytes with
          | Some data =>
              Some {| Bech32Result.version := v; Bech32Result.prefix := hrp;
                      Bech32Result.data := data |}
          | None => None
          end
      | None => None
      end
  | None => None
  end.

(** The witness program of the BIP 173 test addresses. *)
Definition bip173Program : Buffer :=
  bytes_of_hex "751e76e8199196d454941c45d1b3a323f1433bd6".

Definition mainnetP2WPKH : string := "bc1qw508d6qejxtdg4y5r3zarvary0c5xw7kv8f3t4".
Definition testnetP2WPKH : string := "tb1qw508d6qejxtdg4y5r3zarvary0c5xw7kxpjzsx".

Definition sampleLib : BitcoinJs :=
  {| fromBase58Check := fun _ => None;
     fromBech32 := bech32_fromBech32;
     fromOutputScript := fun _ _ => Answer "seller-ord";
     Transaction_fromHex := fun _ => Answer sampleTx;
     Transaction_toBuffer := fun _ => [];
     p2wpkh_output := fun b => Answer b;
     p2sh_output := fun b => Answer b;
     Psbt_fromBase64 :=
       fun s _ =>
         if (s =? "signed-listing")%string then Answer signedListingPsbt
         else if (s =? "tampered-listing")%string then Answer tamperedListingPsbt
         else if (s =? "listing-without-output")%string then Answer listingPsbtWithoutOutput
         else if (s =? "signed-buying")%string then Answer signedBuyingPsbt
         else Failure "Format Error: Invalid Magic Number";
     Psbt_toBase64 := fun _ => Answer "psbt-base64";
     checkInput := fun _ _ => Answer tt;
     checkOutput := fun _ _ => Answer tt;
     Buffer_from_hex := bytes_of_hex;
     Number := decimalNumber;
     parseInt := decimalParseInt;
     getDefaultRPC := sampleRPC |}.

Definition sampleNetwork : Network.t :=
  {| Network.bech32 := "bc"; Network.pubKeyHash := 0; Network.scriptHash := 5 |}.

Definition sampleDummy (txid : string) : MappedUtxo.t :=
  {| MappedUtxo.txid := txid;
     MappedUtxo.vout := 0;
     MappedUtxo.value := 600;
     MappedUtxo.status := {| TxStatus.confirmed := true |};
     MappedUtxo.tx := sampleTx |}.

Definition sampleSeller : Seller.t :=
  {| Seller.makerFeeBp := 100;
     Seller.sellerOrdAddress := "seller-ord";
     Seller.price := 100000;
     Seller.ordItem := sampleItem;
     Seller.sellerReceiveAddress := "seller-receive";
     Seller.unsignedListingPSBTBase64 := None;
     Seller.signedListingPSBTBase64 := None;
     Seller.tapInternalKey := None |}.

Definition sampleBuyer (funds : Z) : Buyer.t :=
  {| Buyer.takerFeeBp := 200;
     Buyer.buyerAddress := "buyer";
     Buyer.buyerTokenReceiveAddress := "buyer-ordinals";
     Buyer.feeRateTier := "hourFee";
     Buyer.buyerPublicKey := None;
     Buyer.unsignedBuyingPSBTBase64 := None;
     Buyer.unsignedBuyingPSBTInputSize := None;
     Buyer.signedBuyingPSBTBase64 := None;
     Buyer.buyerDummyUTXOs := Some [ sampleDummy "d1"; sampleDummy "d2" ];
     Buyer.buyerPaymentUTXOs :=
       Some [ {| AddressTxsUtxo.txid := "funds"; AddressTxsUtxo.vout := 0;
                 AddressTxsUtxo.value := funds;
                 AddressTxsUtxo.status := {| TxStatus.confirmed := true |} |} ];
     Buyer.mergedSignedBuyingPSBTBase64 := None |}.

(** The listing of scenario S1, the buyer holding [funds] satoshis besides
    the dummies. *)
Definition sampleListing (funds : Z) : IListingState.t :=
  {| IListingState.network := sampleNetwork;
     IListingState.seller := sampleSeller;
     IListingState.buyer := Some (sampleBuyer funds) |}.

Definition sampleRequest (signed : string) : IOrdAPIPostPSBTListing.t :=
  {| IOrdAPIPostPSBTListing.price := 100000;
     IOrdAPIPostPSBTListing.tokenId := "inscription-0";
     IOrdAPIPostPSBTListing.sellerReceiveAddress := "seller-receive";
     IOrdAPIPostPSBTListing.signedListingPSBTBase64 := signed;
     IOrdAPIPostPSBTListing.tapInternalKey := None |}.

Definition sampleConfig : SignerConfig.t :=
  {| SignerConfig.network := sampleNetwork;
     SignerConfig.rpcProvider := sampleRPC;
     SignerConfig.feeProvider := sampleFees;
     SignerConfig.itemProvider := sampleItems;
     SignerConfig.marketplaceFeeProvider := Some sampleMarketplace;
     SignerConfig.platformFeeAddress := Some "platform" |}.



(** The same child on a node that knows every parent as confirmed, with an
    indexer that holds an inscription on the second parent's output. *)
Definition syncedNode : IRPCProvider :=
  {| getrawtransaction := fun _ => Answer "rawtx";
     getrawtransactionVerbose :=
       fun txid =>
         if (txid =? "child")%string then
           Answer {| VerboseTx.confirmations := 0;
                     VerboseTx.vin := [ {| Vin.txid := "parent-a"; Vin.vout := 0 |};
                                        {| Vin.txid := "parent-b"; Vin.vout := 1 |} ] |}
         else Answer {| VerboseTx.confirmations := 3; VerboseTx.vin := [] |};
     analyzepsbt := fun _ => Answer None |}.

Definition taintedIndexer : IItemProvider :=
  {| getTokenByOutput :=
       fun outpoint =>
         if (outpoint =? "parent-b:1")%string then Answer (Some sampleItem) else Answer None |}.

Definition confirmedUtxo (txid : string) (value : Z) : AddressTxsUtxo.t :=
  {| AddressTxsUtxo.txid := txid; AddressTxsUtxo.vout := 0;
     AddressTxsUtxo.value := value;
     AddressTxsUtxo.status := {| TxStatus.confirmed := true |} |}.

(** The listing of scenario S2: price 100000000, maker fee 100 bp, no taker
    fee, the inscription at offset 3000 of its output. *)
Definition legacyListing : IListingState.t :=
  {| IListingState.network :=
       {| Network.bech32 := "jc"; Network.pubKeyHash := 16; Network.scriptHash := 5 |};
     IListingState.seller :=
       {| Seller.makerFeeBp := 100;
          Seller.sellerOrdAddress := "seller-ord";
          Seller.price := 100000000;
          Seller.ordItem :=
            {| IOrdItem.id := "inscription-0";
               IOrdItem.owner := "seller-ord";
               IOrdItem.location := sampleTxid ++ ":0:3000";
               IOrdItem.output := sampleTxid ++ ":0";
               IOrdItem.outputValue := 10000 |};
          Seller.sellerReceiveAddress := "seller-receive";
          Seller.unsignedListingPSBTBase64 := None;
          Seller.signedListingPSBTBase64 := None;
          Seller.tapInternalKey := None |};
     IListingState.buyer :=
       Some {| Buyer.takerFeeBp := 0;
               Buyer.buyerAddress := "buyer";
               Buyer.buyerTokenReceiveAddress := "buyer-ordinals";
               Buyer.feeRateTier := "hourFee";
               Buyer.buyerPublicKey := None;
               Buyer.unsignedBuyingPSBTBase64 := None;
               Buyer.unsignedBuyingPSBTInputSize := None;
               Buyer.signedBuyingPSBTBase64 := None;
               Buyer.buyerDummyUTXOs := Some [ sampleDummy "d1"; sampleDummy "d2" ];
               Buyer.buyerPaymentUTXOs := Some [ confirmedUtxo "funds" 200000000 ];
               Buyer.mergedSignedBuyingPSBTBase64 := None |} |}.

(** The wallet of scenario S3: a tainted unconfirmed output of dummy size,
    a clean one, and a large one. *)
Definition taintedWallet : list AddressTxsUtxo.t :=
  [ {| AddressTxsUtxo.txid := "child"; AddressTxsUtxo.vout := 0;
       AddressTxsUtxo.value := 700;
       AddressTxsUtxo.status := {| TxStatus.confirmed := false |} |};
    confirmedUtxo "clean" 700;
    confirmedUtxo "large" 50000 ].

(** The output values of an assembled PSBT. *)
Definition outputValues (r : result (Buyer.t * Psbt.t)) : option (list Z) :=
  match r with
  | Return (_, psbt) => Some (map PsbtTxOutput.value (Psbt.txOutputs psbt))
  | Throw _ => None
  end.

(** A wallet of four UTXOs, one of them of dummy size. *)
Definition sampleWallet : list AddressTxsUtxo.t :=
  [ confirmedUtxo "a" 500; confirmedUtxo "b" 3000;
    confirmedUtxo "c" 700; confirmedUtxo "d" 9000 ].

(** The test double with a base58 decoder that knows one P2SH address of
    Bitcoin mainnet. *)
Definition p2shLib : BitcoinJs :=
  {| fromBase58Check :=
       fun address =>
         if (address =? "3-buyer")%string
         then Some (5, bytes_of_hex "751e76e8199196d454941c45d1b3a323f1433bd6")
         else None;
     fromBech32 := bech32_fromBech32;
     fromOutputScript := fun _ _ => Answer "seller-ord";
     Transaction_fromHex := fun _ => Answer sampleTx;
     Transaction_toBuffer := fun _ => [];
     p2wpkh_output := fun b => Answer b;
     p2sh_output := fun b => Answer b;
     Psbt_fromBase64 := fun _ _ => Failure "Format Error: Invalid Magic Number";
     Psbt_toBase64 := fun _ => Answer "psbt-base64";
     checkInput := fun _ _ => Answer tt;
     checkOutput := fun _ _ => Answer tt;
     Buffer_from_hex := bytes_of_hex;
     Number := decimalNumber;
     parseInt := decimalParseInt;
     getDefaultRPC := sampleRPC |}.

(** The listing of scenario S1 with a buyer paying from a P2SH address,
    with or without a public key. *)
Definition p2shListing (buyerPublicKey : option string) : IListingState.t :=
  {| IListingState.network := sampleNetwork;
     IListingState.seller := sampleSeller;
     IListingState.buyer :=
       Some {| Buyer.takerFeeBp := 200;
               Buyer.buyerAddress := "3-buyer";
               Buyer.buyerTokenReceiveAddress := "buyer-ordinals";
               Buyer.feeRateTier := "hourFee";
               Buyer.buyerPublicKey := buyerPublicKey;
               Buyer.unsignedBuyingPSBTBase64 := None;
               Buyer.unsignedBuyingPSBTInputSize := None;
               Buyer.signedBuyingPSBTBase64 := None;
               Buyer.buyerDummyUTXOs := Some [ sampleDummy "d1"; sampleDummy "d2" ];
               Buyer.buyerPaymentUTXOs := Some [ confirmedUtxo "funds" 200000 ];
               Buyer.mergedSignedBuyingPSBTBase64 := None |} |}.

(** The listing of scenario S1 with an [ordItem.output] that names a
    transaction and no output index. *)
Definition bareOutputListing : IListingState.t :=
  {| IListingState.network := sampleNetwork;
     IListingState.seller :=
       {| Seller.makerFeeBp := 100;
          Seller.sellerOrdAddress := "seller-ord";
          Seller.price := 100000;
          Seller.ordItem :=
            {| IOrdItem.id := "inscription-0";
               IOrdItem.owner := "seller-ord";
               IOrdItem.location := sampleTxid ++ ":0:0";
               IOrdItem.output := sampleTxid;
               IOrdItem.outputValue := 10000 |};
          Seller.sellerReceiveAddress := "seller-receive";
          Seller.unsignedListingPSBTBase64 := None;
          Seller.signedListingPSBTBase64 := None;
          Seller.tapInternalKey := None |};
     IListingState.buyer := Some (sampleBuyer 200000) |}.

Section Signer.
Context {lib : BitcoinJs} {constants : Constants}.

(** ** src/util.ts *)

Definition toXOnly (pubKey : Buffer) : Buffer :=
  if Nat.eqb (List.length pubKey) 32 then pubKey else firstn 32 (skipn 1 pubKey).

Definition generateTxidFromHash (hash : Buffer) : string := toHex (rev hash).

Definition resolveRPC (rpcProvider : option IRPCProvider) : IRPCProvider :=
  match rpcProvider with
  | Some rpc => rpc
  | None => getDefaultRPC
  end.

Fixpoint mapUtxos_loop (rpc : IRPCProvider) (utxosFromMempool : list AddressTxsUtxo.t)
    (ret : list MappedUtxo.t) : result (list MappedUtxo.t) :=
  match utxosFromMempool with
  | [] => Return ret
  | utxoFromMempool :: rest =>
      txHex <- await (getrawtransaction rpc (AddressTxsUtxo.txid utxoFromMempool)) ;;
      tx <- await (Transaction_fromHex txHex) ;;
      mapUtxos_loop rpc rest
        (push ret {| MappedUtxo.txid := AddressTxsUtxo.txid utxoFromMempool;
                    MappedUtxo.vout := AddressTxsUtxo.vout utxoFromMempool;
                    MappedUtxo.value := AddressTxsUtxo.value utxoFromMempool;
                    MappedUtxo.status := AddressTxsUtxo.status utxoFromMempool;
                    MappedUtxo.tx := tx |})
  end.

Definition mapUtxos (utxosFromMempool : list AddressTxsUtxo.t)
    (rpcProvider : option IRPCProvider) : result (list MappedUtxo.t) :=
  mapUtxos_loop (resolveRPC rpcProvider) utxosFromMempool [].

Definition isP2SHAddress (address : string) (network : Network.t) : bool :=
  match fromBase58Check address with
  | Some (version, hash) =>
      (version =? Network.scriptHash network) && Nat.eqb (List.length hash) 20
  | None => false
  end.

Definition isP2PKHAddress (address : string) (network : Network.t) : bool :=
  match fromBase58Check address with
  | Some (version, hash) =>
      (version =? Network.pubKeyHash network) && Nat.eqb (List.length hash) 20
  | None => false
  end.

Definition isLegacyAddress (address : string) (network : Network.t) : bool :=
  isP2PKHAddress address network || isP2SHAddress address network.

Definition isSegWitAddress (address : string) (network : Network.t) : bool :=
  if negb (truthy (Network.bech32 network)) then false
  else
    match fromBech32 address with
    | Some _ =>
        startsWith (toLowerCase address) (toLowerCase (Network.bech32 network))
    | None => false
    end.

Definition isTaprootAddress (address : string) (network : Network.t) : bool :=
  if negb (truthy (Network.bech32 network)) then false
  else
    match fromBech32 address with
    | Some decoded =>
        (Bech32Result.version decoded =? 1)
        && startsWith (toLowerCase address) (toLowerCase (Network.bech32 network))
    | None => false
    end.

Definition getAddressType (address : string) (network : Network.t) : AddressType :=
  if isP2PKHAddress address network then p2pkh
  else if isP2SHAddress address network then p2sh
  else if truthy (Network.bech32 network) then
    match fromBech32 address with
    | Some decoded =>
        if Bech32Result.version decoded =? 0 then
          if Nat.eqb (List.length (Bech32Result.data decoded)) 20 then p2wpkh else p2wsh
        else if Bech32Result.version decoded =? 1 then p2tr
        else unknown
    | None => unknown
    end
  else unknown.

Definition isValidAddress (address : string) (network : Network.t) : bool :=
  match getAddressType address network with
  | unknown => false
  | _ => true
  end.

(** ** src/signer.ts, namespace BuyerSigner: UTXO classification *)

(** The loop over [tx.vin] of an unconfirmed transaction. *)
Fixpoint scanInputs (itemProvider : IItemProvider) (rpc : IRPCProvider)
    (vin : list Vin.t) : result bool :=
  match vin with
  | [] => Return false
  | input :: rest =>
      prevTx <- await (getrawtransactionVerbose rpc (Vin.txid input)) ;;
      if VerboseTx.confirmations prevTx =? 0 then Return true
      else
        let previousOutput := Vin.txid input ++ ":" ++ string_of_Z (Vin.vout input) in
        match getTokenByOutput itemProvider previousOutput with
        | Answer (Some _) => Return true
        | Answer None => scanInputs itemProvider rpc rest
        | Failure _ => Return true
        end
  end.

Definition doesUtxoContainInscription (utxo : AddressTxsUtxo.t)
    (itemProvider : IItemProvider) (rpcProvider : option IRPCProvider) : result bool :=
  let rpc := resolveRPC rpcProvider in
  if TxStatus.confirmed (AddressTxsUtxo.status utxo) then
    Return
      (try_catch
         (item <- await (getTokenByOutput itemProvider
                           (AddressTxsUtxo.txid utxo ++ ":"
                            ++ string_of_Z (AddressTxsUtxo.vout utxo))) ;;
          Return (isSome item))
         true)
  else
    tx <- await (getrawtransactionVerbose rpc (AddressTxsUtxo.txid utxo)) ;;
    scanInputs itemProvider rpc (VerboseTx.vin tx).

(** [selectDummyUTXOs]: the loop, with [found] the array [result] of the
    source. *)
Fixpoint selectDummyUTXOs_loop (itemProvider : IItemProvider)
    (rpcProvider : option IRPCProvider) (utxos : list AddressTxsUtxo.t)
    (found : list MappedUtxo.t) : result (option (list MappedUtxo.t)) :=
  match utxos with
  | [] => Return None
  | utxo :: rest =>
      contains <- doesUtxoContainInscription utxo itemProvider rpcProvider ;;
      if contains then selectDummyUTXOs_loop itemProvider rpcProvider rest found
      else if (DUMMY_UTXO_MIN_VALUE <=? AddressTxsUtxo.value utxo)
              && (AddressTxsUtxo.value utxo <=? DUMMY_UTXO_MAX_VALUE) then
        mapped <- mapUtxos [utxo] rpcProvider ;;
        match at_index mapped 0 with
        | Some m =>
            let found' := push found m in
            if Nat.eqb (List.length found') 2 then Return (Some found')
            else selectDummyUTXOs_loop itemProvider rpcProvider rest found'
        | None => Throw TypeError (* unreachable: [mapUtxos] keeps the length *)
        end
      else selectDummyUTXOs_loop itemProvider rpcProvider rest found
  end.

Definition selectDummyUTXOs (utxos : list AddressTxsUtxo.t)
    (itemProvider : IItemProvider) (rpcProvider : option IRPCProvider)
    : result (option (list MappedUtxo.t)) :=
  selectDummyUTXOs_loop itemProvider rpcProvider utxos [].

(** [.sort((a, b) => b.value - a.value)]: a stable sort, largest value
    first. *)
Fixpoint insert_desc (u : AddressTxsUtxo.t) (l : list AddressTxsUtxo.t)
    : list AddressTxsUtxo.t :=
  match l with
  | [] => [u]
  | y :: ys =>
      if AddressTxsUtxo.value u <? AddressTxsUtxo.value y
      then y :: insert_desc u ys
      else u :: y :: ys
  end.

Definition sort_desc (l : list AddressTxsUtxo.t) : list AddressTxsUtxo.t :=
  fold_right insert_desc [] l.

Definition filteredUtxos (utxos : list AddressTxsUtxo.t) : list AddressTxsUtxo.t :=
  sort_desc (filter (fun x => DUMMY_UTXO_VALUE <? AddressTxsUtxo.value x) utxos).

Section SelectPayment.
Variables (amount vinsLength voutsLength : Z) (feeRateTier : string).
Variables (itemProvider : IItemProvider) (feeProvider : IFeeProvider).
Variable rpcProvider : option IRPCProvider.

(** The [for] loop of [selectPaymentUTXOs]; it yields the final
    [selectedUtxos] and [selectedAmount]. *)
Fixpoint selectPaymentUTXOs_loop (candidates : list AddressTxsUtxo.t)
    (selectedUtxos : list AddressTxsUtxo.t) (selectedAmount : Z)
    : result (list AddressTxsUtxo.t * Z) :=
  match candidates with
  | [] => Return (selectedUtxos, selectedAmount)
  | utxo :: rest =>
      contains <- doesUtxoContainInscription utxo itemProvider rpcProvider ;;
      if contains then selectPaymentUTXOs_loop rest selectedUtxos selectedAmount
      else
        let selectedUtxos' := push selectedUtxos utxo in
        let selectedAmount' := selectedAmount + AddressTxsUtxo.value utxo in
        fee <- calculateTxBytesFee
                 (vinsLength + Z.of_nat (List.length selectedUtxos'))
                 voutsLength feeRateTier feeProvider None ;;
        if amount + fee <=? selectedAmount'
        then Return (selectedUtxos', selectedAmount')
        else selectPaymentUTXOs_loop rest selectedUtxos' selectedAmount'
  end.

Definition selectPaymentUTXOs (utxos : list AddressTxsUtxo.t)
    : result (list AddressTxsUtxo.t) :=
  '(selectedUtxos, selectedAmount) <-
     selectPaymentUTXOs_loop (filteredUtxos utxos) [] 0 ;;
  if selectedAmount <? amount
  then Throw (InvalidArgumentError (NotEnoughCardinalFunds selectedAmount amount))
  else Return selectedUtxos.
End SelectPayment.

(** ** The PSBT operations used by the signer *)

(** [arr[i]] with a numeric index: [undefined] outside the array. *)
Definition at_Z {A : Type} (l : list A) (i : Z) : option A :=
  if i <? 0 then None else at_index l (Z.to_nat i).

Definition at_optZ {A : Type} (l : list A) (i : option Z) : option A :=
  match i with
  | Some i => at_Z l i
  | None => None
  end.

(** [psbt.addInput(input)]: after the library's validation, the outpoint is
    appended to the unsigned transaction and the remaining fields to the
    per-input map. *)
Definition addInput (psbt : Psbt.t) (input : InputArg.t) : result Psbt.t :=
  _ <- await (checkInput psbt input) ;;
  match InputArg.index input with
  | None => Throw (ExternalError "addInput")
  | Some index =>
      Return
        {| Psbt.version := Psbt.version psbt;
           Psbt.locktime := Psbt.locktime psbt;
           Psbt.ins :=
             push (Psbt.ins psbt)
               (Some {| TxIn.hash := rev (Buffer_from_hex (InputArg.hash input));
                        TxIn.index := index;
                        TxIn.script := [];
                        TxIn.sequence := 4294967295;
                        TxIn.witness := [] |});
           Psbt.outs := Psbt.outs psbt;
           Psbt.inputs :=
             push (Psbt.inputs psbt)
               (Some {| PsbtInput.nonWitnessUtxo := Some (InputArg.nonWitnessUtxo input);
                        PsbtInput.witnessUtxo := InputArg.witnessUtxo input;
                        PsbtInput.sighashType := InputArg.sighashType input;
                        PsbtInput.tapInternalKey := InputArg.tapInternalKey input;
                        PsbtInput.redeemScript := InputArg.redeemScript input;
                        PsbtInput.finalScriptWitness := None |});
           Psbt.outputs := Psbt.outputs psbt |}
  end.

(** [psbt.addOutput({ address, value })] *)
Definition addOutput (psbt : Psbt.t) (output : OutputArg.t) : result Psbt.t :=
  _ <- await (checkOutput psbt output) ;;
  Return
    {| Psbt.version := Psbt.version psbt;
       Psbt.locktime := Psbt.locktime psbt;
       Psbt.ins := Psbt.ins psbt;
       Psbt.outs :=
         push (Psbt.outs psbt)
           {| PsbtTxOutput.address := Some (OutputArg.address output);
              PsbtTxOutput.value := OutputArg.value output |};
       Psbt.inputs := Psbt.inputs psbt;
       Psbt.outputs := push (Psbt.outputs psbt) [] |}.

(** The loop [for i: try { tx.setWitness(i, []) } catch {}] over the indices
    of [tx.outs]: the witness of input [i] is emptied when that input
    exists. *)
Fixpoint clearWitnesses_from (n : nat) (ins : list TxIn.t) : list TxIn.t :=
  match n, ins with
  | S m, i :: rest =>
      {| TxIn.hash := TxIn.hash i; TxIn.index := TxIn.index i;
         TxIn.script := TxIn.script i; TxIn.sequence := TxIn.sequence i;
         TxIn.witness := [] |} :: clearWitnesses_from m rest
  | _, _ => ins
  end.

Definition clearWitnesses (tx : Transaction.t) : Transaction.t :=
  {| Transaction.version := Transaction.version tx;
     Transaction.locktime := Transaction.locktime tx;
     Transaction.ins :=
       clearWitnesses_from (List.length (Transaction.outs tx)) (Transaction.ins tx);
     Transaction.outs := Transaction.outs tx |}.

Definition SIGHASH_SINGLE : Z := 3.
Definition SIGHASH_ANYONECANPAY : Z := 128.

(** The previous transaction of the listed inscription, fetched and
    normalised as both signers do. *)
Definition fetchOrdinalTx (listing : IListingState.t) (rpc : IRPCProvider)
    (ordinalUtxoTxId : string) : result Transaction.t :=
  txHex <- await (getrawtransaction rpc ordinalUtxoTxId) ;;
  tx <- await (Transaction_fromHex txHex) ;;
  Return
    (if negb (truthy_opt (Seller.tapInternalKey (IListingState.seller listing)))
     then clearWitnesses tx else tx).

Definition sellerTapInternalKey (listing : IListingState.t) : option Buffer :=
  match Seller.tapInternalKey (IListingState.seller listing) with
  | Some key => if truthy key then Some (toXOnly (Buffer_from_hex key)) else None
  | None => None
  end.

(** The two names bound by [const [a, b] = s.split(':')]. *)
Definition ordinalUtxoTxId (listing : IListingState.t) : string :=
  match at_index (split_colon (IOrdItem.output (Seller.ordItem (IListingState.seller listing)))) 0 with
  | Some s => s
  | None => EmptyString
  end.

Definition ordinalUtxoVout (listing : IListingState.t) : option string :=
  at_index (split_colon (IOrdItem.output (Seller.ordItem (IListingState.seller listing)))) 1.

Definition sellerOutputValue (listing : IListingState.t) : Z :=
  getSellerOrdOutputValue
    (Seller.price (IListingState.seller listing))
    (Seller.makerFeeBp (IListingState.seller listing))
    (IOrdItem.outputValue (Seller.ordItem (IListingState.seller listing))).

(** ** namespace SellerSigner *)

(** The PSBT assembled by [generateUnsignedListingPSBTBase64]. *)
Definition listingPsbt (listing : IListingState.t) (rpcProvider : option IRPCProvider)
    : result Psbt.t :=
  let rpc := resolveRPC rpcProvider in
  let psbt := Psbt.empty in
  tx <- fetchOrdinalTx listing rpc (ordinalUtxoTxId listing) ;;
  let input :=
    {| InputArg.hash := ordinalUtxoTxId listing;
       InputArg.index := parseInt (ordinalUtxoVout listing);
       InputArg.nonWitnessUtxo := Transaction_toBuffer tx;
       InputArg.witnessUtxo :=
         at_optZ (Transaction.outs tx) (parseInt (ordinalUtxoVout listing));
       InputArg.sighashType := Some (Z.lor SIGHASH_SINGLE SIGHASH_ANYONECANPAY);
       InputArg.tapInternalKey := sellerTapInternalKey listing;
       InputArg.redeemScript := None |} in
  psbt <- addInput psbt input ;;
  let sellerOutput := sellerOutputValue listing in
  addOutput psbt
    {| OutputArg.address := Seller.sellerReceiveAddress (IListingState.seller listing);
       OutputArg.value := sellerOutput |}.

Definition set_seller (listing : IListingState.t) (s : Seller.t) : IListingState.t :=
  {| IListingState.network := IListingState.network listing;
     IListingState.seller := s;
     IListingState.buyer := IListingState.buyer listing |}.

Definition set_buyer (listing : IListingState.t) (b : Buyer.t) : IListingState.t :=
  {| IListingState.network := IListingState.network listing;
     IListingState.seller := IListingState.seller listing;
     IListingState.buyer := Some b |}.

(** A call on the mutable listing document: the document as the call leaves
    it, and how the call completes.  The source writes to the document only
    in its last statements, after everything that can throw. *)
Definition generateUnsignedListingPSBTBase64 (listing : IListingState.t)
    (rpcProvider : option IRPCProvider) : IListingState.t * result unit :=
  match (psbt <- listingPsbt listing rpcProvider ;; await (Psbt_toBase64 psbt)) with
  | Return base64 =>
      (set_seller listing
         (Seller.set_unsignedListingPSBTBase64 (IListingState.seller listing) base64),
       Return tt)
  | Throw e => (listing, Throw e)
  end.

(** The [forEach] over [psbt.data.inputs] that looks for a taproot
    signature. *)
Definition verifyTaprootInput (input : option PsbtInput.t) : result unit :=
  match input with
  | None => Throw TypeError
  | Some input =>
      if isSome (PsbtInput.tapInternalKey input) then
        match PsbtInput.finalScriptWitness input with
        | Some finalScriptWitness =>
            if Nat.ltb 0 (List.length finalScriptWitness) then
              if (toHex finalScriptWitness =? "0141")%string
              then Throw (InvalidArgumentError
                            (Msg "Invalid signature - no taproot signature present"))
              else Return tt
            else Throw (InvalidArgumentError (Msg "Invalid signature - no finalScriptWitness"))
        | None => Throw (InvalidArgumentError (Msg "Invalid signature - no finalScriptWitness"))
        end
      else Return tt
  end.

Fixpoint forEach {A : Type} (f : A -> result unit) (l : list A) : result unit :=
  match l with
  | [] => Return tt
  | x :: rest => _ <- f x ;; forEach f rest
  end.

(** [analyzeResult?.inputs[0]?.is_final !== true] *)
Definition notFinal (analyzeResult : option AnalyzeResult.t) : bool :=
  match analyzeResult with
  | Some r =>
      match at_index (AnalyzeResult.inputs r) 0 with
      | Some i => negb (AnalyzeInput.is_final i)
      | None => true
      end
  | None => true
  end.

Definition verifySignedListingPSBTBase64 (req : IOrdAPIPostPSBTListing.t)
    (config : SignerConfig.t) : result unit :=
  let network := SignerConfig.network config in
  let rpcProvider := SignerConfig.rpcProvider config in
  let itemProvider := SignerConfig.itemProvider config in
  let marketplaceFeeProvider := SignerConfig.marketplaceFeeProvider config in
  psbt <- await (Psbt_fromBase64 (IOrdAPIPostPSBTListing.signedListingPSBTBase64 req) network) ;;
  (* Verify taproot signature if present *)
  _ <- forEach verifyTaprootInput (Psbt.inputs psbt) ;;
  (* Verify signature via RPC *)
  analyzeResult <-
    await (analyzepsbt rpcProvider (IOrdAPIPostPSBTListing.signedListingPSBTBase64 req)) ;;
  if notFinal analyzeResult then Throw (InvalidArgumentError (Msg "Invalid signature"))
  else
  (* Verify single input *)
  if negb (Nat.eqb (Psbt.inputCount psbt) 1)
  then Throw (InvalidArgumentError (Msg "Invalid number of inputs"))
  else
  match js_get (Psbt.txInputs psbt) 0 with
  | None => Throw TypeError
  | Some txInput0 =>
      let utxoOutput :=
        (generateTxidFromHash (TxIn.hash txInput0) ++ ":" ++ string_of_Z (TxIn.index txInput0))%string in
      (* Verify ordItem *)
      ordItem <- await (getTokenByOutput itemProvider utxoOutput) ;;
      match ordItem with
      | None => Throw (InvalidArgumentError (Msg "Invalid tokenId"))
      | Some ordItem =>
          if negb (IOrdItem.id ordItem =? IOrdAPIPostPSBTListing.tokenId req)%string
          then Throw (InvalidArgumentError (Msg "Invalid tokenId"))
          else
          (* Verify price *)
          makerFeeBp <-
            match marketplaceFeeProvider with
            | Some p => await (getMakerFeeBp p (IOrdItem.owner ordItem))
            | None => Return 0
            end ;;
          match at_index (Psbt.txOutputs psbt) 0 with
          | None => Throw TypeError
          | Some output =>
              let expectedOutput :=
                getSellerOrdOutputValue (IOrdAPIPostPSBTListing.price req) makerFeeBp
                  (IOrdItem.outputValue ordItem) in
              if negb (PsbtTxOutput.value output =? expectedOutput)
              then Throw (InvalidArgumentError (Msg "Invalid price"))
              else
              (* Verify receive address *)
              if negb (match PsbtTxOutput.address output with
                       | Some a => (a =? IOrdAPIPostPSBTListing.sellerReceiveAddress req)%string
                       | None => false
                       end)
              then Throw (InvalidArgumentError (Msg "Invalid sellerReceiveAddress"))
              else
              (* Verify seller address *)
              txHex <- await (getrawtransaction rpcProvider
                                (generateTxidFromHash (TxIn.hash txInput0))) ;;
              tx <- await (Transaction_fromHex txHex) ;;
              match at_Z (Transaction.outs tx) (TxIn.index txInput0) with
              | None => Throw TypeError
              | Some prevOut =>
                  sellerAddressFromPSBT <-
                    await (fromOutputScript (TxOut.script prevOut) network) ;;
                  if negb (IOrdItem.owner ordItem =? sellerAddressFromPSBT)%string
                  then Throw (InvalidArgumentError (Msg "Invalid seller address"))
                  else Return tt
              end
          end
      end
  end.

(** ** namespace BuyerSigner: PSBT construction *)

Definition getSellerInputAndOutput (listing : IListingState.t)
    (rpcProvider : option IRPCProvider) : result (InputArg.t * OutputArg.t) :=
  let rpc := resolveRPC rpcProvider in
  tx <- fetchOrdinalTx listing rpc (ordinalUtxoTxId listing) ;;
  let sellerInput :=
    {| InputArg.hash := ordinalUtxoTxId listing;
       InputArg.index := parseInt (ordinalUtxoVout listing);
       InputArg.nonWitnessUtxo := Transaction_toBuffer tx;
       InputArg.witnessUtxo :=
         at_optZ (Transaction.outs tx) (parseInt (ordinalUtxoVout listing));
       InputArg.sighashType := None;
       InputArg.tapInternalKey := sellerTapInternalKey listing;
       InputArg.redeemScript := None |} in
  Return
    (sellerInput,
     {| OutputArg.address := Seller.sellerReceiveAddress (IListingState.seller listing);
        OutputArg.value := sellerOutputValue listing |}).

(** [Buffer.from(buyerPublicKey!, 'hex')] followed by the two payment
    constructors: the pair ([p2sh.output], [p2sh.redeem?.output]). *)
Definition p2shWrappedSegwit (buyerPublicKey : option string) : result (Buffer * Buffer) :=
  match buyerPublicKey with
  | None => Throw TypeError
  | Some key =>
      redeemScript <- await (p2wpkh_output (Buffer_from_hex key)) ;;
      p2shOutput <- await (p2sh_output redeemScript) ;;
      Return (p2shOutput, redeemScript)
  end.

(** The input object built for a dummy or payment UTXO of the buyer. *)
Definition buyerInput (buyer : Buyer.t) (network : Network.t) (utxo : MappedUtxo.t)
    : result InputArg.t :=
  if isP2SHAddress (Buyer.buyerAddress buyer) network then
    '(p2shOutput, redeemScript) <- p2shWrappedSegwit (Buyer.buyerPublicKey buyer) ;;
    Return
      {| InputArg.hash := MappedUtxo.txid utxo;
         InputArg.index := Some (MappedUtxo.vout utxo);
         InputArg.nonWitnessUtxo := Transaction_toBuffer (MappedUtxo.tx utxo);
         InputArg.witnessUtxo :=
           Some {| TxOut.script := p2shOutput; TxOut.value := MappedUtxo.value utxo |};
         InputArg.sighashType := None;
         InputArg.tapInternalKey := None;
         InputArg.redeemScript := Some redeemScript |}
  else
    Return
      {| InputArg.hash := MappedUtxo.txid utxo;
         InputArg.index := Some (MappedUtxo.vout utxo);
         InputArg.nonWitnessUtxo := Transaction_toBuffer (MappedUtxo.tx utxo);
         InputArg.witnessUtxo := None;
         InputArg.sighashType := None;
         InputArg.tapInternalKey := None;
         InputArg.redeemScript := None |}.

(** [for (const dummyUtxo of buyerDummyUTXOs)], threading the PSBT and
    [totalInput]. *)
Fixpoint addDummyInputs (buyer : Buyer.t) (network : Network.t)
    (dummies : list MappedUtxo.t) (psbt : Psbt.t) (totalInput : Z)
    : result (Psbt.t * Z) :=
  match dummies with
  | [] => Return (psbt, totalInput)
  | dummyUtxo :: rest =>
      input <- buyerInput buyer network dummyUtxo ;;
      psbt <- addInput psbt input ;;
      addDummyInputs buyer network rest psbt (totalInput + MappedUtxo.value dummyUtxo)
  end.

(** [for (const utxo of buyerPaymentUTXOs)] *)
Fixpoint addPaymentInputs (buyer : Buyer.t) (network : Network.t)
    (rpcProvider : option IRPCProvider) (payments : list AddressTxsUtxo.t)
    (psbt : Psbt.t) (totalInput : Z) : result (Psbt.t * Z) :=
  match payments with
  | [] => Return (psbt, totalInput)
  | utxo :: rest =>
      mappedUtxos <- mapUtxos [utxo] rpcProvider ;;
      match at_index mappedUtxos 0 with
      | None => Throw TypeError (* unreachable: [mapUtxos] keeps the length *)
      | Some mappedUtxo =>
          input <- buyerInput buyer network mappedUtxo ;;
          psbt <- addInput psbt input ;;
          addPaymentInputs buyer network rpcProvider rest psbt
            (totalInput + MappedUtxo.value mappedUtxo)
      end
  end.

Definition platformFeeValue (listing : IListingState.t) (buyer : Buyer.t) : Z :=
  let platformFeeValue :=
    (Seller.price (IListingState.seller listing)
     * (Buyer.takerFeeBp buyer + Seller.makerFeeBp (IListingState.seller listing)))
    / 10000 in
  if DUMMY_UTXO_MIN_VALUE <? platformFeeValue then platformFeeValue else 0.

(** [Number(listing.seller.ordItem.location.split(':')[2])] *)
Definition offsetOf (listing : IListingState.t) : option Z :=
  Number (at_index
            (split_colon (IOrdItem.location (Seller.ordItem (IListingState.seller listing))))
            2).

Definition dummyValue (dummies : list MappedUtxo.t) (i : nat) : option Z :=
  option_map MappedUtxo.value (at_index dummies i).

Definition sumOutputs (psbt : Psbt.t) : Z :=
  fold_left (fun sum o => sum + PsbtTxOutput.value o) (Psbt.txOutputs psbt) 0.

(** [generateUnsignedBuyingPSBTBase64] up to and including the two fresh
    dummy outputs: the PSBT and [totalInput]. *)
Definition buyingPsbtBeforeChange (listing : IListingState.t)
    (rpcProvider : option IRPCProvider) (platformFeeAddress : option string)
    : result (Psbt.t * Z) :=
  let network := IListingState.network listing in
  let psbt := Psbt.empty in
  match IListingState.buyer listing with
  | None => Throw (InvalidArgumentError (Msg "Buyer address is not set"))
  | Some buyer =>
      if negb (truthy (Buyer.buyerAddress buyer))
         || negb (truthy (Buyer.buyerTokenReceiveAddress buyer))
      then Throw (InvalidArgumentError (Msg "Buyer address is not set"))
      else
      match Buyer.buyerDummyUTXOs buyer, Buyer.buyerPaymentUTXOs buyer with
      | Some dummies, Some payments =>
          if negb (Nat.eqb (List.length dummies) 2)
          then Throw (InvalidArgumentError (Msg "Buyer address has not enough utxos"))
          else
          let totalInput := 0 in
          (* Add dummy UTXOs *)
          '(psbt, totalInput) <- addDummyInputs buyer network dummies psbt totalInput ;;
          (* Add dummy output; a sum that is not an integer is refused by
             the library *)
          psbt <-
            match dummyValue dummies 0, dummyValue dummies 1, offsetOf listing with
            | Some v0, Some v1, Some offset =>
                addOutput psbt
                  {| OutputArg.address := Buyer.buyerAddress buyer;
                     OutputArg.value := v0 + v1 + offset |}
            | None, _, _ | _, None, _ => Throw TypeError
            | _, _, None => Throw (ExternalError "addOutput")
            end ;;
          (* Add ordinal output *)
          psbt <- addOutput psbt
                    {| OutputArg.address := Buyer.buyerTokenReceiveAddress buyer;
                       OutputArg.value := ORDINALS_POSTAGE_VALUE |} ;;
          (* Add seller input and output *)
          '(sellerInput, sellerOutput) <- getSellerInputAndOutput listing rpcProvider ;;
          psbt <- addInput psbt sellerInput ;;
          psbt <- addOutput psbt sellerOutput ;;
          (* Add payment inputs *)
          '(psbt, totalInput) <-
             addPaymentInputs buyer network rpcProvider payments psbt totalInput ;;
          (* Platform fee *)
          let feeAddress := or_else platformFeeAddress PLATFORM_FEE_ADDRESS in
          let platformFeeValue := platformFeeValue listing buyer in
          psbt <-
            (if (0 <? platformFeeValue) && truthy feeAddress
             then addOutput psbt
                    {| OutputArg.address := feeAddress; OutputArg.value := platformFeeValue |}
             else Return psbt) ;;
          (* Create new dummy UTXOs for next purchase *)
          psbt <- addOutput psbt
                    {| OutputArg.address := Buyer.buyerAddress buyer;
                       OutputArg.value := DUMMY_UTXO_VALUE |} ;;
          psbt <- addOutput psbt
                    {| OutputArg.address := Buyer.buyerAddress buyer;
                       OutputArg.value := DUMMY_UTXO_VALUE |} ;;
          Return (psbt, totalInput)
      | _, _ => Throw (InvalidArgumentError (Msg "Buyer address has not enough utxos"))
      end
  end.

(** The fee estimate taken on the PSBT before the change output. *)
Definition buyingFee (buyer : Buyer.t) (feeProvider : IFeeProvider) (psbt : Psbt.t)
    : result Z :=
  calculateTxBytesFee
    (Z.of_nat (List.length (Psbt.txInputs psbt)))
    (Z.of_nat (List.length (Psbt.txOutputs psbt)))
    (Buyer.feeRateTier buyer) feeProvider None.

(** The complete PSBT of [generateUnsignedBuyingPSBTBase64]. *)
Definition buyingPsbt (listing : IListingState.t) (feeProvider : IFeeProvider)
    (rpcProvider : option IRPCProvider) (platformFeeAddress : option string)
    : result (Buyer.t * Psbt.t) :=
  '(psbt, totalInput) <- buyingPsbtBeforeChange listing rpcProvider platformFeeAddress ;;
  match IListingState.buyer listing with
  | None => Throw TypeError (* unreachable: rejected above *)
  | Some buyer =>
      (* Calculate fee *)
      fee <- buyingFee buyer feeProvider psbt ;;
      let totalOutput := sumOutputs psbt in
      let changeValue := totalInput - totalOutput - fee in
      if changeValue <? 0
      then Throw (InvalidArgumentError
                    (NotEnoughFundsToBuy (Seller.price (IListingState.seller listing))
                       (totalOutput + fee) (- changeValue)))
      else
      (* Change output *)
      psbt <-
        (if DUMMY_UTXO_MIN_VALUE <? changeValue
         then addOutput psbt
                {| OutputArg.address := Buyer.buyerAddress buyer;
                   OutputArg.value := changeValue |}
         else Return psbt) ;;
      Return (buyer, psbt)
  end.

Definition generateUnsignedBuyingPSBTBase64 (listing : IListingState.t)
    (feeProvider : IFeeProvider) (rpcProvider : option IRPCProvider)
    (platformFeeAddress : option string) : IListingState.t * result unit :=
  match ('(buyer, psbt) <- buyingPsbt listing feeProvider rpcProvider platformFeeAddress ;;
         base64 <- await (Psbt_toBase64 psbt) ;;
         Return (buyer, psbt, base64)) with
  | Return (buyer, psbt, base64) =>
      (set_buyer listing
         (Buyer.set_unsignedBuyingPSBT buyer base64
            (Z.of_nat (List.length (Psbt.inputs psbt)))),
       Return tt)
  | Throw e => (listing, Throw e)
  end.

(** ** namespace BuyerSigner: merge *)

Definition bitcoin_networks_bitcoin : Network.t :=
  {| Network.bech32 := "bc"; Network.pubKeyHash := 0; Network.scriptHash := 5 |}.

(** The two assignments of [mergeSignedBuyingPSBTBase64] on the parsed
    PSBTs. *)
Definition spliceSellerInput (sellerSignedPsbt buyerSignedPsbt : Psbt.t) : Psbt.t :=
  {| Psbt.version := Psbt.version buyerSignedPsbt;
     Psbt.locktime := Psbt.locktime buyerSignedPsbt;
     Psbt.ins :=
       js_set (Psbt.ins buyerSignedPsbt) BUYING_PSBT_SELLER_SIGNATURE_INDEX
         (js_get (Psbt.ins sellerSignedPsbt) 0);
     Psbt.outs := Psbt.outs buyerSignedPsbt;
     Psbt.inputs :=
       js_set (Psbt.inputs buyerSignedPsbt) BUYING_PSBT_SELLER_SIGNATURE_INDEX
         (js_get (Psbt.inputs sellerSignedPsbt) 0);
     Psbt.outputs := Psbt.outputs buyerSignedPsbt |}.

Definition mergeSignedBuyingPSBTBase64 (signedListingPSBTBase64 signedBuyingPSBTBase64 : string)
    (network : option Network.t) : result string :=
  let net := match network with Some n => n | None => bitcoin_networks_bitcoin end in
  sellerSignedPsbt <- await (Psbt_fromBase64 signedListingPSBTBase64 net) ;;
  buyerSignedPsbt <- await (Psbt_fromBase64 signedBuyingPSBTBase64 net) ;;
  await (Psbt_toBase64 (spliceSellerInput sellerSignedPsbt buyerSignedPsbt)).

(** ** namespace BuyerSigner: dummy creation *)

Section CreateDummy.
Variables (address : string) (buyerPublicKey : option string).
Variables (network : Network.t) (itemProvider : IItemProvider).
Variables (rpcProvider : option IRPCProvider) (recommendedFee : Z).

Definition createDummyInput (utxo : MappedUtxo.t) : result InputArg.t :=
  if isP2SHAddress address network then
    '(_, redeemScript) <- p2shWrappedSegwit buyerPublicKey ;;
    Return
      {| InputArg.hash := MappedUtxo.txid utxo;
         InputArg.index := Some (MappedUtxo.vout utxo);
         InputArg.nonWitnessUtxo := Transaction_toBuffer (MappedUtxo.tx utxo);
         InputArg.witnessUtxo :=
           at_Z (Transaction.outs (MappedUtxo.tx utxo)) (MappedUtxo.vout utxo);
         InputArg.sighashType := None;
         InputArg.tapInternalKey := None;
         InputArg.redeemScript := Some redeemScript |}
  else
    Return
      {| InputArg.hash := MappedUtxo.txid utxo;
         InputArg.index := Some (MappedUtxo.vout utxo);
         InputArg.nonWitnessUtxo := Transaction_toBuffer (MappedUtxo.tx utxo);
         InputArg.witnessUtxo := None;
         InputArg.sighashType := None;
         InputArg.tapInternalKey := None;
         InputArg.redeemScript := None |}.

(** The [for] loop of [generateUnsignedCreateDummyUtxoPSBTBase64]. *)
Fixpoint createDummy_loop (mappedUtxos : list MappedUtxo.t) (psbt : Psbt.t)
    (totalValue paymentUtxoCount : Z) : result (Psbt.t * Z * Z) :=
  match mappedUtxos with
  | [] => Return (psbt, totalValue, paymentUtxoCount)
  | utxo :: rest =>
      contains <-
        doesUtxoContainInscription
          {| AddressTxsUtxo.txid := MappedUtxo.txid utxo;
             AddressTxsUtxo.vout := MappedUtxo.vout utxo;
             AddressTxsUtxo.value := MappedUtxo.value utxo;
             AddressTxsUtxo.status := MappedUtxo.status utxo |}
          itemProvider rpcProvider ;;
      if contains then createDummy_loop rest psbt totalValue paymentUtxoCount
      else
        input <- createDummyInput utxo ;;
        psbt <- addInput psbt input ;;
        let totalValue := totalValue + MappedUtxo.value utxo in
        let paymentUtxoCount := paymentUtxoCount + 1 in
        let fees := calculateTxBytesFeeWithRate paymentUtxoCount 2 recommendedFee None in
        if DUMMY_UTXO_VALUE * 2 + fees <=? totalValue
        then Return (psbt, totalValue, paymentUtxoCount)
        else createDummy_loop rest psbt totalValue paymentUtxoCount
  end.
End CreateDummy.

Definition generateUnsignedCreateDummyUtxoPSBTBase64
    (address : string) (buyerPublicKey : option string)
    (unqualifiedUtxos : list AddressTxsUtxo.t) (feeRateTier : string)
    (network : Network.t) (feeProvider : IFeeProvider) (itemProvider : IItemProvider)
    (rpcProvider : option IRPCProvider) : result string :=
  let psbt := Psbt.empty in
  mappedUtxos <- mapUtxos unqualifiedUtxos rpcProvider ;;
  recommendedFee <- await (getFees feeProvider feeRateTier) ;;
  '(psbt, totalValue, paymentUtxoCount) <-
     createDummy_loop address buyerPublicKey network itemProvider rpcProvider
       recommendedFee mappedUtxos psbt 0 0 ;;
  let finalFees := calculateTxBytesFeeWithRate paymentUtxoCount 2 recommendedFee None in
  let changeValue := totalValue - DUMMY_UTXO_VALUE * 2 - finalFees in
  if changeValue <? 0
  then Throw (InvalidArgumentError
                (Msg "You might have pending transactions or not enough funds"))
  else
  (* Add dummy outputs *)
  psbt <- addOutput psbt {| OutputArg.address := address; OutputArg.value := DUMMY_UTXO_VALUE |} ;;
  psbt <- addOutput psbt {| OutputArg.address := address; OutputArg.value := DUMMY_UTXO_VALUE |} ;;
  (* Add change if significant *)
  psbt <-
    (if DUMMY_UTXO_MIN_VALUE <? changeValue
     then addOutput psbt {| OutputArg.address := address; OutputArg.value := changeValue |}
     else Return psbt) ;;
  await (Psbt_toBase64 psbt).

(** ** src/networks.ts: the chains and the registry *)

Definition bitcoinMainnet : ChainNetwork.t :=
  {| ChainNetwork.name := "bitcoin";
     ChainNetwork.symbol := "BTC";
     ChainNetwork.network := bitcoin_networks_bitcoin;
     ChainNetwork.supportsSegwit := true;
     ChainNetwork.supportsTaproot := true;
     ChainNetwork.defaultRpcPort := Some 8332;
     ChainNetwork.minimumFee := None;
     ChainNetwork.dustLimit := None |}.

Definition bitcoinTestnet : ChainNetwork.t :=
  {| ChainNetwork.name := "bitcoin-testnet";
     ChainNetwork.symbol := "tBTC";
     ChainNetwork.network := bitcoin_networks_testnet;
     ChainNetwork.supportsSegwit := true;
     ChainNetwork.supportsTaproot := true;
     ChainNetwork.defaultRpcPort := Some 18332;
     ChainNetwork.minimumFee := None;
     ChainNetwork.dustLimit := None |}.

Definition junkcoinMainnet : ChainNetwork.t :=
  {| ChainNetwork.name := "junkcoin";
     ChainNetwork.symbol := "JKC";
     ChainNetwork.network :=
       {| Network.bech32 := "jc"; Network.pubKeyHash := 16; Network.scriptHash := 5 |};
     ChainNetwork.supportsSegwit := false;
     ChainNetwork.supportsTaproot := false;
     ChainNetwork.defaultRpcPort := Some 9771;
     ChainNetwork.minimumFee := Some 100;
     ChainNetwork.dustLimit := Some 546 |}.

Definition bitcoinClassicMainnet : ChainNetwork.t :=
  {| ChainNetwork.name := "bitcoin-classic";
     ChainNetwork.symbol := "XBT";
     ChainNetwork.network :=
       {| Network.bech32 := "bc"; Network.pubKeyHash := 0; Network.scriptHash := 5 |};
     ChainNetwork.supportsSegwit := false;
     ChainNetwork.supportsTaproot := false;
     ChainNetwork.defaultRpcPort := Some 8332;
     ChainNetwork.minimumFee := Some 100;
     ChainNetwork.dustLimit := Some 546 |}.

Definition briskcoinMainnet : ChainNetwork.t :=
  {| ChainNetwork.name := "briskcoin";
     ChainNetwork.symbol := "BKC";
     ChainNetwork.network :=
       {| Network.bech32 := "bc"; Network.pubKeyHash := 25; Network.scriptHash := 33 |};
     ChainNetwork.supportsSegwit := true;
     ChainNetwork.supportsTaproot := false;
     ChainNetwork.defaultRpcPort := Some 8332;
     ChainNetwork.minimumFee := Some 100;
     ChainNetwork.dustLimit := Some 546 |}.

Definition craftcoinMainnet : ChainNetwork.t :=
  {| ChainNetwork.name := "craftcoin";
     ChainNetwork.symbol := "CRC";
     ChainNetwork.network :=
       {| Network.bech32 := "crc"; Network.pubKeyHash := 57; Network.scriptHash := 5 |};
     ChainNetwork.supportsSegwit := false;
     ChainNetwork.supportsTaproot := false;
     ChainNetwork.defaultRpcPort := Some 8332;
     ChainNetwork.minimumFee := Some 100;
     ChainNetwork.dustLimit := Some 546 |}.

Definition dogecoinEvMainnet : ChainNetwork.t :=
  {| ChainNetwork.name := "dogecoinev";
     ChainNetwork.symbol := "DEV";
     ChainNetwork.network :=
       {| Network.bech32 := "dev"; Network.pubKeyHash := 30; Network.scriptHash := 22 |};
     ChainNetwork.supportsSegwit := false;
     ChainNetwork.supportsTaproot := false;
     ChainNetwork.defaultRpcPort := Some 8332;
     ChainNetwork.minimumFee := Some 100;
     ChainNetwork.dustLimit := Some 546 |}.

Definition frscMainnet : ChainNetwork.t :=
  {| ChainNetwork.name := "frsc";
     ChainNetwork.symbol := "FRSC";
     ChainNetwork.network :=
       {| Network.bech32 := "frsc"; Network.pubKeyHash := 48; Network.scriptHash := 176 |};
     ChainNetwork.supportsSegwit := false;
     ChainNetwork.supportsTaproot := false;
     ChainNetwork.defaultRpcPort := Some 8332;
     ChainNetwork.minimumFee := Some 100;
     ChainNetwork.dustLimit := Some 546 |}.

Definition lebowskiMainnet : ChainNetwork.t :=
  {| ChainNetwork.name := "lebowski";
     ChainNetwork.symbol := "LBW";
     ChainNetwork.network :=
       {| Network.bech32 := "lbw"; Network.pubKeyHash := 12; Network.scriptHash := 8 |};
     ChainNetwork.supportsSegwit := false;
     ChainNetwork.supportsTaproot := false;
     ChainNetwork.defaultRpcPort := Some 8332;
     ChainNetwork.minimumFee := Some 100;
     ChainNetwork.dustLimit := Some 546 |}.

Definition litecoinMainnet : ChainNetwork.t :=
  {| ChainNetwork.name := "litecoin";
     ChainNetwork.symbol := "LTC";
     ChainNetwork.network :=
       {| Network.bech32 := "ltc"; Network.pubKeyHash := 48; Network.scriptHash := 50 |};
     ChainNetwork.supportsSegwit := true;
     ChainNetwork.supportsTaproot := false;
     ChainNetwork.defaultRpcPort := Some 9332;
     ChainNetwork.minimumFee := None;
     ChainNetwork.dustLimit := None |}.

Definition dogecoinMainnet : ChainNetwork.t :=
  {| ChainNetwork.name := "dogecoin";
     ChainNetwork.symbol := "DOGE";
     ChainNetwork.network :=
       {| Network.bech32 := EmptyString; Network.pubKeyHash := 30;
          Network.scriptHash := 22 |};
     ChainNetwork.supportsSegwit := false;
     ChainNetwork.supportsTaproot := false;
     ChainNetwork.defaultRpcPort := Some 22555;
     ChainNetwork.minimumFee := None;
     ChainNetwork.dustLimit := None |}.

(** The object literal [NETWORKS], its properties in source order. *)
Definition NETWORKS : list (string * ChainNetwork.t) :=
  [ ("bitcoin", bitcoinMainnet);
    ("bitcoin-mainnet", bitcoinMainnet);
    ("bitcoin-testnet", bitcoinTestnet);
    ("testnet", bitcoinTestnet);
    ("junkcoin", junkcoinMainnet);
    ("junkcoin-mainnet", junkcoinMainnet);
    ("jkc", junkcoinMainnet);
    ("bitcoin-classic", bitcoinClassicMainnet);
    ("xbt", bitcoinClassicMainnet);
    ("briskcoin", briskcoinMainnet);
    ("bkc", briskcoinMainnet);
    ("craftcoin", craftcoinMainnet);
    ("crc", craftcoinMainnet);
    ("dogecoinev", dogecoinEvMainnet);
    ("dev", dogecoinEvMainnet);
    ("frsc", frscMainnet);
    ("lebowski", lebowskiMainnet);
    ("lbw", lebowskiMainnet);
    ("litecoin", litecoinMainnet);
    ("litecoin-mainnet", litecoinMainnet);
    ("ltc", litecoinMainnet);
    ("dogecoin", dogecoinMainnet);
    ("dogecoin-mainnet", dogecoinMainnet);
    ("doge", dogecoinMainnet) ].

Definition getNetwork (name : string) : NetworkLookup :=
  match get_member NETWORKS (toLowerCase name) with
  | Own network => NetworkFound network
  | Inherited => NetworkInherited
  | NoMember =>
      UnknownNetwork
        ("Unknown network: " ++ name ++ ". Available: "
         ++ String.concat ", " (map fst NETWORKS))
  end.

Definition getAvailableNetworks : list string :=
  unique (map (fun n => ChainNetwork.name (snd n)) NETWORKS).

(** ** src/signer.ts: configuration *)

Definition createSignerConfig (chainNetwork : ChainArgument)
    (rpcProvider : IRPCProvider) (feeProvider : IFeeProvider)
    (itemProvider : IItemProvider)
    (marketplaceFeeProvider : option IMarketplaceFeeProvider)
    : result SignerConfigObject.t :=
  let chain :=
    match chainNetwork with
    | ByName name => get_member NETWORKS name
    | ByObject chain => Own chain
    end in
  let config := fun network =>
    {| SignerConfigObject.network := network;
       SignerConfigObject.rpcProvider := rpcProvider;
       SignerConfigObject.feeProvider := feeProvider;
       SignerConfigObject.itemProvider := itemProvider;
       SignerConfigObject.marketplaceFeeProvider := marketplaceFeeProvider;
       SignerConfigObject.platformFeeAddress := PLATFORM_FEE_ADDRESS |} in
  match chain with
  | NoMember =>
      Throw (InvalidArgumentError
               (Msg ("Unknown network: "
                     ++ match chainNetwork with
                        | ByName name => name
                        | ByObject _ => "[object Object]"
                        end)))
  | Own chain => Return (config (Some (ChainNetwork.network chain)))
  | Inherited => Return (config None)
  end.

(** ** src/constant.ts: the values read from the environment *)

(** [getEnvNumber]; the result [None] is a value that is not an integer. *)
Definition getEnvNumber (env : Environment) (key : string) (defaultValue : Z) : option Z :=
  match env key with
  | Some value => if truthy value then Number (Some value) else Some defaultValue
  | None => Some defaultValue
  end.

Definition getEnvString (env : Environment) (key : string) (defaultValue : string) : string :=
  or_else (env key) defaultValue.

(** The runtime values of the module, when each numeric variable holds an
    integer. *)
Definition runtimeConstants (env : Environment) : option Constants :=
  match getEnvNumber env "DUMMY_UTXO_VALUE" DEFAULT_DUMMY_UTXO_VALUE,
        getEnvNumber env "DUMMY_UTXO_MAX_VALUE" DEFAULT_DUMMY_UTXO_MAX_VALUE,
        getEnvNumber env "DUMMY_UTXO_MIN_VALUE" DEFAULT_DUMMY_UTXO_MIN_VALUE,
        getEnvNumber env "ORDINALS_POSTAGE_VALUE" DEFAULT_ORDINALS_POSTAGE_VALUE with
  | Some value, Some maxValue, Some minValue, Some postage =>
      Some {| DUMMY_UTXO_VALUE := value;
              DUMMY_UTXO_MAX_VALUE := maxValue;
              DUMMY_UTXO_MIN_VALUE := minValue;
              ORDINALS_POSTAGE_VALUE := postage;
              PLATFORM_FEE_ADDRESS := getEnvString env "PLATFORM_FEE_ADDRESS" EmptyString |}
  | _, _, _, _ => None
  end.

(** * Vocabulary of the properties *)

(** ** Outputs of a buying PSBT *)

Definition txOutput (address : string) (value : Z) : PsbtTxOutput.t :=
  {| PsbtTxOutput.address := Some address; PsbtTxOutput.value := value |}.

(** The platform-fee output, present or not, as the construction decides
    it. *)
Definition feeOutputs (listing : IListingState.t) (buyer : Buyer.t)
    (platformFeeAddress : option string) : list PsbtTxOutput.t :=
  let feeAddress := or_else platformFeeAddress PLATFORM_FEE_ADDRESS in
  if (0 <? platformFeeValue listing buyer) && truthy feeAddress
  then [txOutput feeAddress (platformFeeValue listing buyer)]
  else [].

(** The outputs that precede the change output. *)
Definition fixedOutputs (listing : IListingState.t) (buyer : Buyer.t)
    (d1 d2 : MappedUtxo.t) (offset : Z) (platformFeeAddress : option string)
    : list PsbtTxOutput.t :=
  ([ txOutput (Buyer.buyerAddress buyer)
       (MappedUtxo.value d1 + MappedUtxo.value d2 + offset);
     txOutput (Buyer.buyerTokenReceiveAddress buyer) ORDINALS_POSTAGE_VALUE;
     txOutput (Seller.sellerReceiveAddress (IListingState.seller listing))
       (sellerOutputValue listing) ]
   ++ feeOutputs listing buyer platformFeeAddress
   ++ [ txOutput (Buyer.buyerAddress buyer) DUMMY_UTXO_VALUE;
        txOutput (Buyer.buyerAddress buyer) DUMMY_UTXO_VALUE ])%list.

(** The change output, present or not. *)
Definition changeOutputs (buyer : Buyer.t) (changeValue : Z) : list PsbtTxOutput.t :=
  if DUMMY_UTXO_MIN_VALUE <? changeValue
  then [txOutput (Buyer.buyerAddress buyer) changeValue]
  else [].

(** The library accepts every input and output handed to it and serialises
    every PSBT. *)
Definition libraryAccepts : Prop :=
  (forall p i, checkInput p i = Answer tt)
  /\ (forall p o, checkOutput p o = Answer tt)
  /\ (forall p, exists base64, Psbt_toBase64 p = Answer base64).

(** The node serves every raw transaction, and the library parses it. *)
Definition nodeServes (rpc : IRPCProvider) : Prop :=
  forall txid, exists txHex tx,
    getrawtransaction rpc txid = Answer txHex /\ Transaction_fromHex txHex = Answer tx.

(** ** Rejections of [generateUnsignedBuyingPSBTBase64] *)

(** The first check of [generateUnsignedBuyingPSBTBase64] fails: no buyer
    section, or an empty buyer or token-receive address. *)
Definition buyerAddressUnset (listing : IListingState.t) : bool :=
  match IListingState.buyer listing with
  | None => true
  | Some buyer =>
      negb (truthy (Buyer.buyerAddress buyer))
      || negb (truthy (Buyer.buyerTokenReceiveAddress buyer))
  end.

(** The second check fails: the dummy list is missing or not of length 2, or
    the payment list is missing. *)
Definition buyerUtxosUnset (listing : IListingState.t) : bool :=
  match IListingState.buyer listing with
  | None => true
  | Some buyer =>
      match Buyer.buyerDummyUTXOs buyer with
      | Some dummies => negb (Nat.eqb (List.length dummies) 2)
      | None => true
      end
      || negb (isSome (Buyer.buyerPaymentUTXOs buyer))
  end.

(** The inputs gathered by the construction do not cover its outputs and the
    fee estimate. *)
Definition cannotCoverOutputs (listing : IListingState.t) (feeProvider : IFeeProvider)
    (rpcProvider : option IRPCProvider) (platformFeeAddress : option string) : Prop :=
  exists buyer psbt totalInput fee,
    IListingState.buyer listing = Some buyer
    /\ buyingPsbtBeforeChange listing rpcProvider platformFeeAddress = Return (psbt, totalInput)
    /\ buyingFee buyer feeProvider psbt = Return fee
    /\ totalInput - sumOutputs psbt - fee < 0.

(** ** Address classification *)

(** The classification as the specification words it: the bech32 decoding
    counts only when its human-readable part is the chain's. *)
Definition classify_address_spec (address : string) (network : Network.t) : AddressType :=
  let viaBech32 :=
    if truthy (Network.bech32 network) then
      match fromBech32 address with
      | Some decoded =>
          if (Bech32Result.prefix decoded =? Network.bech32 network)%string then
            if Bech32Result.version decoded =? 0 then
              if Nat.eqb (List.length (Bech32Result.data decoded)) 20 then p2wpkh else p2wsh
            else if Bech32Result.version decoded =? 1 then p2tr
            else unknown
          else unknown
      | None => unknown
      end
    else unknown in
  match fromBase58Check address with
  | Some (version, hash) =>
      if (version =? Network.pubKeyHash network) && Nat.eqb (List.length hash) 20 then p2pkh
      else if (version =? Network.scriptHash network) && Nat.eqb (List.length hash) 20 then p2sh
      else viaBech32
  | None => viaBech32
  end.

(** ** Inscription check *)






Definition asAddressTxsUtxo (utxo : MappedUtxo.t) : AddressTxsUtxo.t :=
  {| AddressTxsUtxo.txid := MappedUtxo.txid utxo;
     AddressTxsUtxo.vout := MappedUtxo.vout utxo;
     AddressTxsUtxo.value := MappedUtxo.value utxo;
     AddressTxsUtxo.status := MappedUtxo.status utxo |}.

(** ** Payment selection *)

Definition byValueDesc (a b : AddressTxsUtxo.t) : Prop :=
  AddressTxsUtxo.value b <= AddressTxsUtxo.value a.

Definition sumValues (l : list AddressTxsUtxo.t) : Z :=
  fold_right (fun u s => AddressTxsUtxo.value u + s) 0 l.

Section SelectPaymentVocabulary.
Variables (amount vinsLength voutsLength : Z) (feeRateTier : string).
Variables (itemProvider : IItemProvider) (feeProvider : IFeeProvider).
Variable rpcProvider : option IRPCProvider.

(** The check answers that the UTXO holds no inscription. *)
Definition isClean (u : AddressTxsUtxo.t) : bool :=
  match doesUtxoContainInscription u itemProvider rpcProvider with
  | Return false => true
  | _ => false
  end.

(** The fee estimate once [n] payment UTXOs are taken. *)
Definition feeAfter (n : nat) : result Z :=
  calculateTxBytesFee (vinsLength + Z.of_nat n) voutsLength feeRateTier feeProvider None.

Definition targetReached (selected : list AddressTxsUtxo.t) : Prop :=
  exists fee, feeAfter (List.length selected) = Return fee
              /\ amount + fee <= sumValues selected.

Definition targetMissed (selected : list AddressTxsUtxo.t) : Prop :=
  exists fee, feeAfter (List.length selected) = Return fee
              /\ sumValues selected < amount + fee.

(** What a completed scan of [candidates] did, starting from [selected0]:
    it went through the prefix [scanned], took the clean UTXOs of it in
    order, and stopped either at the end of the list or right after the
    first taken UTXO with which the target was reached. *)
Definition scanOutcome (candidates selected0 selected : list AddressTxsUtxo.t) (sum : Z)
    : Prop :=
  exists scanned remaining,
    candidates = (scanned ++ remaining)%list
    /\ Forall (fun u => exists b, doesUtxoContainInscription u itemProvider rpcProvider
                                  = Return b) scanned
    /\ selected = (selected0 ++ filter isClean scanned)%list
    /\ sum = sumValues selected
    /\ (remaining = []
        \/ (targetReached selected
            /\ exists pre u, scanned = (pre ++ [u])%list /\ isClean u = true))
    /\ (forall pre u post,
           scanned = (pre ++ u :: post)%list -> post <> [] -> isClean u = true ->
           targetMissed (selected0 ++ filter isClean (pre ++ [u]))%list).

End SelectPaymentVocabulary.

(** ** Listing verification *)

Section ListingChecks.
Variables (req : IOrdAPIPostPSBTListing.t) (psbt : Psbt.t).
Variables (analyzeResult : option AnalyzeResult.t) (item : option IOrdItem.t).
Variables (makerFeeBp : Z) (sellerAddressFromPSBT : string).

(** Check 1: the PSBT has exactly one input. *)
Definition check_inputCount : bool := Nat.eqb (Psbt.inputCount psbt) 1.

(** Check 2: an input with a tap internal key has a finalized witness that
    is not the sentinel [0141], and the node reports input 0 final. *)
Definition taprootWitnessPresent (input : option PsbtInput.t) : bool :=
  match input with
  | Some input =>
      if isSome (PsbtInput.tapInternalKey input) then
        match PsbtInput.finalScriptWitness input with
        | Some w => Nat.ltb 0 (List.length w) && negb (toHex w =? "0141")%string
        | None => false
        end
      else true
  | None => true
  end.

Definition reportsFinal : bool :=
  match analyzeResult with
  | Some r =>
      match at_index (AnalyzeResult.inputs r) 0 with
      | Some i => AnalyzeInput.is_final i
      | None => false
      end
  | None => false
  end.

Definition check_signature : bool :=
  forallb taprootWitnessPresent (Psbt.inputs psbt) && reportsFinal.

(** Check 3: the indexer resolves the outpoint to the item [req.tokenId]. *)
Definition check_identity : bool :=
  match item with
  | Some ordItem => (IOrdItem.id ordItem =? IOrdAPIPostPSBTListing.tokenId req)%string
  | None => false
  end.

(** Check 4: the output pays the seller payout. *)
Definition check_price : bool :=
  match item, at_index (Psbt.txOutputs psbt) 0 with
  | Some ordItem, Some output =>
      PsbtTxOutput.value output
      =? getSellerOrdOutputValue (IOrdAPIPostPSBTListing.price req) makerFeeBp
           (IOrdItem.outputValue ordItem)
  | _, _ => false
  end.

(** Check 5: the output pays [req.sellerReceiveAddress]. *)
Definition check_receiveAddress : bool :=
  match at_index (Psbt.txOutputs psbt) 0 with
  | Some output =>
      match PsbtTxOutput.address output with
      | Some a => (a =? IOrdAPIPostPSBTListing.sellerReceiveAddress req)%string
      | None => false
      end
  | None => false
  end.

(** Check 6: the spent output belongs to the item's owner. *)
Definition check_sellerAddress : bool :=
  match item with
  | Some ordItem => (IOrdItem.owner ordItem =? sellerAddressFromPSBT)%string
  | None => false
  end.

Definition sixChecks : bool :=
  check_inputCount
  && (check_signature
      && (check_identity
          && (check_price && (check_receiveAddress && check_sellerAddress)))).
End ListingChecks.

(** A PSBT as the parser delivers it: as many input maps as transaction
    inputs, none of them [undefined]. *)
Definition parsedShape (psbt : Psbt.t) : Prop :=
  List.length (Psbt.ins psbt) = List.length (Psbt.inputs psbt)
  /\ Forall (fun i => isSome i = true) (Psbt.ins psbt)
  /\ Forall (fun i => isSome i = true) (Psbt.inputs psbt).

(** What the library and the providers answer to the calls of
    [verifySignedListingPSBTBase64] on [req]. *)
Definition listingObserved (req : IOrdAPIPostPSBTListing.t) (config : SignerConfig.t)
    (psbt : Psbt.t) (analyzeResult : option AnalyzeResult.t) (item : option IOrdItem.t)
    (makerFeeBp : Z) (sellerAddressFromPSBT : string) : Prop :=
  let network := SignerConfig.network config in
  let rpc := SignerConfig.rpcProvider config in
  let signed := IOrdAPIPostPSBTListing.signedListingPSBTBase64 req in
  Psbt_fromBase64 signed network = Answer psbt
  /\ analyzepsbt rpc signed = Answer analyzeResult
  /\ forall txInput0,
       js_get (Psbt.txInputs psbt) 0 = Some txInput0 ->
       let txid := generateTxidFromHash (TxIn.hash txInput0) in
       getTokenByOutput (SignerConfig.itemProvider config)
         (txid ++ ":" ++ string_of_Z (TxIn.index txInput0)) = Answer item
       /\ forall ordItem,
            item = Some ordItem ->
            match SignerConfig.marketplaceFeeProvider config with
            | Some p => getMakerFeeBp p (IOrdItem.owner ordItem) = Answer makerFeeBp
            | None => makerFeeBp = 0
            end
            /\ exists txHex tx prevOut,
                 getrawtransaction rpc txid = Answer txHex
                 /\ Transaction_fromHex txHex = Answer tx
                 /\ at_Z (Transaction.outs tx) (TxIn.index txInput0) = Some prevOut
                 /\ fromOutputScript (TxOut.script prevOut) network
                    = Answer sellerAddressFromPSBT.

(** ** Inputs of a PSBT *)

(** The entry that [addInput] appends to the unsigned transaction for the
    outpoint [txid:vout]. *)
Definition outpointIn (txid : string) (vout : Z) : TxIn.t :=
  {| TxIn.hash := rev (Buffer_from_hex txid);
     TxIn.index := vout;
     TxIn.script := [];
     TxIn.sequence := 4294967295;
     TxIn.witness := [] |}.

(** The per-input map that [addInput] appends. *)
Definition inputMap (input : InputArg.t) : PsbtInput.t :=
  {| PsbtInput.nonWitnessUtxo := Some (InputArg.nonWitnessUtxo input);
     PsbtInput.witnessUtxo := InputArg.witnessUtxo input;
     PsbtInput.sighashType := InputArg.sighashType input;
     PsbtInput.tapInternalKey := InputArg.tapInternalKey input;
     PsbtInput.redeemScript := InputArg.redeemScript input;
     PsbtInput.finalScriptWitness := None |}.

Definition utxoOutpoint (u : AddressTxsUtxo.t) : TxIn.t :=
  outpointIn (AddressTxsUtxo.txid u) (AddressTxsUtxo.vout u).

Definition mappedOutpoint (u : MappedUtxo.t) : TxIn.t :=
  outpointIn (MappedUtxo.txid u) (MappedUtxo.vout u).

Definition sumMapped (l : list MappedUtxo.t) : Z :=
  fold_right (fun u s => MappedUtxo.value u + s) 0 l.

(** The node serves the transaction [txid], and the library parses it to
    [tx]. *)
Definition servedTx (rpc : IRPCProvider) (txid : string) (tx : Transaction.t) : Prop :=
  exists txHex,
    getrawtransaction rpc txid = Answer txHex /\ Transaction_fromHex txHex = Answer tx.

(** The listing document after a successful
    [generateUnsignedBuyingPSBTBase64] differs from the one before in two
    fields of the buyer at most. *)
Definition sameButUnsignedBuyingPSBT (before after : IListingState.t) : Prop :=
  IListingState.network after = IListingState.network before
  /\ IListingState.seller after = IListingState.seller before
  /\ exists b b',
       IListingState.buyer before = Some b
       /\ IListingState.buyer after = Some b'
       /\ Buyer.takerFeeBp b' = Buyer.takerFeeBp b
       /\ Buyer.buyerAddress b' = Buyer.buyerAddress b
       /\ Buyer.buyerTokenReceiveAddress b' = Buyer.buyerTokenReceiveAddress b
       /\ Buyer.feeRateTier b' = Buyer.feeRateTier b
       /\ Buyer.buyerPublicKey b' = Buyer.buyerPublicKey b
       /\ Buyer.signedBuyingPSBTBase64 b' = Buyer.signedBuyingPSBTBase64 b
       /\ Buyer.buyerDummyUTXOs b' = Buyer.buyerDummyUTXOs b
       /\ Buyer.buyerPaymentUTXOs b' = Buyer.buyerPaymentUTXOs b
       /\ Buyer.mergedSignedBuyingPSBTBase64 b' = Buyer.mergedSignedBuyingPSBTBase64 b.

(** The listing document after a successful
    [generateUnsignedListingPSBTBase64] differs from the one before in
    [seller.unsignedListingPSBTBase64] at most. *)
Definition sameButUnsignedListingPSBT (before after : IListingState.t) : Prop :=
  IListingState.network after = IListingState.network before
  /\ IListingState.buyer after = IListingState.buyer before
  /\ Seller.makerFeeBp (IListingState.seller after)
     = Seller.makerFeeBp (IListingState.seller before)
  /\ Seller.sellerOrdAddress (IListingState.seller after)
     = Seller.sellerOrdAddress (IListingState.seller before)
  /\ Seller.price (IListingState.seller after) = Seller.price (IListingState.seller before)
  /\ Seller.ordItem (IListingState.seller after)
     = Seller.ordItem (IListingState.seller before)
  /\ Seller.sellerReceiveAddress (IListingState.seller after)
     = Seller.sellerReceiveAddress (IListingState.seller before)
  /\ Seller.signedListingPSBTBase64 (IListingState.seller after)
     = Seller.signedListingPSBTBase64 (IListingState.seller before)
  /\ Seller.tapInternalKey (IListingState.seller after)
     = Seller.tapInternalKey (IListingState.seller before).

(** ** Dummy selection *)

(** A UTXO that [selectDummyUTXOs] takes: the inscription check answers
    [false] for it and its value lies in the dummy range. *)
Definition dummyCandidate (itemProvider : IItemProvider)
    (rpcProvider : option IRPCProvider) (u : AddressTxsUtxo.t) : bool :=
  isClean itemProvider rpcProvider u
  && ((DUMMY_UTXO_MIN_VALUE <=? AddressTxsUtxo.value u)
      && (AddressTxsUtxo.value u <=? DUMMY_UTXO_MAX_VALUE)).

(** ** Dummy creation *)

(** The spendable inputs gathered by
    [generateUnsignedCreateDummyUtxoPSBTBase64] do not cover the two dummy
    outputs and the fee. *)
Definition cannotCoverDummies (address : string) (buyerPublicKey : option string)
    (unqualifiedUtxos : list AddressTxsUtxo.t) (feeRateTier : string)
    (network : Network.t) (feeProvider : IFeeProvider) (itemProvider : IItemProvider)
    (rpcProvider : option IRPCProvider) : Prop :=
  exists mappedUtxos recommendedFee psbt totalValue paymentUtxoCount,
    mapUtxos unqualifiedUtxos rpcProvider = Return mappedUtxos
    /\ getFees feeProvider feeRateTier = Answer recommendedFee
    /\ createDummy_loop address buyerPublicKey network itemProvider rpcProvider
         recommendedFee mappedUtxos Psbt.empty 0 0
       = Return (psbt, totalValue, paymentUtxoCount)
    /\ totalValue - DUMMY_UTXO_VALUE * 2
       - calculateTxBytesFeeWithRate paymentUtxoCount 2 recommendedFee None < 0.

(** The inscription check answers [false] for a mapped UTXO. *)
Definition cleanMapped (itemProvider : IItemProvider) (rpcProvider : option IRPCProvider)
    (m : MappedUtxo.t) : bool :=
  isClean itemProvider rpcProvider (asAddressTxsUtxo m).

(** The inputs [used] cover the two dummy outputs and the fee of a
    transaction with these inputs, two outputs and a change output. *)
Definition dummiesCovered (recommendedFee : Z) (used : list MappedUtxo.t) : Prop :=
  DUMMY_UTXO_VALUE * 2
  + calculateTxBytesFeeWithRate (Z.of_nat (List.length used)) 2 recommendedFee None
  <= sumMapped used.

(** What the loop of [generateUnsignedCreateDummyUtxoPSBTBase64] did on
    [mappedUtxos]: it went through the prefix [scanned], took the clean
    UTXOs of it in order, and stopped either at the end of the list or right
    after the first taken UTXO with which the dummies were covered. *)
Definition dummyScan (itemProvider : IItemProvider) (rpcProvider : option IRPCProvider)
    (recommendedFee : Z) (mappedUtxos used : list MappedUtxo.t) : Prop :=
  exists scanned remaining,
    mappedUtxos = (scanned ++ remaining)%list
    /\ used = filter (cleanMapped itemProvider rpcProvider) scanned
    /\ (remaining = []
        \/ (dummiesCovered recommendedFee used
            /\ exists pre u,
                 scanned = (pre ++ [u])%list
                 /\ cleanMapped itemProvider rpcProvider u = true))
    /\ (forall pre u post,
           scanned = (pre ++ u :: post)%list -> post <> [] ->
           cleanMapped itemProvider rpcProvider u = true ->
           ~ dummiesCovered recommendedFee
               (filter (cleanMapped itemProvider rpcProvider) (pre ++ [u]))).

(** ** Messages of the listing verification *)

(** The three texts with which [verifySignedListingPSBTBase64] turns down a
    signature. *)
Definition signatureComplaint (m : string) : Prop :=
  m = "Invalid signature"
  \/ m = "Invalid signature - no finalScriptWitness"
  \/ m = "Invalid signature - no taproot signature present".

(** ** Configuration *)

(** A created configuration as the signer functions take it. *)
Definition asSignerConfig (config : SignerConfigObject.t) : option SignerConfig.t :=
  match SignerConfigObject.network config with
  | Some network =>
      Some {| SignerConfig.network := network;
              SignerConfig.rpcProvider := SignerConfigObject.rpcProvider config;
              SignerConfig.feeProvider := SignerConfigObject.feeProvider config;
              SignerConfig.itemProvider := SignerConfigObject.itemProvider config;
              SignerConfig.marketplaceFeeProvider :=
                SignerConfigObject.marketplaceFeeProvider config;
              SignerConfig.platformFeeAddress :=
                Some (SignerConfigObject.platformFeeAddress config) |}
  | None => None
  end.

(** The names of the variables that [constant.ts] reads for the runtime
    values. *)
Definition runtimeVariables : list string :=
  [ "DUMMY_UTXO_VALUE"; "DUMMY_UTXO_MAX_VALUE"; "DUMMY_UTXO_MIN_VALUE";
    "ORDINALS_POSTAGE_VALUE"; "PLATFORM_FEE_ADDRESS" ].

(** ** Kinds of failure *)

(** A completion that is not a rejection with [InvalidArgumentError]. *)
Definition notInvalid {A : Type} (r : result A) : Prop :=
  forall m, r <> Throw (InvalidArgumentError m).

(** * Properties *)

(** ** The error monad *)

Lemma bind_Return (A B : Type) (m : result A) (k : A -> result B) (b : B) :
  bind m k = Return b -> exists a, m = Return a /\ k a = Return b.
Proof.
  destruct m as [a | e]; simpl; intros H.
  - exists a; split; [reflexivity | exact H].
  - discriminate H.
Qed.

Tactic Notation "bind_inv" hyp(H) "as" ident(a) ident(Ha) :=
  apply bind_Return in H; destruct H as (a & Ha & H).

(** ** Fee model *)

Lemma calculateTxBytesFeeWithRate_default (n_in n_out r : Z) :
  calculateTxBytesFeeWithRate n_in n_out r None = (10 + 180 * n_in + 34 * (n_out + 1)) * r.
Proof. unfold calculateTxBytesFeeWithRate, changeOutputCount. ring. Qed.

(** ** Outputs of the PSBT operations *)

Lemma addInput_outs (p p' : Psbt.t) (i : InputArg.t) :
  addInput p i = Return p' -> Psbt.outs p' = Psbt.outs p.
Proof.
  unfold addInput; intros H. bind_inv H as u Hu.
  destruct (InputArg.index i); [|discriminate H].
  injection H as <-. reflexivity.
Qed.

Lemma addOutput_outs (p p' : Psbt.t) (o : OutputArg.t) :
  addOutput p o = Return p' ->
  Psbt.outs p' = push (Psbt.outs p) (txOutput (OutputArg.address o) (OutputArg.value o)).
Proof.
  unfold addOutput; intros H. bind_inv H as u Hu.
  injection H as <-. reflexivity.
Qed.

Lemma addDummyInputs_outs (buyer : Buyer.t) (network : Network.t) (dummies : list MappedUtxo.t) :
  forall p total p' total',
    addDummyInputs buyer network dummies p total = Return (p', total') ->
    Psbt.outs p' = Psbt.outs p.
Proof.
  induction dummies as [| d rest IH]; simpl; intros p total p' total' H.
  - injection H as <- _. reflexivity.
  - bind_inv H as input Hinput. bind_inv H as q Hq.
    apply IH in H. rewrite H. eapply addInput_outs; eassumption.
Qed.

Lemma addPaymentInputs_outs (buyer : Buyer.t) (network : Network.t)
    (rpcProvider : option IRPCProvider) (payments : list AddressTxsUtxo.t) :
  forall p total p' total',
    addPaymentInputs buyer network rpcProvider payments p total = Return (p', total') ->
    Psbt.outs p' = Psbt.outs p.
Proof.
  induction payments as [| u rest IH]; intros p total p' total' H;
    cbn [addPaymentInputs] in H.
  - injection H as <- _. reflexivity.
  - bind_inv H as mapped Hmapped. destruct (at_index mapped 0); [|discriminate H].
    bind_inv H as input Hinput. bind_inv H as q Hq.
    apply IH in H. rewrite H. eapply addInput_outs; eassumption.
Qed.

Lemma buyingPsbtBeforeChange_outs (listing : IListingState.t)
    (rpcProvider : option IRPCProvider) (platformFeeAddress : option string)
    (psbt : Psbt.t) (totalInput : Z) :
  buyingPsbtBeforeChange listing rpcProvider platformFeeAddress = Return (psbt, totalInput) ->
  exists buyer d1 d2 offset,
    IListingState.buyer listing = Some buyer
    /\ truthy (Buyer.buyerAddress buyer) = true
    /\ truthy (Buyer.buyerTokenReceiveAddress buyer) = true
    /\ Buyer.buyerDummyUTXOs buyer = Some [d1; d2]
    /\ offsetOf listing = Some offset
    /\ Psbt.outs psbt = fixedOutputs listing buyer d1 d2 offset platformFeeAddress.
Proof.
  unfold buyingPsbtBeforeChange; intros H.
  destruct (IListingState.buyer listing) as [buyer|]; [|discriminate H].
  destruct (truthy (Buyer.buyerAddress buyer)) eqn:Ea; [|discriminate H].
  destruct (truthy (Buyer.buyerTokenReceiveAddress buyer)) eqn:Et; [|discriminate H].
  simpl in H.
  destruct (Buyer.buyerDummyUTXOs buyer) as [dummies|] eqn:Ed; [|discriminate H].
  destruct (Buyer.buyerPaymentUTXOs buyer) as [payments|]; [|discriminate H].
  destruct dummies as [| d1 [| d2 [| d3 more]]]; try discriminate H.
  cbn [List.length Nat.eqb negb] in H.
  bind_inv H as r0 E0. destruct r0 as [p0 t0].
  apply addDummyInputs_outs in E0. cbn in E0.
  bind_inv H as p1 E1.
  unfold dummyValue in E1; cbn [at_index nth_error option_map] in E1.
  destruct (offsetOf listing) as [offset|] eqn:Eoff; [|discriminate E1].
  apply addOutput_outs in E1. cbn in E1.
  bind_inv H as p2 E2. apply addOutput_outs in E2. cbn in E2.
  bind_inv H as so Eso. destruct so as [sellerInput sellerOutput].
  unfold getSellerInputAndOutput in Eso. bind_inv Eso as tx Etx. injection Eso as <- <-.
  bind_inv H as p3 E3. apply addInput_outs in E3.
  bind_inv H as p4 E4. apply addOutput_outs in E4. cbn in E4.
  bind_inv H as r5 E5. destruct r5 as [p5 t5].
  apply addPaymentInputs_outs in E5.
  bind_inv H as p6 E6. bind_inv H as p7 E7. bind_inv H as p8 E8.
  injection H as Hp Ht. subst psbt totalInput.
  apply addOutput_outs in E7, E8. cbn in E7, E8.
  exists buyer, d1, d2, offset.
  repeat split; try reflexivity; try assumption.
  rewrite E8, E7.
  assert (Hfee : Psbt.outs p6 = (Psbt.outs p5 ++ feeOutputs listing buyer platformFeeAddress)%list).
  { unfold feeOutputs.
    destruct ((0 <? platformFeeValue listing buyer)
              && truthy (or_else platformFeeAddress PLATFORM_FEE_ADDRESS)).
    - apply addOutput_outs in E6. exact E6.
    - injection E6 as <-. symmetry; apply app_nil_r. }
  rewrite Hfee, E5, E4, E3, E2, E1, E0.
  unfold fixedOutputs, push. cbn. rewrite <- !app_assoc. reflexivity.
Qed.

Lemma buyingPsbt_outs (listing : IListingState.t) (feeProvider : IFeeProvider)
    (rpcProvider : option IRPCProvider) (platformFeeAddress : option string)
    (buyer : Buyer.t) (psbt : Psbt.t) :
  buyingPsbt listing feeProvider rpcProvider platformFeeAddress = Return (buyer, psbt) ->
  exists d1 d2 offset changeValue,
    IListingState.buyer listing = Some buyer
    /\ truthy (Buyer.buyerAddress buyer) = true
    /\ truthy (Buyer.buyerTokenReceiveAddress buyer) = true
    /\ Buyer.buyerDummyUTXOs buyer = Some [d1; d2]
    /\ offsetOf listing = Some offset
    /\ 0 <= changeValue
    /\ Psbt.outs psbt =
         (fixedOutputs listing buyer d1 d2 offset platformFeeAddress
          ++ changeOutputs buyer changeValue)%list.
Proof.
  unfold buyingPsbt; intros H.
  bind_inv H as r Hr. destruct r as [p0 totalInput].
  apply buyingPsbtBeforeChange_outs in Hr.
  destruct Hr as (b & d1 & d2 & offset & Hb & Ha & Ht & Hd & Ho & Houts).
  rewrite Hb in H.
  bind_inv H as fee Hfee.
  destruct (totalInput - sumOutputs p0 - fee <? 0) eqn:Hneg; [discriminate H|].
  apply Z.ltb_ge in Hneg.
  bind_inv H as p1 Hp1. injection H as Hbuyer Hpsbt. subst b p1.
  exists d1, d2, offset, (totalInput - sumOutputs p0 - fee).
  repeat split; try assumption.
  unfold changeOutputs.
  destruct (DUMMY_UTXO_MIN_VALUE <? totalInput - sumOutputs p0 - fee).
  - apply addOutput_outs in Hp1. rewrite Hp1, Houts. reflexivity.
  - injection Hp1 as <-. rewrite Houts. symmetry; apply app_nil_r.
Qed.

Lemma generateUnsignedBuyingPSBTBase64_success (listing listing' : IListingState.t)
    (feeProvider : IFeeProvider) (rpcProvider : option IRPCProvider)
    (platformFeeAddress : option string) :
  generateUnsignedBuyingPSBTBase64 listing feeProvider rpcProvider platformFeeAddress
    = (listing', Return tt) ->
  exists buyer psbt base64,
    buyingPsbt listing feeProvider rpcProvider platformFeeAddress = Return (buyer, psbt)
    /\ Psbt_toBase64 psbt = Answer base64
    /\ listing' =
         set_buyer listing
           (Buyer.set_unsignedBuyingPSBT buyer base64
              (Z.of_nat (List.length (Psbt.inputs psbt)))).
Proof.
  unfold generateUnsignedBuyingPSBTBase64; intros H.
  destruct (buyingPsbt listing feeProvider rpcProvider platformFeeAddress)
    as [[buyer psbt] | e] eqn:Hpsbt; [|discriminate H].
  cbn in H.
  destruct (Psbt_toBase64 psbt) as [base64 | e] eqn:H64; [|discriminate H].
  cbn in H. injection H as <-.
  exists buyer, psbt, base64. repeat split; solve [reflexivity | assumption].
Qed.

Lemma listingPsbt_outs (listing : IListingState.t) (rpcProvider : option IRPCProvider)
    (psbt : Psbt.t) :
  listingPsbt listing rpcProvider = Return psbt ->
  Psbt.outs psbt =
    [txOutput (Seller.sellerReceiveAddress (IListingState.seller listing))
       (sellerOutputValue listing)].
Proof.
  unfold listingPsbt; intros H.
  bind_inv H as tx Htx. bind_inv H as p1 Hp1.
  apply addInput_outs in Hp1. apply addOutput_outs in H.
  rewrite H, Hp1. reflexivity.
Qed.

(** ** Generation succeeds when the collaborators answer *)

Lemma addInput_accepts (p : Psbt.t) (i : InputArg.t) (index : Z) :
  libraryAccepts -> InputArg.index i = Some index -> exists p', addInput p i = Return p'.
Proof.
  intros (Hin & _ & _) Hindex. unfold addInput.
  rewrite Hin, Hindex. cbn [await bind]. eexists; reflexivity.
Qed.

Lemma addOutput_accepts (p : Psbt.t) (o : OutputArg.t) :
  libraryAccepts -> exists p', addOutput p o = Return p'.
Proof.
  intros (_ & Hout & _). unfold addOutput.
  rewrite Hout. cbn [await bind]. eexists; reflexivity.
Qed.

Lemma buyerInput_plain (buyer : Buyer.t) (network : Network.t) (utxo : MappedUtxo.t) :
  isP2SHAddress (Buyer.buyerAddress buyer) network = false ->
  exists input,
    buyerInput buyer network utxo = Return input
    /\ InputArg.index input = Some (MappedUtxo.vout utxo).
Proof.
  intros Hp2sh. unfold buyerInput. rewrite Hp2sh.
  eexists; split; reflexivity.
Qed.

Lemma addDummyInputs_accepts (buyer : Buyer.t) (network : Network.t)
    (dummies : list MappedUtxo.t) :
  libraryAccepts ->
  isP2SHAddress (Buyer.buyerAddress buyer) network = false ->
  forall p total, exists p' total',
    addDummyInputs buyer network dummies p total = Return (p', total').
Proof.
  intros Hlib Hp2sh.
  induction dummies as [| d rest IH]; intros p total; cbn [addDummyInputs].
  - eexists; eexists; reflexivity.
  - destruct (buyerInput_plain buyer network d Hp2sh) as (input & -> & Hindex).
    cbn [bind].
    destruct (addInput_accepts p input Hlib Hindex) as [p1 ->]. cbn [bind].
    apply IH.
Qed.

Lemma mapUtxos_single (rpcProvider : option IRPCProvider) (utxo : AddressTxsUtxo.t) :
  nodeServes (resolveRPC rpcProvider) ->
  exists mapped,
    mapUtxos [utxo] rpcProvider = Return [mapped]
    /\ MappedUtxo.vout mapped = AddressTxsUtxo.vout utxo
    /\ MappedUtxo.value mapped = AddressTxsUtxo.value utxo.
Proof.
  intros Hnode. unfold mapUtxos. cbn [mapUtxos_loop].
  destruct (Hnode (AddressTxsUtxo.txid utxo)) as (txHex & tx & -> & Htx).
  cbn [await bind]. rewrite Htx. cbn [await bind].
  eexists; repeat split; reflexivity.
Qed.

Lemma addPaymentInputs_accepts (buyer : Buyer.t) (network : Network.t)
    (rpcProvider : option IRPCProvider) (payments : list AddressTxsUtxo.t) :
  libraryAccepts ->
  nodeServes (resolveRPC rpcProvider) ->
  isP2SHAddress (Buyer.buyerAddress buyer) network = false ->
  forall p total, exists p' total',
    addPaymentInputs buyer network rpcProvider payments p total = Return (p', total').
Proof.
  intros Hlib Hnode Hp2sh.
  induction payments as [| u rest IH]; intros p total; cbn [addPaymentInputs].
  - eexists; eexists; reflexivity.
  - destruct (mapUtxos_single rpcProvider u Hnode) as (mapped & -> & _ & _).
    cbn [bind at_index nth_error].
    destruct (buyerInput_plain buyer network mapped Hp2sh) as (input & -> & Hindex).
    cbn [bind].
    destruct (addInput_accepts p input Hlib Hindex) as [p1 ->]. cbn [bind].
    apply IH.
Qed.

(** With the addresses set, two dummies and a payment list, a buyer address
    that is not P2SH, a listing whose outpoint and offset parse, and
    collaborators that answer, the PSBT is assembled up to the change
    output. *)
Lemma buyingPsbtBeforeChange_succeeds (listing : IListingState.t)
    (rpcProvider : option IRPCProvider) (platformFeeAddress : option string)
    (buyer : Buyer.t) (d1 d2 : MappedUtxo.t) (payments : list AddressTxsUtxo.t)
    (vout offset : Z) :
  IListingState.buyer listing = Some buyer ->
  truthy (Buyer.buyerAddress buyer) = true ->
  truthy (Buyer.buyerTokenReceiveAddress buyer) = true ->
  Buyer.buyerDummyUTXOs buyer = Some [d1; d2] ->
  Buyer.buyerPaymentUTXOs buyer = Some payments ->
  isP2SHAddress (Buyer.buyerAddress buyer) (IListingState.network listing) = false ->
  parseInt (ordinalUtxoVout listing) = Some vout ->
  offsetOf listing = Some offset ->
  libraryAccepts ->
  nodeServes (resolveRPC rpcProvider) ->
  exists psbt totalInput,
    buyingPsbtBeforeChange listing rpcProvider platformFeeAddress = Return (psbt, totalInput).
Proof.
  intros Hb Ha Ht Hd Hpay Hp2sh Hvout Hoff Hlib Hnode.
  unfold buyingPsbtBeforeChange.
  rewrite Hb, Ha, Ht, Hd, Hpay. cbn [negb orb List.length Nat.eqb].
  destruct (addDummyInputs_accepts buyer (IListingState.network listing) [d1; d2]
              Hlib Hp2sh Psbt.empty 0) as (p0 & t0 & ->). cbn [bind].
  unfold dummyValue; cbn [at_index nth_error option_map]. rewrite Hoff.
  destruct (addOutput_accepts p0
              {| OutputArg.address := Buyer.buyerAddress buyer;
                 OutputArg.value := MappedUtxo.value d1 + MappedUtxo.value d2 + offset |}
              Hlib) as [p1 ->]. cbn [bind].
  destruct (addOutput_accepts p1
              {| OutputArg.address := Buyer.buyerTokenReceiveAddress buyer;
                 OutputArg.value := ORDINALS_POSTAGE_VALUE |} Hlib) as [p2 ->].
  cbn [bind].
  unfold getSellerInputAndOutput, fetchOrdinalTx.
  destruct (Hnode (ordinalUtxoTxId listing)) as (txHex & tx & -> & Htx).
  cbn [await bind]. rewrite Htx. cbn [await bind].
  match goal with
  | |- context [addInput p2 ?i] =>
      destruct (addInput_accepts p2 i Hlib Hvout) as [p3 ->]
  end.
  cbn [bind].
  match goal with
  | |- context [addOutput p3 ?o] => destruct (addOutput_accepts p3 o Hlib) as [p4 ->]
  end.
  cbn [bind].
  destruct (addPaymentInputs_accepts buyer (IListingState.network listing) rpcProvider
              payments Hlib Hnode Hp2sh p4 t0) as (p5 & t5 & ->).
  cbn [bind].
  assert (Hfee : exists p6,
             (if (0 <? platformFeeValue listing buyer)
                 && truthy (or_else platformFeeAddress PLATFORM_FEE_ADDRESS)
              then addOutput p5
                     {| OutputArg.address := or_else platformFeeAddress PLATFORM_FEE_ADDRESS;
                        OutputArg.value := platformFeeValue listing buyer |}
              else Return p5) = Return p6).
  { destruct ((0 <? platformFeeValue listing buyer)
              && truthy (or_else platformFeeAddress PLATFORM_FEE_ADDRESS)).
    - apply addOutput_accepts; exact Hlib.
    - eexists; reflexivity. }
  destruct Hfee as [p6 ->]. cbn [bind].
  match goal with
  | |- context [addOutput p6 ?o] => destruct (addOutput_accepts p6 o Hlib) as [p7 ->]
  end.
  cbn [bind].
  match goal with
  | |- context [addOutput p7 ?o] => destruct (addOutput_accepts p7 o Hlib) as [p8 ->]
  end.
  cbn [bind].
  eexists; eexists; reflexivity.
Qed.

(** Then the call either stores the PSBT in the listing or, the funds
    falling short of outputs and fee, throws [InvalidArgumentError]. *)
Lemma generateUnsignedBuyingPSBTBase64_total (listing : IListingState.t)
    (feeProvider : IFeeProvider) (rpcProvider : option IRPCProvider)
    (platformFeeAddress : option string)
    (buyer : Buyer.t) (d1 d2 : MappedUtxo.t) (payments : list AddressTxsUtxo.t)
    (vout offset rate : Z) :
  IListingState.buyer listing = Some buyer ->
  truthy (Buyer.buyerAddress buyer) = true ->
  truthy (Buyer.buyerTokenReceiveAddress buyer) = true ->
  Buyer.buyerDummyUTXOs buyer = Some [d1; d2] ->
  Buyer.buyerPaymentUTXOs buyer = Some payments ->
  isP2SHAddress (Buyer.buyerAddress buyer) (IListingState.network listing) = false ->
  parseInt (ordinalUtxoVout listing) = Some vout ->
  offsetOf listing = Some offset ->
  libraryAccepts ->
  nodeServes (resolveRPC rpcProvider) ->
  getFees feeProvider (Buyer.feeRateTier buyer) = Answer rate ->
  (exists listing',
      generateUnsignedBuyingPSBTBase64 listing feeProvider rpcProvider platformFeeAddress
        = (listing', Return tt))
  \/ (cannotCoverOutputs listing feeProvider rpcProvider platformFeeAddress
      /\ exists message,
           generateUnsignedBuyingPSBTBase64 listing feeProvider rpcProvider
             platformFeeAddress
           = (listing, Throw (InvalidArgumentError message))).
Proof.
  intros Hb Ha Ht Hd Hpay Hp2sh Hvout Hoff Hlib Hnode Hrate.
  destruct (buyingPsbtBeforeChange_succeeds listing rpcProvider platformFeeAddress
              Hb Ha Ht Hd Hpay Hp2sh Hvout Hoff Hlib Hnode) as (psbt & totalInput & Hpsbt).
  assert (Hfee : buyingFee buyer feeProvider psbt
                 = Return (calculateTxBytesFeeWithRate
                             (Z.of_nat (List.length (Psbt.txInputs psbt)))
                             (Z.of_nat (List.length (Psbt.txOutputs psbt))) rate None)).
  { unfold buyingFee, calculateTxBytesFee. rewrite Hrate. reflexivity. }
  set (fee := calculateTxBytesFeeWithRate _ _ rate None) in Hfee.
  unfold generateUnsignedBuyingPSBTBase64, buyingPsbt.
  rewrite Hpsbt. cbn [bind]. rewrite Hb, Hfee. cbn [bind].
  destruct (totalInput - sumOutputs psbt - fee <? 0) eqn:Hneg.
  - right. apply Z.ltb_lt in Hneg. split.
    + exists buyer, psbt, totalInput, fee. repeat split; assumption.
    + eexists; reflexivity.
  - left.
    assert (Hchange : exists p',
               (if DUMMY_UTXO_MIN_VALUE <? totalInput - sumOutputs psbt - fee
                then addOutput psbt
                       {| OutputArg.address := Buyer.buyerAddress buyer;
                          OutputArg.value := totalInput - sumOutputs psbt - fee |}
                else Return psbt) = Return p').
    { destruct (DUMMY_UTXO_MIN_VALUE <? totalInput - sumOutputs psbt - fee).
      - apply addOutput_accepts; exact Hlib.
      - eexists; reflexivity. }
    destruct Hchange as [p' ->]. cbn [bind].
    destruct Hlib as (_ & _ & H64). destruct (H64 p') as [base64 ->].
    cbn [await bind]. eexists; reflexivity.
Qed.

(** ** The generated PSBTs *)

(** C1. A buying PSBT that [generateUnsignedBuyingPSBTBase64] produces and
    stores in the listing pays, at output 0, the buyer payment address the
    sum of the two dummy values and of the offset (the number read from the
    third colon-separated component of [seller.ordItem.location]), and, at
    output 1, the buyer token receive address [ORDINALS_POSTAGE_VALUE]. *)
Theorem buying_psbt_dummy_and_ordinal_outputs
    (listing listing' : IListingState.t) (feeProvider : IFeeProvider)
    (rpcProvider : option IRPCProvider) (platformFeeAddress : option string) :
  generateUnsignedBuyingPSBTBase64 listing feeProvider rpcProvider platformFeeAddress
    = (listing', Return tt) ->
  exists buyer psbt base64 dummy1 dummy2 offset,
    IListingState.buyer listing = Some buyer
    /\ Buyer.buyerDummyUTXOs buyer = Some [dummy1; dummy2]
    /\ Number (at_index
                 (split_colon
                    (IOrdItem.location (Seller.ordItem (IListingState.seller listing))))
                 2) = Some offset
    /\ buyingPsbt listing feeProvider rpcProvider platformFeeAddress = Return (buyer, psbt)
    /\ Psbt_toBase64 psbt = Answer base64
    /\ option_map Buyer.unsignedBuyingPSBTBase64 (IListingState.buyer listing')
         = Some (Some base64)
    /\ at_index (Psbt.txOutputs psbt) 0
         = Some (txOutput (Buyer.buyerAddress buyer)
                   (MappedUtxo.value dummy1 + MappedUtxo.value dummy2 + offset))
    /\ at_index (Psbt.txOutputs psbt) 1
         = Some (txOutput (Buyer.buyerTokenReceiveAddress buyer) ORDINALS_POSTAGE_VALUE).
Proof.
  intros H.
  apply generateUnsignedBuyingPSBTBase64_success in H.
  destruct H as (buyer & psbt & base64 & Hpsbt & H64 & ->).
  destruct (buyingPsbt_outs _ _ _ _ Hpsbt)
    as (d1 & d2 & offset & change & Hb & _ & _ & Hd & Ho & _ & Houts).
  exists buyer, psbt, base64, d1, d2, offset.
  unfold Psbt.txOutputs. rewrite Houts.
  repeat split; try assumption; reflexivity.
Qed.




Lemma generateUnsignedBuyingPSBTBase64_failure (listing : IListingState.t)
    (feeProvider : IFeeProvider) (rpcProvider : option IRPCProvider)
    (platformFeeAddress : option string) (e : Error) :
  buyingPsbt listing feeProvider rpcProvider platformFeeAddress = Throw e ->
  generateUnsignedBuyingPSBTBase64 listing feeProvider rpcProvider platformFeeAddress
    = (listing, Throw e).
Proof.
  unfold generateUnsignedBuyingPSBTBase64; intros ->. reflexivity.
Qed.

(** C10. When the buyer address or token-receive address is unset, or the
    dummy list is not of length 2 or the payment list is missing, or the PSBT
    was assembled and its inputs do not cover the outputs and the fee, the
    call throws [InvalidArgumentError] and leaves the listing document as it
    was.  More generally every failing call leaves the document unchanged:
    the two buyer fields are written on the success path only. *)
Theorem buying_psbt_rejections_leave_listing_unchanged
    (listing : IListingState.t) (feeProvider : IFeeProvider)
    (rpcProvider : option IRPCProvider) (platformFeeAddress : option string) :
  (buyerAddressUnset listing = true
   \/ buyerUtxosUnset listing = true
   \/ cannotCoverOutputs listing feeProvider rpcProvider platformFeeAddress ->
   exists message,
     generateUnsignedBuyingPSBTBase64 listing feeProvider rpcProvider platformFeeAddress
       = (listing, Throw (InvalidArgumentError message)))
  /\ (forall listing' e,
        generateUnsignedBuyingPSBTBase64 listing feeProvider rpcProvider platformFeeAddress
          = (listing', Throw e) ->
        listing' = listing).
Proof.
  split.
  - intros [H | [H | H]].
    + exists (Msg "Buyer address is not set").
      apply generateUnsignedBuyingPSBTBase64_failure.
      unfold buyingPsbt, buyingPsbtBeforeChange.
      unfold buyerAddressUnset in H.
      destruct (IListingState.buyer listing) as [buyer|]; [|reflexivity].
      rewrite H. reflexivity.
    + unfold buyerUtxosUnset in H.
      destruct (buyerAddressUnset listing) eqn:Ha.
      * exists (Msg "Buyer address is not set").
        apply generateUnsignedBuyingPSBTBase64_failure.
        unfold buyingPsbt, buyingPsbtBeforeChange.
        unfold buyerAddressUnset in Ha.
        destruct (IListingState.buyer listing) as [buyer|]; [|reflexivity].
        rewrite Ha. reflexivity.
      * exists (Msg "Buyer address has not enough utxos").
        apply generateUnsignedBuyingPSBTBase64_failure.
        unfold buyingPsbt, buyingPsbtBeforeChange.
        unfold buyerAddressUnset in Ha.
        destruct (IListingState.buyer listing) as [buyer|]; [|discriminate Ha].
        rewrite Ha.
        destruct (Buyer.buyerDummyUTXOs buyer) as [dummies|]; [|reflexivity].
        destruct (Buyer.buyerPaymentUTXOs buyer) as [payments|]; [|reflexivity].
        cbn in H. rewrite orb_false_r in H. rewrite H. reflexivity.
    + destruct H as (buyer & psbt & totalInput & fee & Hb & Hpsbt & Hfee & Hneg).
      exists (NotEnoughFundsToBuy (Seller.price (IListingState.seller listing))
                (sumOutputs psbt + fee) (- (totalInput - sumOutputs psbt - fee))).
      apply generateUnsignedBuyingPSBTBase64_failure.
      unfold buyingPsbt. rewrite Hpsbt. cbn. rewrite Hb, Hfee. cbn.
      apply Z.ltb_lt in Hneg. rewrite Hneg. reflexivity.
  - intros listing' e H.
    unfold generateUnsignedBuyingPSBTBase64 in H.
    destruct (buyingPsbt listing feeProvider rpcProvider platformFeeAddress)
      as [[buyer psbt] | e0]; cbn in H.
    + destruct (Psbt_toBase64 psbt); cbn in H.
      * discriminate H.
      * injection H as <- _. reflexivity.
    + injection H as <- _. reflexivity.
Qed.


(** ** Merge *)

Lemma js_get_set_same (A : Type) (i : nat) :
  forall (arr : JsArray A) (v : option A), js_get (js_set arr i v) i = v.
Proof.
  induction i as [| j IH]; intros [| x rest] v; cbn; try reflexivity.
  - apply (IH [] v).
  - apply (IH rest v).
Qed.

Lemma js_get_nil (A : Type) (i : nat) : js_get (@nil (option A)) i = None.
Proof. destruct i; reflexivity. Qed.

Lemma js_get_set_other (A : Type) (i : nat) :
  forall (j : nat) (arr : JsArray A) (v : option A),
    j <> i -> js_get (js_set arr i v) j = js_get arr j.
Proof.
  induction i as [| i' IH]; intros j arr v Hne.
  - destruct j as [| j']; [contradiction Hne; reflexivity|].
    destruct arr as [| x rest]; [|reflexivity].
    change (js_get (@nil (option A)) j' = js_get [] (S j')).
    rewrite !js_get_nil. reflexivity.
  - destruct j as [| j']; destruct arr as [| x rest]; try reflexivity.
    + change (js_get (js_set [] i' v) j' = js_get [] (S j')).
      rewrite (IH j' [] v) by congruence. rewrite !js_get_nil. reflexivity.
    + apply (IH j' rest v). congruence.
Qed.

(** C5. On the two parsed PSBTs, [mergeSignedBuyingPSBTBase64] serialises
    the buyer PSBT in which slot 2 of the unsigned transaction's inputs and
    slot 2 of the PSBT input maps hold input 0 of the seller PSBT; every
    other input slot, the outputs and the remaining fields are those of the
    buyer PSBT.  The result is a function of the two strings (and of the
    network): two calls give the same answer. *)
Theorem merge_replaces_only_seller_slot
    (signedListingPSBTBase64 signedBuyingPSBTBase64 : string) (network : option Network.t)
    (sellerSignedPsbt buyerSignedPsbt : Psbt.t) :
  let net := match network with Some n => n | None => bitcoin_networks_bitcoin end in
  Psbt_fromBase64 signedListingPSBTBase64 net = Answer sellerSignedPsbt ->
  Psbt_fromBase64 signedBuyingPSBTBase64 net = Answer buyerSignedPsbt ->
  exists merged,
    mergeSignedBuyingPSBTBase64 signedListingPSBTBase64 signedBuyingPSBTBase64 network
      = await (Psbt_toBase64 merged)
    /\ js_get (Psbt.ins merged) BUYING_PSBT_SELLER_SIGNATURE_INDEX
         = js_get (Psbt.ins sellerSignedPsbt) 0
    /\ js_get (Psbt.inputs merged) BUYING_PSBT_SELLER_SIGNATURE_INDEX
         = js_get (Psbt.inputs sellerSignedPsbt) 0
    /\ (forall i, i <> BUYING_PSBT_SELLER_SIGNATURE_INDEX ->
          js_get (Psbt.ins merged) i = js_get (Psbt.ins buyerSignedPsbt) i
          /\ js_get (Psbt.inputs merged) i = js_get (Psbt.inputs buyerSignedPsbt) i)
    /\ Psbt.outs merged = Psbt.outs buyerSignedPsbt
    /\ Psbt.outputs merged = Psbt.outputs buyerSignedPsbt
    /\ Psbt.version merged = Psbt.version buyerSignedPsbt
    /\ Psbt.locktime merged = Psbt.locktime buyerSignedPsbt
    /\ (forall r1 r2,
          mergeSignedBuyingPSBTBase64 signedListingPSBTBase64 signedBuyingPSBTBase64 network = r1 ->
          mergeSignedBuyingPSBTBase64 signedListingPSBTBase64 signedBuyingPSBTBase64 network = r2 ->
          r1 = r2).
Proof.
  intros net Hs Hb.
  exists (spliceSellerInput sellerSignedPsbt buyerSignedPsbt).
  split.
  { unfold mergeSignedBuyingPSBTBase64. fold net. rewrite Hs, Hb. reflexivity. }
  unfold spliceSellerInput; cbn [Psbt.ins Psbt.inputs Psbt.outs Psbt.outputs
                                  Psbt.version Psbt.locktime].
  repeat split; try reflexivity.
  - apply js_get_set_same.
  - apply js_get_set_same.
  - apply js_get_set_other; assumption.
  - apply js_get_set_other; assumption.
  - intros r1 r2 <- <-. reflexivity.
Qed.

(** ** Address classification *)

(** Where the two agree: on every address whose bech32 decoding, if any,
    carries the chain's human-readable part; in particular on every chain
    without one, and on every base58 address of the chain. *)
Lemma getAddressType_agrees_on_own_hrp (address : string) (network : Network.t) :
  (forall decoded, fromBech32 address = Some decoded ->
                   Bech32Result.prefix decoded = Network.bech32 network) ->
  getAddressType address network = classify_address_spec address network.
Proof.
  intros Hhrp.
  unfold getAddressType, classify_address_spec, isP2PKHAddress, isP2SHAddress.
  assert (Hb : forall d, fromBech32 address = Some d ->
                         (Bech32Result.prefix d =? Network.bech32 network)%string = true).
  { intros d Hd. apply String.eqb_eq. apply Hhrp; exact Hd. }
  destruct (fromBase58Check address) as [[version hash]|];
    repeat match goal with
      | |- context [if ?c then _ else _] => destruct c eqn:?
      end;
    try reflexivity;
    destruct (fromBech32 address) as [d|] eqn:Hd; try reflexivity;
    rewrite (Hb d eq_refl); reflexivity.
Qed.

(** Where they part: a bech32 address of another chain, of witness version
    0, is classified as a segwit address of this chain. *)
Lemma getAddressType_ignores_hrp (address : string) (network : Network.t)
    (decoded : Bech32Result.t) :
  fromBase58Check address = None ->
  truthy (Network.bech32 network) = true ->
  fromBech32 address = Some decoded ->
  Bech32Result.prefix decoded <> Network.bech32 network ->
  Bech32Result.version decoded = 0 ->
  classify_address_spec address network = unknown
  /\ getAddressType address network
     = if Nat.eqb (List.length (Bech32Result.data decoded)) 20 then p2wpkh else p2wsh.
Proof.
  intros H58 Hhrp Hdec Hne Hv.
  unfold classify_address_spec, getAddressType, isP2PKHAddress, isP2SHAddress.
  rewrite H58, Hhrp, Hdec, Hv.
  apply String.eqb_neq in Hne. rewrite Hne.
  split; reflexivity.
Qed.

Lemma getAddressType_empty_hrp (address : string) (network : Network.t) :
  Network.bech32 network = EmptyString ->
  isP2PKHAddress address network = false ->
  isP2SHAddress address network = false ->
  getAddressType address network = unknown.
Proof.
  intros Hhrp Hpkh Hsh. unfold getAddressType.
  rewrite Hpkh, Hsh, Hhrp. reflexivity.
Qed.

(** ** Inscription check *)


(** A failing lookup of the node is not caught: the check rejects with the
    node's error. *)
Lemma doesUtxoContainInscription_rpc_failure (utxo : AddressTxsUtxo.t)
    (itemProvider : IItemProvider) (rpcProvider : option IRPCProvider) (reason : string) :
  TxStatus.confirmed (AddressTxsUtxo.status utxo) = false ->
  getrawtransactionVerbose (resolveRPC rpcProvider) (AddressTxsUtxo.txid utxo)
    = Failure reason ->
  doesUtxoContainInscription utxo itemProvider rpcProvider = Throw (ExternalError reason).
Proof.
  intros Hc Hrpc. unfold doesUtxoContainInscription. rewrite Hc, Hrpc. reflexivity.
Qed.


(** ** Payment selection *)

Lemma insert_desc_perm (u : AddressTxsUtxo.t) (l : list AddressTxsUtxo.t) :
  Permutation (insert_desc u l) (u :: l).
Proof.
  induction l as [| y ys IH]; cbn [insert_desc]; [apply Permutation_refl|].
  destruct (AddressTxsUtxo.value u <? AddressTxsUtxo.value y).
  - eapply perm_trans; [apply perm_skip, IH | apply perm_swap].
  - apply Permutation_refl.
Qed.

Lemma sort_desc_perm (l : list AddressTxsUtxo.t) : Permutation (sort_desc l) l.
Proof.
  induction l as [| x xs IH]; cbn [sort_desc fold_right]; [apply perm_nil|].
  eapply perm_trans; [apply insert_desc_perm | apply perm_skip, IH].
Qed.

Lemma insert_desc_sorted (u : AddressTxsUtxo.t) (l : list AddressTxsUtxo.t) :
  StronglySorted byValueDesc l -> StronglySorted byValueDesc (insert_desc u l).
Proof.
  induction 1 as [| y ys Hs IH Hy]; cbn [insert_desc].
  - constructor; constructor.
  - destruct (AddressTxsUtxo.value u <? AddressTxsUtxo.value y) eqn:Hlt.
    + apply Z.ltb_lt in Hlt. constructor; [exact IH|].
      rewrite Forall_forall. intros z Hz.
      apply (Permutation_in _ (insert_desc_perm u ys)) in Hz.
      destruct Hz as [<- | Hz].
      * unfold byValueDesc; lia.
      * rewrite Forall_forall in Hy. apply Hy; exact Hz.
    + apply Z.ltb_ge in Hlt. constructor; [constructor; assumption|].
      constructor; [exact Hlt|].
      rewrite Forall_forall in Hy |- *. intros z Hz.
      specialize (Hy z Hz). unfold byValueDesc in *; lia.
Qed.

Lemma sort_desc_sorted (l : list AddressTxsUtxo.t) : StronglySorted byValueDesc (sort_desc l).
Proof.
  induction l as [| x xs IH]; cbn [sort_desc fold_right]; [constructor|].
  apply insert_desc_sorted; exact IH.
Qed.

(** The sort is stable: among the UTXOs of one value the order of the input
    is kept. *)
Lemma insert_desc_stable (v : Z) (u : AddressTxsUtxo.t) (l : list AddressTxsUtxo.t) :
  filter (fun x => AddressTxsUtxo.value x =? v) (insert_desc u l)
  = filter (fun x => AddressTxsUtxo.value x =? v) (u :: l).
Proof.
  induction l as [| y ys IH]; cbn [insert_desc]; [reflexivity|].
  destruct (AddressTxsUtxo.value u <? AddressTxsUtxo.value y) eqn:Hlt; [|reflexivity].
  apply Z.ltb_lt in Hlt.
  cbn [filter] in *. rewrite IH.
  destruct (AddressTxsUtxo.value u =? v) eqn:Hu; [|reflexivity].
  apply Z.eqb_eq in Hu.
  assert (Hy : (AddressTxsUtxo.value y =? v) = false) by (apply Z.eqb_neq; lia).
  rewrite Hy. reflexivity.
Qed.

Lemma sort_desc_stable (v : Z) (l : list AddressTxsUtxo.t) :
  filter (fun x => AddressTxsUtxo.value x =? v) (sort_desc l)
  = filter (fun x => AddressTxsUtxo.value x =? v) l.
Proof.
  induction l as [| x xs IH]; cbn [sort_desc fold_right]; [reflexivity|].
  rewrite insert_desc_stable. cbn [filter].
  fold (sort_desc xs). rewrite IH. reflexivity.
Qed.

Lemma sumValues_app (l1 l2 : list AddressTxsUtxo.t) :
  sumValues (l1 ++ l2) = sumValues l1 + sumValues l2.
Proof.
  induction l1 as [| x xs IH]; cbn [sumValues fold_right app]; [reflexivity|].
  fold (sumValues (xs ++ l2)). fold (sumValues xs). rewrite IH. ring.
Qed.

Section SelectPaymentProperties.
Variables (amount vinsLength voutsLength : Z) (feeRateTier : string).
Variables (itemProvider : IItemProvider) (feeProvider : IFeeProvider).
Variable rpcProvider : option IRPCProvider.

Local Abbreviation clean := (isClean itemProvider rpcProvider).
Local Abbreviation reached :=
  (targetReached amount vinsLength voutsLength feeRateTier feeProvider).
Local Abbreviation missed :=
  (targetMissed amount vinsLength voutsLength feeRateTier feeProvider).
Local Abbreviation outcome :=
  (scanOutcome amount vinsLength voutsLength feeRateTier itemProvider feeProvider
     rpcProvider).

Lemma selectPaymentUTXOs_loop_outcome (candidates : list AddressTxsUtxo.t) :
  forall selected0 sum0 selected sum,
    sum0 = sumValues selected0 ->
    selectPaymentUTXOs_loop amount vinsLength voutsLength feeRateTier itemProvider
      feeProvider rpcProvider candidates selected0 sum0 = Return (selected, sum) ->
    outcome candidates selected0 selected sum.
Proof.
  induction candidates as [| u rest IH]; intros selected0 sum0 selected sum Hsum H;
    cbn [selectPaymentUTXOs_loop] in H.
  - injection H as <- <-.
    exists [], []. repeat split.
    + constructor.
    + symmetry; apply app_nil_r.
    + exact Hsum.
    + left; reflexivity.
    + intros pre x post Hp. destruct pre; discriminate Hp.
  - destruct (doesUtxoContainInscription u itemProvider rpcProvider) as [b | e] eqn:Hu;
      [|discriminate H].
    cbn [bind] in H. destruct b.
    + (* skipped *)
      assert (Hclean : clean u = false) by (unfold isClean; rewrite Hu; reflexivity).
      destruct (IH _ _ _ _ Hsum H) as (scanned & remaining & Hc & Hall & Hsel & Hs & Hstop & Hearly).
      exists (u :: scanned), remaining. repeat split.
      * cbn. rewrite Hc. reflexivity.
      * constructor; [exists true; exact Hu | exact Hall].
      * cbn [filter]. rewrite Hclean. exact Hsel.
      * exact Hs.
      * destruct Hstop as [Hnil | (Hreach & pre & x & Hp & Hx)]; [left; exact Hnil|].
        right. split; [exact Hreach|].
        exists (u :: pre), x. rewrite Hp. split; [reflexivity | exact Hx].
      * intros pre x post Hp Hpost Hx.
        destruct pre as [| y pre'].
        -- cbn in Hp. injection Hp as -> _. congruence.
        -- cbn in Hp. injection Hp as -> Hp.
           cbn [app filter]. rewrite Hclean.
           apply (Hearly pre' x post Hp Hpost Hx).
    + (* taken *)
      assert (Hclean : clean u = true) by (unfold isClean; rewrite Hu; reflexivity).
      assert (Hsum' : sum0 + AddressTxsUtxo.value u = sumValues (selected0 ++ [u])%list).
      { rewrite sumValues_app, Hsum. cbn. ring. }
      destruct (calculateTxBytesFee _ _ _ _ _) as [fee | e] eqn:Hfee; [|discriminate H].
      cbn [bind] in H.
      destruct (amount + fee <=? sum0 + AddressTxsUtxo.value u) eqn:Hle.
      * apply Z.leb_le in Hle. injection H as <- <-.
        exists [u], rest. repeat split.
        -- constructor; [exists false; exact Hu | constructor].
        -- cbn [filter]. rewrite Hclean. reflexivity.
        -- exact Hsum'.
        -- right. split.
           ++ exists fee. split; [exact Hfee | unfold push; rewrite <- Hsum'; exact Hle].
           ++ exists [], u. split; [reflexivity | exact Hclean].
        -- intros pre x post Hp Hpost.
           destruct pre as [| y [| z pre']]; cbn in Hp.
           ++ injection Hp as _ Hp. congruence.
           ++ discriminate Hp.
           ++ discriminate Hp.
      * apply Z.leb_gt in Hle.
        destruct (IH _ _ _ _ Hsum' H)
          as (scanned & remaining & Hc & Hall & Hsel & Hs & Hstop & Hearly).
        exists (u :: scanned), remaining. repeat split.
        -- cbn. rewrite Hc. reflexivity.
        -- constructor; [exists false; exact Hu | exact Hall].
        -- cbn [filter]. rewrite Hclean. rewrite Hsel. unfold push.
           rewrite <- app_assoc. reflexivity.
        -- exact Hs.
        -- destruct Hstop as [Hnil | (Hreach & pre & x & Hp & Hx)]; [left; exact Hnil|].
           right. split; [exact Hreach|].
           exists (u :: pre), x. rewrite Hp. split; [reflexivity | exact Hx].
        -- intros pre x post Hp Hpost Hx.
           destruct pre as [| y pre'].
           ++ cbn in Hp. injection Hp as -> _.
              cbn [app filter]. rewrite Hclean.
              exists fee. split; [exact Hfee | rewrite <- Hsum'; exact Hle].
           ++ cbn in Hp. injection Hp as -> Hp.
              cbn [app filter]. rewrite Hclean.
              specialize (Hearly pre' x post Hp Hpost Hx).
              unfold push in Hearly. rewrite <- app_assoc in Hearly. exact Hearly.
Qed.

Lemma scanInputs_throws_external (rpc : IRPCProvider) (vin : list Vin.t) (e : Error) :
  scanInputs itemProvider rpc vin = Throw e -> exists reason, e = ExternalError reason.
Proof.
  induction vin as [| input rest IH]; cbn [scanInputs]; intros H; [discriminate H|].
  destruct (getrawtransactionVerbose rpc (Vin.txid input)) as [prevTx | reason];
    cbn [await bind] in H.
  - destruct (VerboseTx.confirmations prevTx =? 0); [discriminate H|].
    destruct (getTokenByOutput itemProvider _) as [[item|] | r]; try discriminate H.
    apply IH; exact H.
  - injection H as <-. exists reason; reflexivity.
Qed.

Lemma doesUtxoContainInscription_throws_external (u : AddressTxsUtxo.t) (e : Error) :
  doesUtxoContainInscription u itemProvider rpcProvider = Throw e ->
  exists reason, e = ExternalError reason.
Proof.
  unfold doesUtxoContainInscription; intros H.
  destruct (TxStatus.confirmed (AddressTxsUtxo.status u)); [discriminate H|].
  destruct (getrawtransactionVerbose (resolveRPC rpcProvider) (AddressTxsUtxo.txid u))
    as [tx | reason]; cbn [await bind] in H.
  - eapply scanInputs_throws_external; exact H.
  - injection H as <-. exists reason; reflexivity.
Qed.

Lemma selectPaymentUTXOs_loop_throws_external (candidates : list AddressTxsUtxo.t) :
  forall selected0 sum0 e,
    selectPaymentUTXOs_loop amount vinsLength voutsLength feeRateTier itemProvider
      feeProvider rpcProvider candidates selected0 sum0 = Throw e ->
    exists reason, e = ExternalError reason.
Proof.
  induction candidates as [| u rest IH]; intros selected0 sum0 e H;
    cbn [selectPaymentUTXOs_loop] in H; [discriminate H|].
  destruct (doesUtxoContainInscription u itemProvider rpcProvider) as [b | e0] eqn:Hu;
    cbn [bind] in H.
  - destruct b; [apply (IH _ _ _ H)|].
    unfold calculateTxBytesFee in H.
    destruct (getFees feeProvider feeRateTier) as [rate | reason]; cbn [await bind] in H.
    + destruct (amount + _ <=? _); [discriminate H | apply (IH _ _ _ H)].
    + injection H as <-. exists reason; reflexivity.
  - injection H as <-. eapply doesUtxoContainInscription_throws_external; exact Hu.
Qed.

(** The scan completes when the inscription check and the fee oracle
    answer. *)
Lemma selectPaymentUTXOs_loop_completes (candidates : list AddressTxsUtxo.t) :
  Forall (fun u => exists b, doesUtxoContainInscription u itemProvider rpcProvider
                             = Return b) candidates ->
  (exists rate, getFees feeProvider feeRateTier = Answer rate) ->
  forall selected0 sum0,
  exists selected sum,
    selectPaymentUTXOs_loop amount vinsLength voutsLength feeRateTier itemProvider
      feeProvider rpcProvider candidates selected0 sum0 = Return (selected, sum).
Proof.
  intros Hall [rate Hrate].
  induction Hall as [| u rest [b Hu] _ IH]; intros selected0 sum0;
    cbn [selectPaymentUTXOs_loop].
  - exists selected0, sum0; reflexivity.
  - rewrite Hu. cbn [bind]. destruct b; [apply IH|].
    unfold calculateTxBytesFee. rewrite Hrate. cbn [await bind].
    destruct (amount + _ <=? _); [eexists; eexists; reflexivity | apply IH].
Qed.

(** C7.  [selectPaymentUTXOs] scans the UTXOs of value strictly above
    [DUMMY_UTXO_VALUE], largest value first; it takes those for which the
    inscription check answers [false] and passes over the others, and it
    stops right after the first taken UTXO with which the selected sum is at
    least [amount] plus the fee estimated for [vinsLength] plus the number
    taken inputs.  It throws the insufficient-funds [InvalidArgumentError]
    exactly when the scan completes with a sum below [amount], and returns
    the selected list exactly when the scan completes otherwise; the scan
    completes whenever the inscription check and the fee oracle answer. *)
Theorem select_payment_utxos_policy (utxos : list AddressTxsUtxo.t) :
  let candidates := filteredUtxos utxos in
  let scan :=
    selectPaymentUTXOs_loop amount vinsLength voutsLength feeRateTier itemProvider
      feeProvider rpcProvider candidates [] 0 in
  let select :=
    selectPaymentUTXOs amount vinsLength voutsLength feeRateTier itemProvider
      feeProvider rpcProvider utxos in
  Permutation candidates
    (filter (fun x => DUMMY_UTXO_VALUE <? AddressTxsUtxo.value x) utxos)
  /\ Forall (fun u => DUMMY_UTXO_VALUE < AddressTxsUtxo.value u) candidates
  /\ StronglySorted byValueDesc candidates
  /\ (forall selected sum,
        scan = Return (selected, sum) ->
        outcome candidates [] selected sum
        /\ Forall (fun u => doesUtxoContainInscription u itemProvider rpcProvider
                            = Return false) selected)
  /\ (forall message,
        select = Throw (InvalidArgumentError message) <->
        exists selected sum,
          scan = Return (selected, sum) /\ sum < amount
          /\ message = NotEnoughCardinalFunds sum amount)
  /\ (forall selected,
        select = Return selected <->
        exists sum, scan = Return (selected, sum) /\ amount <= sum)
  /\ (Forall (fun u => exists b, doesUtxoContainInscription u itemProvider rpcProvider
                                 = Return b) candidates ->
      (exists rate, getFees feeProvider feeRateTier = Answer rate) ->
      exists selected sum, scan = Return (selected, sum)).
Proof.
  intros candidates scan select.
  assert (Hperm : Permutation candidates
                    (filter (fun x => DUMMY_UTXO_VALUE <? AddressTxsUtxo.value x) utxos))
    by apply sort_desc_perm.
  split; [exact Hperm|]. split; [|split; [apply sort_desc_sorted|]].
  { rewrite Forall_forall. intros u Hu.
    apply (Permutation_in _ Hperm) in Hu. apply filter_In in Hu.
    destruct Hu as [_ Hu]. apply Z.ltb_lt in Hu. exact Hu. }
  split; [|split; [|split]].
  4:{ intros Hall Hrate. apply selectPaymentUTXOs_loop_completes; assumption. }
  - intros selected sum Hscan.
    pose proof (selectPaymentUTXOs_loop_outcome candidates [] eq_refl Hscan) as Hout.
    split; [exact Hout|].
    destruct Hout as (scanned & remaining & _ & _ & Hsel & _).
    cbn [app] in Hsel. subst selected.
    rewrite Forall_forall. intros u Hu. apply filter_In in Hu.
    destruct Hu as [_ Hu]. unfold isClean in Hu.
    destruct (doesUtxoContainInscription u itemProvider rpcProvider) as [[|] | e];
      try discriminate Hu. reflexivity.
  - intros message. unfold select, selectPaymentUTXOs. fold candidates. fold scan.
    split.
    + intros H. destruct scan as [[selected sum] | e] eqn:Hscan; cbn [bind] in H.
      * destruct (sum <? amount) eqn:Hlt; [|discriminate H].
        injection H as <-. apply Z.ltb_lt in Hlt.
        exists selected, sum. repeat split; assumption.
      * injection H as ->.
        apply selectPaymentUTXOs_loop_throws_external in Hscan.
        destruct Hscan as [reason Hr]. discriminate Hr.
    + intros (selected & sum & -> & Hlt & ->). cbn [bind].
      apply Z.ltb_lt in Hlt. rewrite Hlt. reflexivity.
  - intros selected. unfold select, selectPaymentUTXOs. fold candidates. fold scan.
    split.
    + intros H. destruct scan as [[selected' sum] | e]; cbn [bind] in H; [|discriminate H].
      destruct (sum <? amount) eqn:Hlt; [discriminate H|].
      injection H as ->. apply Z.ltb_ge in Hlt.
      exists sum. split; [reflexivity | exact Hlt].
    + intros (sum & -> & Hle). cbn [bind].
      apply Z.ltb_ge in Hle. rewrite Hle. reflexivity.
Qed.

End SelectPaymentProperties.

(** ** Listing verification *)

Lemma verifyTaprootInput_cases (input : PsbtInput.t) :
  (taprootWitnessPresent (Some input) = true
   /\ verifyTaprootInput (Some input) = Return tt)
  \/ (taprootWitnessPresent (Some input) = false
      /\ exists m, verifyTaprootInput (Some input) = Throw (InvalidArgumentError m)).
Proof.
  unfold taprootWitnessPresent, verifyTaprootInput.
  destruct (isSome (PsbtInput.tapInternalKey input)); [|left; split; reflexivity].
  destruct (PsbtInput.finalScriptWitness input) as [w|];
    [|right; split; [reflexivity | eexists; reflexivity]].
  destruct (Nat.ltb 0 (List.length w));
    [|right; split; [reflexivity | eexists; reflexivity]].
  destruct (toHex w =? "0141")%string.
  - right; split; [reflexivity | eexists; reflexivity].
  - left; split; reflexivity.
Qed.

Lemma forEach_verifyTaprootInput (inputs : JsArray PsbtInput.t) :
  Forall (fun i => isSome i = true) inputs ->
  if forallb taprootWitnessPresent inputs
  then forEach verifyTaprootInput inputs = Return tt
  else exists m, forEach verifyTaprootInput inputs = Throw (InvalidArgumentError m).
Proof.
  induction 1 as [| input rest Hin _ IH]; [reflexivity|].
  cbn [forallb forEach].
  destruct input as [input|]; [|discriminate Hin].
  destruct (verifyTaprootInput_cases input) as [[-> ->] | [-> [m ->]]]; cbn [andb bind].
  - exact IH.
  - exists m; reflexivity.
Qed.

Lemma reportsFinal_notFinal (analyzeResult : option AnalyzeResult.t) :
  reportsFinal analyzeResult = negb (notFinal analyzeResult).
Proof.
  unfold reportsFinal, notFinal.
  destruct analyzeResult as [r|]; [|reflexivity].
  destruct (at_index (AnalyzeResult.inputs r) 0); [|reflexivity].
  symmetry; apply negb_involutive.
Qed.

Lemma parsedShape_first_input (psbt : Psbt.t) :
  parsedShape psbt -> Psbt.inputCount psbt = 1%nat ->
  exists txInput0, js_get (Psbt.txInputs psbt) 0 = Some txInput0.
Proof.
  intros (Hlen & Hins & _) Hcount.
  unfold Psbt.inputCount in Hcount. rewrite <- Hlen in Hcount.
  unfold Psbt.txInputs, js_get.
  destruct (Psbt.ins psbt) as [| [i|] rest]; try discriminate Hcount.
  - exists i; reflexivity.
  - inversion Hins as [| x l Hx Hl]. discriminate Hx.
Qed.

Lemma verifySignedListingPSBTBase64_cases
    (req : IOrdAPIPostPSBTListing.t) (config : SignerConfig.t) (psbt : Psbt.t)
    (analyzeResult : option AnalyzeResult.t) (item : option IOrdItem.t)
    (makerFeeBp : Z) (sellerAddressFromPSBT : string) :
  listingObserved req config psbt analyzeResult item makerFeeBp sellerAddressFromPSBT ->
  parsedShape psbt ->
  Psbt.txOutputs psbt <> [] ->
  (sixChecks req psbt analyzeResult item makerFeeBp sellerAddressFromPSBT = true
   /\ verifySignedListingPSBTBase64 req config = Return tt)
  \/ (sixChecks req psbt analyzeResult item makerFeeBp sellerAddressFromPSBT = false
      /\ exists m, verifySignedListingPSBTBase64 req config = Throw (InvalidArgumentError m)).
Proof.
  intros (Hparse & Hanalyze & Hrest) Hshape Houts.
  unfold verifySignedListingPSBTBase64. rewrite Hparse. cbn [await bind].
  pose proof (forEach_verifyTaprootInput (proj2 (proj2 Hshape))) as Htap.
  unfold sixChecks, check_signature.
  destruct (forallb taprootWitnessPresent (Psbt.inputs psbt)).
  2:{ destruct Htap as [m ->]. right. split.
      - cbn [andb]. apply andb_false_r.
      - exists m; reflexivity. }
  rewrite Htap. cbn [bind]. rewrite Hanalyze. cbn [await bind].
  rewrite reportsFinal_notFinal.
  destruct (notFinal analyzeResult); cbn [negb andb].
  { right. split; [apply andb_false_r | eexists; reflexivity]. }
  unfold check_inputCount.
  destruct (Nat.eqb (Psbt.inputCount psbt) 1) eqn:Hcount; cbn [negb andb].
  2:{ right; split; [reflexivity | eexists; reflexivity]. }
  apply Nat.eqb_eq in Hcount.
  destruct (parsedShape_first_input Hshape Hcount) as [in0 Hin0].
  rewrite Hin0.
  destruct (Hrest in0 Hin0) as [Htoken Hitem]. cbn zeta in Htoken.
  rewrite Htoken. cbn [await bind].
  unfold check_identity.
  destruct item as [ordItem|]; [|right; split; [reflexivity | eexists; reflexivity]].
  destruct (IOrdItem.id ordItem =? IOrdAPIPostPSBTListing.tokenId req)%string;
    cbn [negb andb].
  2:{ right; split; [reflexivity | eexists; reflexivity]. }
  destruct (Hitem ordItem eq_refl)
    as [Hfee (txHex & tx & prevOut & Hraw & Hhex & Hout & Haddr)].
  assert (Hmaker :
            match SignerConfig.marketplaceFeeProvider config with
            | Some p => await (getMakerFeeBp p (IOrdItem.owner ordItem))
            | None => Return 0
            end = Return makerFeeBp).
  { destruct (SignerConfig.marketplaceFeeProvider config); rewrite Hfee; reflexivity. }
  rewrite Hmaker. cbn [bind].
  unfold check_price, check_receiveAddress, check_sellerAddress.
  destruct (at_index (Psbt.txOutputs psbt) 0) as [output|] eqn:Hout0.
  2:{ exfalso. unfold at_index in Hout0.
      destruct (Psbt.txOutputs psbt); [apply Houts; reflexivity | discriminate Hout0]. }
  destruct (PsbtTxOutput.value output =? _); cbn [negb andb].
  2:{ right; split; [reflexivity | eexists; reflexivity]. }
  destruct (PsbtTxOutput.address output) as [a|]; cbn [negb andb].
  2:{ right; split; [reflexivity | eexists; reflexivity]. }
  destruct (a =? IOrdAPIPostPSBTListing.sellerReceiveAddress req)%string; cbn [negb andb].
  2:{ right; split; [reflexivity | eexists; reflexivity]. }
  rewrite Hraw. cbn [await bind]. rewrite Hhex. cbn [await bind].
  rewrite Hout, Haddr. cbn [await bind].
  destruct (IOrdItem.owner ordItem =? sellerAddressFromPSBT)%string; cbn [negb].
  - left; split; reflexivity.
  - right; split; [reflexivity | eexists; reflexivity].
Qed.

(** C3 as amended.  When the PSBT of the request parses and has at least one
    output, and the library and the providers answer every call made on it,
    [verifySignedListingPSBTBase64] throws [InvalidArgumentError] exactly
    when one of the six checks fails, and returns normally exactly when all
    six hold. *)
Theorem verify_signed_listing_checks
    (req : IOrdAPIPostPSBTListing.t) (config : SignerConfig.t) (psbt : Psbt.t)
    (analyzeResult : option AnalyzeResult.t) (item : option IOrdItem.t)
    (makerFeeBp : Z) (sellerAddressFromPSBT : string) :
  listingObserved req config psbt analyzeResult item makerFeeBp sellerAddressFromPSBT ->
  parsedShape psbt ->
  Psbt.txOutputs psbt <> [] ->
  ((exists m, verifySignedListingPSBTBase64 req config = Throw (InvalidArgumentError m))
   <-> sixChecks req psbt analyzeResult item makerFeeBp sellerAddressFromPSBT = false)
  /\ (verifySignedListingPSBTBase64 req config = Return tt
      <-> sixChecks req psbt analyzeResult item makerFeeBp sellerAddressFromPSBT = true).
Proof.
  intros Hobs Hshape Houts.
  destruct (verifySignedListingPSBTBase64_cases Hobs Hshape Houts)
    as [[Hc Hv] | [Hc [m Hv]]]; rewrite Hc, Hv; split; split;
    try solve [reflexivity | discriminate | intros [m' Hm']; discriminate Hm'
              | intros _; exists m; reflexivity].
Qed.

(** ** Inputs of the PSBT operations *)

Lemma await_Return (A : Type) (r : response A) (a : A) :
  await r = Return a -> r = Answer a.
Proof. destruct r; simpl; intros H; [injection H as <-; reflexivity | discriminate H]. Qed.

Lemma addInput_ins (p p' : Psbt.t) (i : InputArg.t) :
  addInput p i = Return p' ->
  exists index,
    InputArg.index i = Some index
    /\ Psbt.ins p' = push (Psbt.ins p) (Some (outpointIn (InputArg.hash i) index))
    /\ Psbt.inputs p' = push (Psbt.inputs p) (Some (inputMap i)).
Proof.
  unfold addInput; intros H. bind_inv H as u Hu.
  destruct (InputArg.index i) as [index|]; [|discriminate H].
  injection H as <-. exists index. repeat split; reflexivity.
Qed.

Lemma addOutput_ins (p p' : Psbt.t) (o : OutputArg.t) :
  addOutput p o = Return p' ->
  Psbt.ins p' = Psbt.ins p /\ Psbt.inputs p' = Psbt.inputs p.
Proof.
  unfold addOutput; intros H. bind_inv H as u Hu.
  injection H as <-. split; reflexivity.
Qed.

Lemma addOutput_if_ins (c : bool) (p p' : Psbt.t) (o : OutputArg.t) :
  (if c then addOutput p o else Return p) = Return p' ->
  Psbt.ins p' = Psbt.ins p /\ Psbt.inputs p' = Psbt.inputs p.
Proof.
  destruct c; intros H.
  - eapply addOutput_ins; eassumption.
  - injection H as <-. split; reflexivity.
Qed.

Lemma buyerInput_outpoint (buyer : Buyer.t) (network : Network.t) (utxo : MappedUtxo.t)
    (input : InputArg.t) :
  buyerInput buyer network utxo = Return input ->
  InputArg.hash input = MappedUtxo.txid utxo
  /\ InputArg.index input = Some (MappedUtxo.vout utxo).
Proof.
  unfold buyerInput; intros H.
  destruct (isP2SHAddress (Buyer.buyerAddress buyer) network).
  - bind_inv H as r Hr. destruct r as [p2shOutput redeemScript].
    injection H as <-. split; reflexivity.
  - injection H as <-. split; reflexivity.
Qed.

Lemma asAddressTxsUtxo_fields (m : MappedUtxo.t) (u : AddressTxsUtxo.t) :
  asAddressTxsUtxo m = u ->
  MappedUtxo.txid m = AddressTxsUtxo.txid u
  /\ MappedUtxo.vout m = AddressTxsUtxo.vout u
  /\ MappedUtxo.value m = AddressTxsUtxo.value u
  /\ MappedUtxo.status m = AddressTxsUtxo.status u.
Proof. intros <-. repeat split; reflexivity. Qed.

Lemma mapUtxos_loop_spec (rpc : IRPCProvider) (utxos : list AddressTxsUtxo.t) :
  forall ret out,
    mapUtxos_loop rpc utxos ret = Return out ->
    exists mapped,
      out = (ret ++ mapped)%list
      /\ map asAddressTxsUtxo mapped = utxos
      /\ Forall (fun m => servedTx rpc (MappedUtxo.txid m) (MappedUtxo.tx m)) mapped.
Proof.
  induction utxos as [| u rest IH]; intros ret out H; cbn [mapUtxos_loop] in H.
  - injection H as <-. exists []. split; [symmetry; apply app_nil_r|].
    split; [reflexivity | constructor].
  - bind_inv H as txHex Hhex. bind_inv H as tx Htx.
    apply await_Return in Hhex. apply await_Return in Htx.
    apply IH in H. destruct H as (mapped & -> & Hmap & Hall).
    eexists (_ :: mapped). split; [|split].
    + unfold push. rewrite <- app_assoc. reflexivity.
    + cbn [map]. rewrite Hmap. destruct u; reflexivity.
    + constructor; [|exact Hall]. exists txHex. split; assumption.
Qed.

Lemma mapUtxos_single_spec (rpcProvider : option IRPCProvider) (utxo : AddressTxsUtxo.t)
    (mapped : list MappedUtxo.t) :
  mapUtxos [utxo] rpcProvider = Return mapped ->
  exists m, mapped = [m] /\ asAddressTxsUtxo m = utxo.
Proof.
  unfold mapUtxos; intros H. apply mapUtxos_loop_spec in H.
  destruct H as (l & -> & Hmap & _).
  destruct l as [| m [| m' l']]; try discriminate Hmap.
  injection Hmap as Hm. exists m. split; [reflexivity | exact Hm].
Qed.

Lemma addDummyInputs_ins (buyer : Buyer.t) (network : Network.t)
    (dummies : list MappedUtxo.t) :
  forall p total p' total',
    addDummyInputs buyer network dummies p total = Return (p', total') ->
    Psbt.ins p' = (Psbt.ins p ++ map Some (map mappedOutpoint dummies))%list
    /\ (exists maps,
           Psbt.inputs p' = (Psbt.inputs p ++ map Some maps)%list
           /\ List.length maps = List.length dummies)
    /\ total' = total + sumMapped dummies.
Proof.
  induction dummies as [| d rest IH]; intros p total p' total' H;
    cbn [addDummyInputs] in H.
  - injection H as <- <-. split; [symmetry; apply app_nil_r|]. split.
    + exists []. split; [symmetry; apply app_nil_r | reflexivity].
    + cbn. ring.
  - bind_inv H as input Hinput. bind_inv H as q Hq.
    apply buyerInput_outpoint in Hinput. destruct Hinput as [Hhash Hindex].
    apply addInput_ins in Hq. destruct Hq as (index & Hi & Hins & Hinputs).
    rewrite Hindex in Hi. injection Hi as <-.
    apply IH in H. destruct H as (Hins' & (maps & Hmaps & Hlen) & Htotal).
    split; [|split].
    + rewrite Hins', Hins, Hhash. unfold push. rewrite <- app_assoc. reflexivity.
    + exists (inputMap input :: maps). split.
      * rewrite Hmaps, Hinputs. unfold push. rewrite <- app_assoc. reflexivity.
      * cbn [List.length]. rewrite Hlen. reflexivity.
    + rewrite Htotal. cbn [sumMapped fold_right]. fold (sumMapped rest). ring.
Qed.

Lemma addPaymentInputs_ins (buyer : Buyer.t) (network : Network.t)
    (rpcProvider : option IRPCProvider) (payments : list AddressTxsUtxo.t) :
  forall p total p' total',
    addPaymentInputs buyer network rpcProvider payments p total = Return (p', total') ->
    Psbt.ins p' = (Psbt.ins p ++ map Some (map utxoOutpoint payments))%list
    /\ (exists maps,
           Psbt.inputs p' = (Psbt.inputs p ++ map Some maps)%list
           /\ List.length maps = List.length payments)
    /\ total' = total + sumValues payments.
Proof.
  induction payments as [| u rest IH]; intros p total p' total' H;
    cbn [addPaymentInputs] in H.
  - injection H as <- <-. split; [symmetry; apply app_nil_r|]. split.
    + exists []. split; [symmetry; apply app_nil_r | reflexivity].
    + cbn. ring.
  - bind_inv H as mapped Hmapped.
    apply mapUtxos_single_spec in Hmapped. destruct Hmapped as (m & -> & Hm).
    cbn [at_index nth_error] in H.
    bind_inv H as input Hinput. bind_inv H as q Hq.
    apply buyerInput_outpoint in Hinput. destruct Hinput as [Hhash Hindex].
    apply addInput_ins in Hq. destruct Hq as (index & Hi & Hins & Hinputs).
    rewrite Hindex in Hi. injection Hi as <-.
    apply asAddressTxsUtxo_fields in Hm. destruct Hm as (Htxid & Hvout & Hvalue & _).
    apply IH in H. destruct H as (Hins' & (maps & Hmaps & Hlen) & Htotal).
    split; [|split].
    + rewrite Hins', Hins, Hhash, Htxid, Hvout. unfold push.
      rewrite <- app_assoc. reflexivity.
    + exists (inputMap input :: maps). split.
      * rewrite Hmaps, Hinputs. unfold push. rewrite <- app_assoc. reflexivity.
      * cbn [List.length]. rewrite Hlen. reflexivity.
    + rewrite Htotal, Hvalue. cbn [sumValues fold_right]. fold (sumValues rest). ring.
Qed.

Lemma buyingPsbtBeforeChange_ins (listing : IListingState.t)
    (rpcProvider : option IRPCProvider) (platformFeeAddress : option string)
    (psbt : Psbt.t) (totalInput : Z) :
  buyingPsbtBeforeChange listing rpcProvider platformFeeAddress = Return (psbt, totalInput) ->
  exists buyer d1 d2 payments vout maps,
    IListingState.buyer listing = Some buyer
    /\ Buyer.buyerDummyUTXOs buyer = Some [d1; d2]
    /\ Buyer.buyerPaymentUTXOs buyer = Some payments
    /\ parseInt (ordinalUtxoVout listing) = Some vout
    /\ Psbt.ins psbt
       = map Some ([mappedOutpoint d1; mappedOutpoint d2;
                    outpointIn (ordinalUtxoTxId listing) vout]
                   ++ map utxoOutpoint payments)%list
    /\ Psbt.inputs psbt = map Some maps
    /\ List.length maps = (3 + List.length payments)%nat
    /\ totalInput = MappedUtxo.value d1 + MappedUtxo.value d2 + sumValues payments.
Proof.
  unfold buyingPsbtBeforeChange; intros H.
  destruct (IListingState.buyer listing) as [buyer|]; [|discriminate H].
  destruct (truthy (Buyer.buyerAddress buyer)) eqn:Ea; [|discriminate H].
  destruct (truthy (Buyer.buyerTokenReceiveAddress buyer)) eqn:Et; [|discriminate H].
  simpl in H.
  destruct (Buyer.buyerDummyUTXOs buyer) as [dummies|] eqn:Ed; [|discriminate H].
  destruct (Buyer.buyerPaymentUTXOs buyer) as [payments|] eqn:Ep; [|discriminate H].
  destruct dummies as [| d1 [| d2 [| d3 more]]]; try discriminate H.
  cbn [List.length Nat.eqb negb] in H.
  bind_inv H as r0 E0. destruct r0 as [p0 t0].
  apply addDummyInputs_ins in E0.
  destruct E0 as (Hins0 & (maps0 & Hmaps0 & Hlen0) & Ht0).
  bind_inv H as p1 E1.
  unfold dummyValue in E1; cbn [at_index nth_error option_map] in E1.
  destruct (offsetOf listing) as [offset|] eqn:Eoff; [|discriminate E1].
  apply addOutput_ins in E1. destruct E1 as [Hins1 Hmaps1].
  bind_inv H as p2 E2. apply addOutput_ins in E2. destruct E2 as [Hins2 Hmaps2].
  bind_inv H as so Eso. destruct so as [sellerInput sellerOutput].
  unfold getSellerInputAndOutput in Eso. bind_inv Eso as tx Etx. injection Eso as <- <-.
  bind_inv H as p3 E3. apply addInput_ins in E3.
  destruct E3 as (vout & Hvout & Hins3 & Hmaps3).
  cbn [InputArg.index InputArg.hash] in Hvout, Hins3.
  bind_inv H as p4 E4. apply addOutput_ins in E4. destruct E4 as [Hins4 Hmaps4].
  bind_inv H as r5 E5. destruct r5 as [p5 t5].
  apply addPaymentInputs_ins in E5.
  destruct E5 as (Hins5 & (maps5 & Hmaps5 & Hlen5) & Ht5).
  bind_inv H as p6 E6. apply addOutput_if_ins in E6. destruct E6 as [Hins6 Hmaps6].
  bind_inv H as p7 E7. apply addOutput_ins in E7. destruct E7 as [Hins7 Hmaps7].
  bind_inv H as p8 E8. apply addOutput_ins in E8. destruct E8 as [Hins8 Hmaps8].
  injection H as Hp Ht. subst psbt totalInput.
  match type of Hmaps3 with
  | _ = push _ (Some ?m) => exists buyer, d1, d2, payments, vout, (maps0 ++ m :: maps5)%list
  end.
  repeat split; try reflexivity; try assumption.
  - rewrite Hins8, Hins7, Hins6, Hins5, Hins4, Hins3, Hins2, Hins1, Hins0.
    unfold push. cbn [Psbt.empty Psbt.ins map app]. reflexivity.
  - rewrite Hmaps8, Hmaps7, Hmaps6, Hmaps5, Hmaps4, Hmaps3, Hmaps2, Hmaps1, Hmaps0.
    unfold push. cbn [Psbt.empty Psbt.inputs app].
    rewrite !map_app. cbn [map]. rewrite <- !app_assoc. reflexivity.
  - rewrite length_app. cbn [List.length]. rewrite Hlen0, Hlen5. cbn [List.length]. lia.
  - rewrite Ht5, Ht0. cbn [sumMapped fold_right]. ring.
Qed.

Lemma sumOutputs_push (p p' : Psbt.t) (o : PsbtTxOutput.t) :
  Psbt.outs p' = push (Psbt.outs p) o ->
  sumOutputs p' = sumOutputs p + PsbtTxOutput.value o.
Proof.
  unfold sumOutputs, Psbt.txOutputs, push. intros ->.
  rewrite fold_left_app. reflexivity.
Qed.

Lemma buyingPsbt_parts (listing : IListingState.t) (feeProvider : IFeeProvider)
    (rpcProvider : option IRPCProvider) (platformFeeAddress : option string)
    (buyer : Buyer.t) (psbt : Psbt.t) :
  buyingPsbt listing feeProvider rpcProvider platformFeeAddress = Return (buyer, psbt) ->
  exists p0 totalInput rate,
    IListingState.buyer listing = Some buyer
    /\ buyingPsbtBeforeChange listing rpcProvider platformFeeAddress
       = Return (p0, totalInput)
    /\ getFees feeProvider (Buyer.feeRateTier buyer) = Answer rate
    /\ Psbt.ins psbt = Psbt.ins p0
    /\ Psbt.inputs psbt = Psbt.inputs p0
    /\ let fee :=
         (10 + 180 * Z.of_nat (List.length (Psbt.ins p0))
          + 34 * (Z.of_nat (List.length (Psbt.outs p0)) + 1)) * rate in
       let changeValue := totalInput - sumOutputs p0 - fee in
       0 <= changeValue
       /\ Psbt.outs psbt = (Psbt.outs p0 ++ changeOutputs buyer changeValue)%list.
Proof.
  unfold buyingPsbt; intros H.
  bind_inv H as r Hr. destruct r as [p0 totalInput].
  destruct (IListingState.buyer listing) as [b|] eqn:Hb; [|discriminate H].
  bind_inv H as fee Hfee.
  unfold buyingFee, calculateTxBytesFee in Hfee.
  bind_inv Hfee as rate Hrate. apply await_Return in Hrate.
  injection Hfee as <-. rewrite calculateTxBytesFeeWithRate_default in H.
  unfold Psbt.txInputs, Psbt.txOutputs in H.
  set (fee := (10 + 180 * Z.of_nat (List.length (Psbt.ins p0))
               + 34 * (Z.of_nat (List.length (Psbt.outs p0)) + 1)) * rate) in H.
  destruct (totalInput - sumOutputs p0 - fee <? 0) eqn:Hneg; [discriminate H|].
  apply Z.ltb_ge in Hneg.
  bind_inv H as p1 Hp1. injection H as Hbuyer Hpsbt. subst b p1.
  exists p0, totalInput, rate.
  split; [reflexivity|]. split; [exact Hr|]. split; [exact Hrate|].
  pose proof (addOutput_if_ins _ _ _ Hp1) as [Hins Hinputs].
  split; [exact Hins|]. split; [exact Hinputs|].
  cbv zeta. fold fee. split; [exact Hneg|].
  unfold changeOutputs.
  destruct (DUMMY_UTXO_MIN_VALUE <? totalInput - sumOutputs p0 - fee).
  - apply addOutput_outs in Hp1. exact Hp1.
  - injection Hp1 as <-. symmetry; apply app_nil_r.
Qed.

Lemma Forall_isSome_map_Some (A : Type) (l : list A) :
  Forall (fun i => isSome i = true) (map Some l).
Proof. induction l; cbn [map]; constructor; [reflexivity | assumption]. Qed.

Lemma mapUtxos_loop_total (rpc : IRPCProvider) (utxos : list AddressTxsUtxo.t) :
  nodeServes rpc -> forall ret, exists out, mapUtxos_loop rpc utxos ret = Return out.
Proof.
  intros Hnode. induction utxos as [| u rest IH]; intros ret; cbn [mapUtxos_loop].
  - eexists; reflexivity.
  - destruct (Hnode (AddressTxsUtxo.txid u)) as (txHex & tx & -> & Htx).
    cbn [await bind]. rewrite Htx. cbn [await bind]. apply IH.
Qed.

Lemma mapUtxos_loop_throws_external (rpc : IRPCProvider) (utxos : list AddressTxsUtxo.t) :
  forall ret e,
    mapUtxos_loop rpc utxos ret = Throw e -> exists reason, e = ExternalError reason.
Proof.
  induction utxos as [| u rest IH]; intros ret e H; cbn [mapUtxos_loop] in H.
  - discriminate H.
  - destruct (getrawtransaction rpc (AddressTxsUtxo.txid u)) as [txHex | reason].
    2:{ cbn in H. injection H as <-. eexists; reflexivity. }
    cbn [await bind] in H.
    destruct (Transaction_fromHex txHex) as [tx | reason].
    2:{ cbn in H. injection H as <-. eexists; reflexivity. }
    cbn [await bind] in H. eapply IH; eassumption.
Qed.

(** X1. The inputs of a buying PSBT that
    [generateUnsignedBuyingPSBTBase64] produces are, in this order, the two
    dummy UTXOs, the seller's inscription outpoint (the outpoint named by
    [seller.ordItem.output]) at index [BUYING_PSBT_SELLER_SIGNATURE_INDEX],
    and then the payment UTXOs in the order of [buyer.buyerPaymentUTXOs]; the
    PSBT has one defined input map per transaction input, three plus the
    number of payment UTXOs in all. *)
Theorem buying_psbt_input_layout
    (listing listing' : IListingState.t) (feeProvider : IFeeProvider)
    (rpcProvider : option IRPCProvider) (platformFeeAddress : option string) :
  generateUnsignedBuyingPSBTBase64 listing feeProvider rpcProvider platformFeeAddress
    = (listing', Return tt) ->
  exists buyer psbt d1 d2 payments vout,
    buyingPsbt listing feeProvider rpcProvider platformFeeAddress = Return (buyer, psbt)
    /\ Buyer.buyerDummyUTXOs buyer = Some [d1; d2]
    /\ Buyer.buyerPaymentUTXOs buyer = Some payments
    /\ parseInt (ordinalUtxoVout listing) = Some vout
    /\ Psbt.txInputs psbt
       = map Some ([mappedOutpoint d1; mappedOutpoint d2;
                    outpointIn (ordinalUtxoTxId listing) vout]
                   ++ map utxoOutpoint payments)%list
    /\ js_get (Psbt.txInputs psbt) BUYING_PSBT_SELLER_SIGNATURE_INDEX
       = Some (outpointIn (ordinalUtxoTxId listing) vout)
    /\ parsedShape psbt
    /\ Psbt.inputCount psbt = (3 + List.length payments)%nat.
Proof.
  intros H. apply generateUnsignedBuyingPSBTBase64_success in H.
  destruct H as (buyer & psbt & base64 & Hpsbt & _ & _).
  destruct (buyingPsbt_parts _ _ _ _ Hpsbt)
    as (p0 & total & rate & Hb & Hp0 & _ & Hins & Hinputs & _).
  destruct (buyingPsbtBeforeChange_ins _ _ _ Hp0)
    as (b & d1 & d2 & payments & vout & maps & Hb' & Hd & Hpay & Hvout & Hins0
        & Hmaps & Hlen & _).
  rewrite Hb in Hb'. injection Hb' as <-.
  exists buyer, psbt, d1, d2, payments, vout.
  unfold Psbt.txInputs, Psbt.inputCount.
  split; [exact Hpsbt|]. split; [exact Hd|]. split; [exact Hpay|]. split; [exact Hvout|].
  split; [rewrite Hins; exact Hins0|].
  split; [rewrite Hins, Hins0; reflexivity|].
  split.
  - unfold parsedShape. rewrite Hins, Hinputs, Hins0, Hmaps.
    split; [|split; apply Forall_isSome_map_Some].
    rewrite !length_map, length_app, length_map, Hlen. reflexivity.
  - rewrite Hinputs, Hmaps, length_map. exact Hlen.
Qed.

(** X2. In a buying PSBT that [generateUnsignedBuyingPSBTBase64] assembles,
    the values of the buyer's inputs (the two dummies and the payment UTXOs;
    the seller's input is not counted) equal the sum of the outputs plus the
    fee estimate when a change output is appended, the estimate then being
    [(10 + 180 * inputs + 34 * outputs) * rate] on the final counts.
    Without a change output the buyer's inputs exceed outputs plus the
    estimate, which then counts one output more than the PSBT has, by at
    most [DUMMY_UTXO_MIN_VALUE]. *)
Theorem buying_psbt_value_conservation
    (listing : IListingState.t) (feeProvider : IFeeProvider)
    (rpcProvider : option IRPCProvider) (platformFeeAddress : option string)
    (buyer : Buyer.t) (psbt : Psbt.t) :
  buyingPsbt listing feeProvider rpcProvider platformFeeAddress = Return (buyer, psbt) ->
  exists d1 d2 payments offset rate,
    Buyer.buyerDummyUTXOs buyer = Some [d1; d2]
    /\ Buyer.buyerPaymentUTXOs buyer = Some payments
    /\ offsetOf listing = Some offset
    /\ getFees feeProvider (Buyer.feeRateTier buyer) = Answer rate
    /\ let totalInput :=
         MappedUtxo.value d1 + MappedUtxo.value d2 + sumValues payments in
       let fixed := fixedOutputs listing buyer d1 d2 offset platformFeeAddress in
       let n_in := 3 + Z.of_nat (List.length payments) in
       let n_out := Z.of_nat (List.length (Psbt.txOutputs psbt)) in
       (exists changeValue,
           DUMMY_UTXO_MIN_VALUE < changeValue
           /\ Psbt.txOutputs psbt
              = (fixed ++ [txOutput (Buyer.buyerAddress buyer) changeValue])%list
           /\ sumOutputs psbt + (10 + 180 * n_in + 34 * n_out) * rate = totalInput)
       \/ (Psbt.txOutputs psbt = fixed
           /\ 0 <= totalInput - sumOutputs psbt
                   - (10 + 180 * n_in + 34 * (n_out + 1)) * rate
              <= DUMMY_UTXO_MIN_VALUE).
Proof.
  intros Hpsbt.
  destruct (buyingPsbt_parts _ _ _ _ Hpsbt)
    as (p0 & total & rate & Hb & Hp0 & Hrate & _ & _ & Hchange).
  destruct (buyingPsbtBeforeChange_ins _ _ _ Hp0)
    as (b & d1 & d2 & payments & vout & maps & Hb' & Hd & Hpay & _ & Hins0
        & _ & _ & Htotal).
  rewrite Hb in Hb'. injection Hb' as <-.
  destruct (buyingPsbtBeforeChange_outs _ _ _ Hp0)
    as (b & e1 & e2 & offset & Hb' & _ & _ & Hd' & Hoff & Houts0).
  rewrite Hb in Hb'. injection Hb' as <-.
  rewrite Hd in Hd'. injection Hd' as <- <-.
  exists d1, d2, payments, offset, rate.
  split; [exact Hd|]. split; [exact Hpay|]. split; [exact Hoff|]. split; [exact Hrate|].
  cbv zeta in Hchange |- *. destruct Hchange as [Hpos Houts].
  assert (Hn : Z.of_nat (List.length (Psbt.ins p0))
               = 3 + Z.of_nat (List.length payments)).
  { rewrite Hins0, length_map, length_app, length_map. cbn [List.length]. lia. }
  rewrite Hn in Hpos, Houts. rewrite <- Htotal.
  unfold Psbt.txOutputs. unfold changeOutputs in Houts.
  destruct (DUMMY_UTXO_MIN_VALUE <? _) eqn:Hdust in Houts.
  - left. apply Z.ltb_lt in Hdust.
    eexists. split; [exact Hdust|]. split; [rewrite Houts, Houts0; reflexivity|].
    rewrite (@sumOutputs_push p0 psbt _ Houts).
    rewrite Houts, length_app. cbn [List.length PsbtTxOutput.value txOutput].
    rewrite Nat2Z.inj_add. change (Z.of_nat 1) with 1. ring.
  - right. apply Z.ltb_ge in Hdust. rewrite app_nil_r in Houts.
    split; [rewrite Houts; exact Houts0|].
    assert (Hsum : sumOutputs psbt = sumOutputs p0).
    { unfold sumOutputs, Psbt.txOutputs. rewrite Houts. reflexivity. }
    rewrite Hsum, Houts. split; [exact Hpos | exact Hdust].
Qed.

(** X3. A successful [generateUnsignedBuyingPSBTBase64] writes two fields
    of the buyer and nothing else: the network, the seller section and the
    other buyer fields stay as they were, [unsignedBuyingPSBTBase64] holds
    the serialisation of the assembled PSBT, and
    [unsignedBuyingPSBTInputSize] is three plus the number of payment
    UTXOs. *)
Theorem buying_psbt_success_frame
    (listing listing' : IListingState.t) (feeProvider : IFeeProvider)
    (rpcProvider : option IRPCProvider) (platformFeeAddress : option string) :
  generateUnsignedBuyingPSBTBase64 listing feeProvider rpcProvider platformFeeAddress
    = (listing', Return tt) ->
  sameButUnsignedBuyingPSBT listing listing'
  /\ exists buyer buyer' psbt base64 payments,
       buyingPsbt listing feeProvider rpcProvider platformFeeAddress = Return (buyer, psbt)
       /\ Psbt_toBase64 psbt = Answer base64
       /\ IListingState.buyer listing' = Some buyer'
       /\ Buyer.unsignedBuyingPSBTBase64 buyer' = Some base64
       /\ Buyer.buyerPaymentUTXOs buyer' = Some payments
       /\ Buyer.unsignedBuyingPSBTInputSize buyer'
          = Some (3 + Z.of_nat (List.length payments)).
Proof.
  intros H. apply generateUnsignedBuyingPSBTBase64_success in H.
  destruct H as (buyer & psbt & base64 & Hpsbt & H64 & ->).
  destruct (buyingPsbt_parts _ _ _ _ Hpsbt)
    as (p0 & total & rate & Hb & Hp0 & _ & _ & Hinputs & _).
  destruct (buyingPsbtBeforeChange_ins _ _ _ Hp0)
    as (b & d1 & d2 & payments & vout & maps & Hb' & _ & Hpay & _ & _
        & Hmaps & Hlen & _).
  rewrite Hb in Hb'. injection Hb' as <-.
  split.
  - split; [reflexivity|]. split; [reflexivity|].
    eexists buyer, _. split; [exact Hb|]. split; [reflexivity|].
    repeat split; reflexivity.
  - eexists buyer, _, psbt, base64, payments.
    split; [exact Hpsbt|]. split; [exact H64|]. split; [reflexivity|].
    split; [reflexivity|]. split; [exact Hpay|].
    cbn [Buyer.unsignedBuyingPSBTInputSize Buyer.set_unsignedBuyingPSBT].
    rewrite Hinputs, Hmaps, length_map, Hlen. f_equal. lia.
Qed.

(** X4. A successful [generateUnsignedListingPSBTBase64] builds a PSBT with
    exactly one input and one output.  The input spends the outpoint named
    by [seller.ordItem.output], carries the fetched previous transaction and
    the output it spends, has sighash type 131
    ([SIGHASH_SINGLE | SIGHASH_ANYONECANPAY]) and the seller's x-only tap
    internal key when one is set.  The call writes
    [seller.unsignedListingPSBTBase64] and no other field of the listing. *)
Theorem listing_psbt_single_input
    (listing listing' : IListingState.t) (rpcProvider : option IRPCProvider) :
  generateUnsignedListingPSBTBase64 listing rpcProvider = (listing', Return tt) ->
  exists psbt base64 vout tx,
    listingPsbt listing rpcProvider = Return psbt
    /\ Psbt_toBase64 psbt = Answer base64
    /\ Seller.unsignedListingPSBTBase64 (IListingState.seller listing') = Some base64
    /\ sameButUnsignedListingPSBT listing listing'
    /\ parseInt (ordinalUtxoVout listing) = Some vout
    /\ fetchOrdinalTx listing (resolveRPC rpcProvider) (ordinalUtxoTxId listing) = Return tx
    /\ Psbt.txInputs psbt = [Some (outpointIn (ordinalUtxoTxId listing) vout)]
    /\ Psbt.inputs psbt =
         [Some {| PsbtInput.nonWitnessUtxo := Some (Transaction_toBuffer tx);
                  PsbtInput.witnessUtxo := at_Z (Transaction.outs tx) vout;
                  PsbtInput.sighashType := Some 131;
                  PsbtInput.tapInternalKey := sellerTapInternalKey listing;
                  PsbtInput.redeemScript := None;
                  PsbtInput.finalScriptWitness := None |}]
    /\ List.length (Psbt.txOutputs psbt) = 1%nat.
Proof.
  unfold generateUnsignedListingPSBTBase64; intros H.
  destruct (listingPsbt listing rpcProvider) as [psbt | e] eqn:Hpsbt; [|discriminate H].
  cbn [bind] in H.
  destruct (Psbt_toBase64 psbt) as [base64 | r] eqn:H64; [|discriminate H].
  cbn [await] in H. injection H as <-.
  pose proof (listingPsbt_outs _ _ Hpsbt) as Houts.
  pose proof Hpsbt as Hp. unfold listingPsbt in Hp.
  bind_inv Hp as tx Htx. bind_inv Hp as p1 Hp1.
  apply addInput_ins in Hp1. destruct Hp1 as (vout & Hvout & Hins1 & Hmaps1).
  cbn [InputArg.index InputArg.hash] in Hvout, Hins1.
  apply addOutput_ins in Hp. destruct Hp as [Hins Hmaps].
  exists psbt, base64, vout, tx.
  split; [reflexivity|]. split; [exact H64|]. split; [reflexivity|].
  split; [repeat split; reflexivity|].
  split; [exact Hvout|]. split; [exact Htx|].
  unfold Psbt.txInputs, Psbt.txOutputs.
  split; [rewrite Hins, Hins1; reflexivity|].
  split; [|rewrite Houts; reflexivity].
  rewrite Hmaps, Hmaps1. unfold push, inputMap.
  cbn [Psbt.empty Psbt.inputs app InputArg.nonWitnessUtxo InputArg.witnessUtxo
       InputArg.sighashType InputArg.tapInternalKey InputArg.redeemScript].
  rewrite Hvout. reflexivity.
Qed.

(** X5. [mapUtxos] keeps the UTXOs it is given: on success the result has
    the same length and order, each entry carries the txid, vout, value and
    status of its UTXO together with the transaction the node serves for that
    txid.  It succeeds whenever the node serves every transaction, and it
    throws nothing of its own: a failure is the node's or the parser's. *)
Theorem mapUtxos_keeps_utxos
    (utxos : list AddressTxsUtxo.t) (rpcProvider : option IRPCProvider) :
  (forall mapped,
      mapUtxos utxos rpcProvider = Return mapped ->
      map asAddressTxsUtxo mapped = utxos
      /\ Forall (fun m => servedTx (resolveRPC rpcProvider)
                            (MappedUtxo.txid m) (MappedUtxo.tx m)) mapped)
  /\ (nodeServes (resolveRPC rpcProvider) ->
      exists mapped, mapUtxos utxos rpcProvider = Return mapped)
  /\ (forall e,
         mapUtxos utxos rpcProvider = Throw e -> exists reason, e = ExternalError reason).
Proof.
  unfold mapUtxos. split; [|split].
  - intros mapped H. apply mapUtxos_loop_spec in H.
    destruct H as (l & -> & Hmap & Hall). split; assumption.
  - intros Hnode. apply mapUtxos_loop_total; exact Hnode.
  - intros e H. eapply mapUtxos_loop_throws_external; eassumption.
Qed.

(** ** Dummy selection *)

Lemma selectDummyUTXOs_loop_some (itemProvider : IItemProvider)
    (rpcProvider : option IRPCProvider) (utxos : list AddressTxsUtxo.t) :
  forall found r,
    (List.length found < 2)%nat ->
    selectDummyUTXOs_loop itemProvider rpcProvider utxos found = Return (Some r) ->
    List.length r = 2%nat
    /\ map asAddressTxsUtxo r
       = (map asAddressTxsUtxo found
          ++ firstn (2 - List.length found)
               (filter (dummyCandidate itemProvider rpcProvider) utxos))%list.
Proof.
  induction utxos as [| u rest IH]; intros found r Hlen H;
    cbn [selectDummyUTXOs_loop] in H; [discriminate H|].
  destruct (doesUtxoContainInscription u itemProvider rpcProvider) as [b | e] eqn:Hu;
    [|discriminate H].
  cbn [bind] in H. cbn [filter]. unfold dummyCandidate at 1, isClean. rewrite Hu.
  destruct b; cbn [andb]; [apply IH; assumption|].
  destruct ((DUMMY_UTXO_MIN_VALUE <=? AddressTxsUtxo.value u)
            && (AddressTxsUtxo.value u <=? DUMMY_UTXO_MAX_VALUE));
    [|apply IH; assumption].
  bind_inv H as mapped Hmapped.
  apply mapUtxos_single_spec in Hmapped. destruct Hmapped as (m & -> & Hm).
  cbn [at_index nth_error] in H. unfold push in H.
  destruct (Nat.eqb (List.length (found ++ [m])) 2) eqn:Htwo.
  - injection H as <-. apply Nat.eqb_eq in Htwo. split; [exact Htwo|].
    rewrite length_app in Htwo. cbn [List.length] in Htwo.
    replace (2 - List.length found)%nat with 1%nat by lia.
    rewrite map_app. cbn [map firstn]. rewrite Hm. reflexivity.
  - apply Nat.eqb_neq in Htwo.
    rewrite length_app in Htwo. cbn [List.length] in Htwo.
    assert (Hzero : List.length found = 0%nat) by lia.
    apply IH in H; [|rewrite length_app; cbn [List.length]; lia].
    destruct H as [Hr Hmap]. split; [exact Hr|].
    rewrite Hmap, length_app, map_app, Hzero. cbn [List.length map Nat.add Nat.sub firstn].
    rewrite Hm, <- app_assoc. reflexivity.
Qed.

Lemma selectDummyUTXOs_loop_none (itemProvider : IItemProvider)
    (rpcProvider : option IRPCProvider) (utxos : list AddressTxsUtxo.t) :
  forall found,
    (List.length found < 2)%nat ->
    selectDummyUTXOs_loop itemProvider rpcProvider utxos found = Return None ->
    (List.length found
     + List.length (filter (dummyCandidate itemProvider rpcProvider) utxos) < 2)%nat.
Proof.
  induction utxos as [| u rest IH]; intros found Hlen H;
    cbn [selectDummyUTXOs_loop] in H; [cbn; lia|].
  destruct (doesUtxoContainInscription u itemProvider rpcProvider) as [b | e] eqn:Hu;
    [|discriminate H].
  cbn [bind] in H. cbn [filter]. unfold dummyCandidate at 1, isClean. rewrite Hu.
  destruct b; cbn [andb]; [apply IH; assumption|].
  destruct ((DUMMY_UTXO_MIN_VALUE <=? AddressTxsUtxo.value u)
            && (AddressTxsUtxo.value u <=? DUMMY_UTXO_MAX_VALUE));
    [|apply IH; assumption].
  bind_inv H as mapped Hmapped.
  apply mapUtxos_single_spec in Hmapped. destruct Hmapped as (m & -> & Hm).
  cbn [at_index nth_error] in H. unfold push in H.
  destruct (Nat.eqb (List.length (found ++ [m])) 2) eqn:Htwo; [discriminate H|].
  apply Nat.eqb_neq in Htwo.
  rewrite length_app in Htwo. cbn [List.length] in Htwo.
  apply IH in H; [|rewrite length_app; cbn [List.length]; lia].
  rewrite length_app in H. cbn [List.length] in H |- *. lia.
Qed.

Lemma selectDummyUTXOs_loop_completes (itemProvider : IItemProvider)
    (rpcProvider : option IRPCProvider) (utxos : list AddressTxsUtxo.t) :
  Forall (fun u => exists b, doesUtxoContainInscription u itemProvider rpcProvider
                             = Return b) utxos ->
  nodeServes (resolveRPC rpcProvider) ->
  forall found,
  exists r, selectDummyUTXOs_loop itemProvider rpcProvider utxos found = Return r.
Proof.
  intros Hall Hnode.
  induction Hall as [| u rest [b Hu] _ IH]; intros found; cbn [selectDummyUTXOs_loop].
  - eexists; reflexivity.
  - rewrite Hu. cbn [bind]. destruct b; [apply IH|].
    destruct ((DUMMY_UTXO_MIN_VALUE <=? AddressTxsUtxo.value u)
              && (AddressTxsUtxo.value u <=? DUMMY_UTXO_MAX_VALUE)); [|apply IH].
    destruct (mapUtxos_single rpcProvider u Hnode) as (m & -> & _ & _).
    cbn [bind at_index nth_error].
    destruct (Nat.eqb (List.length (push found m)) 2); [eexists; reflexivity | apply IH].
Qed.

(** X6. [selectDummyUTXOs] returns the first two UTXOs, in the order of its
    argument, for which the inscription check answers [false] and whose value
    lies between [DUMMY_UTXO_MIN_VALUE] and [DUMMY_UTXO_MAX_VALUE], both
    bounds included; a non-null result has exactly two entries.  It returns
    [null] only when fewer than two UTXOs qualify, and it returns whenever the
    inscription check answers for every UTXO and the node serves the
    transactions. *)
Theorem select_dummy_utxos_first_two
    (utxos : list AddressTxsUtxo.t) (itemProvider : IItemProvider)
    (rpcProvider : option IRPCProvider) :
  (forall found,
      selectDummyUTXOs utxos itemProvider rpcProvider = Return (Some found) ->
      List.length found = 2%nat
      /\ map asAddressTxsUtxo found
         = firstn 2 (filter (dummyCandidate itemProvider rpcProvider) utxos))
  /\ (selectDummyUTXOs utxos itemProvider rpcProvider = Return None ->
      (List.length (filter (dummyCandidate itemProvider rpcProvider) utxos) < 2)%nat)
  /\ (Forall (fun u => exists b, doesUtxoContainInscription u itemProvider rpcProvider
                                 = Return b) utxos ->
      nodeServes (resolveRPC rpcProvider) ->
      exists r, selectDummyUTXOs utxos itemProvider rpcProvider = Return r).
Proof.
  unfold selectDummyUTXOs. split; [|split].
  - intros found H. apply selectDummyUTXOs_loop_some in H; [exact H | cbn; lia].
  - intros H. apply selectDummyUTXOs_loop_none in H; [exact H | cbn; lia].
  - intros Hall Hnode. apply selectDummyUTXOs_loop_completes; assumption.
Qed.

(** ** Dummy creation *)

Lemma createDummyInput_outpoint (address : string) (buyerPublicKey : option string)
    (network : Network.t) (utxo : MappedUtxo.t) (input : InputArg.t) :
  createDummyInput address buyerPublicKey network utxo = Return input ->
  InputArg.hash input = MappedUtxo.txid utxo
  /\ InputArg.index input = Some (MappedUtxo.vout utxo).
Proof.
  unfold createDummyInput; intros H.
  destruct (isP2SHAddress address network).
  - bind_inv H as r Hr. destruct r as [p2shOutput redeemScript].
    injection H as <-. split; reflexivity.
  - injection H as <-. split; reflexivity.
Qed.

Lemma filter_asAddressTxsUtxo (f : AddressTxsUtxo.t -> bool) (l : list MappedUtxo.t) :
  filter f (map asAddressTxsUtxo l)
  = map asAddressTxsUtxo (filter (fun m => f (asAddressTxsUtxo m)) l).
Proof.
  induction l as [| m rest IH]; cbn [map filter]; [reflexivity|].
  destruct (f (asAddressTxsUtxo m)); cbn [map]; rewrite IH; reflexivity.
Qed.

Lemma sumValues_asAddressTxsUtxo (l : list MappedUtxo.t) :
  sumValues (map asAddressTxsUtxo l) = sumMapped l.
Proof.
  induction l as [| m rest IH]; cbn [map sumValues sumMapped fold_right]; [reflexivity|].
  fold (sumValues (map asAddressTxsUtxo rest)). fold (sumMapped rest).
  rewrite IH. reflexivity.
Qed.

Lemma utxoOutpoint_asAddressTxsUtxo (l : list MappedUtxo.t) :
  map utxoOutpoint (map asAddressTxsUtxo l) = map mappedOutpoint l.
Proof. rewrite map_map. reflexivity. Qed.

Lemma sumMapped_app (l1 l2 : list MappedUtxo.t) :
  sumMapped (l1 ++ l2) = sumMapped l1 + sumMapped l2.
Proof.
  induction l1 as [| x xs IH]; cbn [sumMapped fold_right app]; [reflexivity|].
  fold (sumMapped (xs ++ l2)). fold (sumMapped xs). rewrite IH. ring.
Qed.

Section CreateDummyProperties.
Variables (address : string) (buyerPublicKey : option string).
Variables (network : Network.t) (itemProvider : IItemProvider).
Variables (rpcProvider : option IRPCProvider) (recommendedFee : Z).

Local Abbreviation loop :=
  (createDummy_loop address buyerPublicKey network itemProvider rpcProvider recommendedFee).
Local Abbreviation clean := (cleanMapped itemProvider rpcProvider).

Lemma createDummy_loop_spec (mappedUtxos : list MappedUtxo.t) :
  forall used0 psbt total count psbt' total' count',
    total = sumMapped used0 ->
    count = Z.of_nat (List.length used0) ->
    loop mappedUtxos psbt total count = Return (psbt', total', count') ->
    exists scanned remaining,
      mappedUtxos = (scanned ++ remaining)%list
      /\ Psbt.ins psbt'
         = (Psbt.ins psbt ++ map Some (map mappedOutpoint (filter clean scanned)))%list
      /\ Psbt.outs psbt' = Psbt.outs psbt
      /\ total' = sumMapped (used0 ++ filter clean scanned)
      /\ count' = Z.of_nat (List.length (used0 ++ filter clean scanned))
      /\ (remaining = []
          \/ (dummiesCovered recommendedFee (used0 ++ filter clean scanned)
              /\ exists pre u, scanned = (pre ++ [u])%list /\ clean u = true))
      /\ (forall pre u post,
             scanned = (pre ++ u :: post)%list -> post <> [] -> clean u = true ->
             ~ dummiesCovered recommendedFee (used0 ++ filter clean (pre ++ [u]))).
Proof.
  induction mappedUtxos as [| u rest IH];
    intros used0 psbt total count psbt' total' count' Htotal Hcount H;
    cbn [createDummy_loop] in H.
  - injection H as <- <- <-. exists [], []. cbn [filter map]. rewrite !app_nil_r.
    repeat split; try assumption; try reflexivity.
    + left; reflexivity.
    + intros pre x post Hp. destruct pre; discriminate Hp.
  - fold (asAddressTxsUtxo u) in H.
    destruct (doesUtxoContainInscription (asAddressTxsUtxo u) itemProvider rpcProvider)
      as [b | e] eqn:Hu; [|discriminate H].
    cbn [bind] in H. destruct b.
    + (* skipped *)
      assert (Hclean : clean u = false)
        by (unfold cleanMapped, isClean; rewrite Hu; reflexivity).
      destruct (IH _ _ _ _ _ _ _ Htotal Hcount H)
        as (scanned & remaining & -> & Hins & Houts & Ht & Hc & Hstop & Hearly).
      exists (u :: scanned), remaining. cbn [filter]. rewrite Hclean.
      split; [reflexivity|]. split; [exact Hins|]. split; [exact Houts|].
      split; [exact Ht|]. split; [exact Hc|]. split.
      * destruct Hstop as [Hnil | (Hcov & pre & x & Hp & Hx)]; [left; exact Hnil|].
        right. split; [exact Hcov|].
        exists (u :: pre), x. rewrite Hp. split; [reflexivity | exact Hx].
      * intros pre x post Hp Hpost Hx.
        destruct pre as [| y pre'].
        -- cbn in Hp. injection Hp as -> _. congruence.
        -- cbn in Hp. injection Hp as -> Hp.
           cbn [app filter]. rewrite Hclean.
           apply (Hearly pre' x post Hp Hpost Hx).
    + (* taken *)
      assert (Hclean : clean u = true)
        by (unfold cleanMapped, isClean; rewrite Hu; reflexivity).
      bind_inv H as input Hinput. bind_inv H as q Hq.
      apply createDummyInput_outpoint in Hinput. destruct Hinput as [Hhash Hindex].
      pose proof (addInput_outs _ _ Hq) as Houtsq.
      apply addInput_ins in Hq. destruct Hq as (index & Hi & Hinsq & _).
      rewrite Hindex in Hi. injection Hi as <-.
      assert (Htotal' : total + MappedUtxo.value u = sumMapped (used0 ++ [u])).
      { rewrite sumMapped_app, Htotal. cbn. ring. }
      assert (Hcount' : count + 1 = Z.of_nat (List.length (used0 ++ [u]))).
      { rewrite length_app, Hcount. cbn [List.length]. lia. }
      destruct (DUMMY_UTXO_VALUE * 2 + _ <=? _) eqn:Hle.
      * apply Z.leb_le in Hle. injection H as <- <- <-. exists [u], rest.
        cbn [filter app]. rewrite Hclean.
        split; [reflexivity|]. split; [rewrite Hinsq, Hhash; reflexivity|].
        split; [exact Houtsq|]. split; [exact Htotal'|]. split; [exact Hcount'|].
        split.
        -- right. split.
           ++ unfold dummiesCovered. rewrite <- Hcount', <- Htotal'. exact Hle.
           ++ exists [], u. split; [reflexivity | exact Hclean].
        -- intros pre x post Hp Hpost.
           destruct pre as [| y [| z pre']]; cbn in Hp.
           ++ injection Hp as _ Hp. symmetry in Hp. contradiction.
           ++ injection Hp as _ Hp. discriminate Hp.
           ++ injection Hp as _ Hp. discriminate Hp.
      * apply Z.leb_gt in Hle.
        destruct (IH _ _ _ _ _ _ _ Htotal' Hcount' H)
          as (scanned & remaining & -> & Hins & Houts & Ht & Hc & Hstop & Hearly).
        exists (u :: scanned), remaining. cbn [filter app]. rewrite Hclean.
        assert (Happ : forall l : list MappedUtxo.t,
                   ((used0 ++ [u]) ++ l = used0 ++ u :: l)%list)
          by (intros l; rewrite <- app_assoc; reflexivity).
        rewrite Happ in Ht, Hc, Hstop.
        split; [reflexivity|].
        split; [rewrite Hins, Hinsq, Hhash; unfold push; rewrite <- app_assoc;
                reflexivity|].
        split; [rewrite Houts; exact Houtsq|].
        split; [exact Ht|]. split; [exact Hc|]. split.
        -- destruct Hstop as [Hnil | (Hcov & pre & x & Hp & Hx)]; [left; exact Hnil|].
           right. split; [exact Hcov|].
           exists (u :: pre), x. rewrite Hp. split; [reflexivity | exact Hx].
        -- intros pre x post Hp Hpost Hx.
           destruct pre as [| y pre'].
           ++ cbn in Hp. injection Hp as <- _.
              cbn [app filter]. rewrite Hclean.
              unfold dummiesCovered. rewrite <- Hcount', <- Htotal'. lia.
           ++ cbn in Hp. injection Hp as -> Hp.
              cbn [app filter]. rewrite Hclean. rewrite <- Happ.
              apply (Hearly pre' x post Hp Hpost Hx).
Qed.

Lemma createDummy_loop_not_invalid (mappedUtxos : list MappedUtxo.t) :
  forall psbt total count m,
    loop mappedUtxos psbt total count <> Throw (InvalidArgumentError m).
Proof.
  induction mappedUtxos as [| u rest IH]; intros psbt total count m H;
    cbn [createDummy_loop] in H; [discriminate H|].
  fold (asAddressTxsUtxo u) in H.
  destruct (doesUtxoContainInscription (asAddressTxsUtxo u) itemProvider rpcProvider)
    as [b | e] eqn:Hu; cbn [bind] in H.
  2:{ injection H as ->.
      apply doesUtxoContainInscription_throws_external in Hu.
      destruct Hu as [reason Hr]. discriminate Hr. }
  destruct b; [exact (IH _ _ _ _ H)|].
  unfold createDummyInput, p2shWrappedSegwit in H.
  destruct (isP2SHAddress address network).
  - destruct buyerPublicKey as [key|]; [|discriminate H].
    destruct (p2wpkh_output (Buffer_from_hex key)) as [rs | r1]; [|discriminate H].
    cbn [await bind] in H.
    destruct (p2sh_output rs) as [po | r2]; [|discriminate H].
    cbn [await bind] in H.
    unfold addInput in H.
    destruct (checkInput psbt _) as [[] | r3]; [|discriminate H].
    cbn [await bind InputArg.index] in H.
    destruct (DUMMY_UTXO_VALUE * 2 + _ <=? _); [discriminate H | exact (IH _ _ _ _ H)].
  - cbn [bind] in H. unfold addInput in H.
    destruct (checkInput psbt _) as [[] | r3]; [|discriminate H].
    cbn [await bind InputArg.index] in H.
    destruct (DUMMY_UTXO_VALUE * 2 + _ <=? _); [discriminate H | exact (IH _ _ _ _ H)].
Qed.

End CreateDummyProperties.

Lemma addOutput_throws_external (p : Psbt.t) (o : OutputArg.t) (e : Error) :
  addOutput p o = Throw e -> exists reason, e = ExternalError reason.
Proof.
  unfold addOutput; intros H.
  destruct (checkOutput p o) as [u | reason]; cbn [await bind] in H; [discriminate H|].
  injection H as <-. exists reason; reflexivity.
Qed.

(** X7. [generateUnsignedCreateDummyUtxoPSBTBase64] scans the mapped
    wallet in order, takes the UTXOs for which the inscription check answers
    [false] and stops right after the first taken UTXO with which the inputs
    cover two outputs of [DUMMY_UTXO_VALUE] and the fee
    [(10 + 180 * inputs + 34 * 3) * rate].  The PSBT it returns spends the
    taken UTXOs and no other, pays the address two outputs of
    [DUMMY_UTXO_VALUE] and, when the remainder exceeds
    [DUMMY_UTXO_MIN_VALUE], the remainder as a third output; the remainder is
    never negative.  The call throws [InvalidArgumentError] exactly when the
    gathered inputs fall short of the two dummies and the fee. *)
Theorem create_dummy_psbt_shape
    (address : string) (buyerPublicKey : option string)
    (unqualifiedUtxos : list AddressTxsUtxo.t) (feeRateTier : string)
    (network : Network.t) (feeProvider : IFeeProvider) (itemProvider : IItemProvider)
    (rpcProvider : option IRPCProvider) :
  (forall base64,
      generateUnsignedCreateDummyUtxoPSBTBase64 address buyerPublicKey unqualifiedUtxos
        feeRateTier network feeProvider itemProvider rpcProvider = Return base64 ->
      exists psbt rate mappedUtxos used,
        Psbt_toBase64 psbt = Answer base64
        /\ getFees feeProvider feeRateTier = Answer rate
        /\ mapUtxos unqualifiedUtxos rpcProvider = Return mappedUtxos
        /\ dummyScan itemProvider rpcProvider rate mappedUtxos used
        /\ let fees := (10 + 180 * Z.of_nat (List.length used) + 34 * 3) * rate in
           let changeValue := sumMapped used - DUMMY_UTXO_VALUE * 2 - fees in
           Psbt.txInputs psbt = map Some (map mappedOutpoint used)
           /\ 0 <= changeValue
           /\ Psbt.txOutputs psbt
              = ([txOutput address DUMMY_UTXO_VALUE; txOutput address DUMMY_UTXO_VALUE]
                 ++ (if DUMMY_UTXO_MIN_VALUE <? changeValue
                     then [txOutput address changeValue] else []))%list)
  /\ ((exists m,
          generateUnsignedCreateDummyUtxoPSBTBase64 address buyerPublicKey unqualifiedUtxos
            feeRateTier network feeProvider itemProvider rpcProvider
          = Throw (InvalidArgumentError m))
      <-> cannotCoverDummies address buyerPublicKey unqualifiedUtxos feeRateTier network
            feeProvider itemProvider rpcProvider).
Proof.
  split.
  - intros base64 H. unfold generateUnsignedCreateDummyUtxoPSBTBase64 in H.
    bind_inv H as mapped Hmapped. bind_inv H as rate Hrate.
    apply await_Return in Hrate.
    bind_inv H as r Hloop. destruct r as [[p0 total] count].
    destruct (total - DUMMY_UTXO_VALUE * 2
              - calculateTxBytesFeeWithRate count 2 rate None <? 0) eqn:Hneg;
      [discriminate H|].
    apply Z.ltb_ge in Hneg.
    bind_inv H as p1 Hp1. bind_inv H as p2 Hp2. bind_inv H as p3 Hp3.
    apply await_Return in H.
    apply (@createDummy_loop_spec address buyerPublicKey network itemProvider rpcProvider
             rate mapped [] Psbt.empty 0 0 p0 total count eq_refl eq_refl) in Hloop.
    destruct Hloop as (scanned & remaining & Hsplit & Hins0 & Houts0 & Ht & Hc
                       & Hstop & Hearly).
    cbn [Psbt.empty Psbt.ins Psbt.outs app] in Hins0, Houts0, Ht, Hc, Hstop, Hearly.
    set (used := filter (cleanMapped itemProvider rpcProvider) scanned) in *.
    exists p3, rate, mapped, used.
    split; [exact H|]. split; [exact Hrate|]. split; [exact Hmapped|].
    split; [exists scanned, remaining; repeat split; assumption|].
    cbv zeta.
    rewrite calculateTxBytesFeeWithRate_default in Hneg, Hp3.
    assert (Hchange : total - DUMMY_UTXO_VALUE * 2 - (10 + 180 * count + 34 * (2 + 1)) * rate
                      = sumMapped used - DUMMY_UTXO_VALUE * 2
                        - (10 + 180 * Z.of_nat (List.length used) + 34 * 3) * rate).
    { rewrite Ht, Hc. ring. }
    rewrite Hchange in Hneg, Hp3.
    pose proof (addOutput_outs _ _ Hp1) as Ho1.
    pose proof (addOutput_outs _ _ Hp2) as Ho2.
    apply addOutput_ins in Hp1, Hp2. destruct Hp1 as [Hi1 _]. destruct Hp2 as [Hi2 _].
    pose proof (addOutput_if_ins _ _ _ Hp3) as [Hi3 _].
    unfold Psbt.txInputs, Psbt.txOutputs.
    split; [rewrite Hi3, Hi2, Hi1; exact Hins0|]. split; [exact Hneg|].
    destruct (DUMMY_UTXO_MIN_VALUE <? _).
    + apply addOutput_outs in Hp3. rewrite Hp3, Ho2, Ho1, Houts0. reflexivity.
    + injection Hp3 as <-. rewrite Ho2, Ho1, Houts0. reflexivity.
  - split.
    + intros [m H]. unfold generateUnsignedCreateDummyUtxoPSBTBase64 in H.
      destruct (mapUtxos unqualifiedUtxos rpcProvider) as [mapped | e] eqn:Hmapped.
      2:{ cbn [bind] in H. injection H as ->.
          apply mapUtxos_loop_throws_external in Hmapped.
          destruct Hmapped as [reason Hr]. discriminate Hr. }
      cbn [bind] in H.
      destruct (getFees feeProvider feeRateTier) as [rate | reason] eqn:Hrate;
        [|discriminate H].
      cbn [await bind] in H.
      destruct (createDummy_loop address buyerPublicKey network itemProvider rpcProvider
                  rate mapped Psbt.empty 0 0) as [[[p0 total] count] | e] eqn:Hloop.
      2:{ cbn [bind] in H. injection H as ->.
          exfalso. eapply createDummy_loop_not_invalid; exact Hloop. }
      cbn [bind] in H.
      destruct (total - DUMMY_UTXO_VALUE * 2
                - calculateTxBytesFeeWithRate count 2 rate None <? 0) eqn:Hneg.
      * apply Z.ltb_lt in Hneg.
        exists mapped, rate, p0, total, count. repeat split; assumption.
      * exfalso.
        destruct (addOutput p0 _) as [p1 | e1] eqn:Hp1.
        2:{ cbn [bind] in H. injection H as ->.
            apply addOutput_throws_external in Hp1.
            destruct Hp1 as [reason Hr]. discriminate Hr. }
        cbn [bind] in H.
        destruct (addOutput p1 _) as [p2 | e2] eqn:Hp2.
        2:{ cbn [bind] in H. injection H as ->.
            apply addOutput_throws_external in Hp2.
            destruct Hp2 as [reason Hr]. discriminate Hr. }
        cbn [bind] in H.
        destruct (DUMMY_UTXO_MIN_VALUE <? _).
        -- destruct (addOutput p2 _) as [p3 | e3] eqn:Hp3.
           2:{ cbn [bind] in H. injection H as ->.
               apply addOutput_throws_external in Hp3.
               destruct Hp3 as [reason Hr]. discriminate Hr. }
           cbn [bind] in H. destruct (Psbt_toBase64 p3); discriminate H.
        -- cbn [bind] in H. destruct (Psbt_toBase64 p2); discriminate H.
    + intros (mapped & rate & p0 & total & count & Hmapped & Hrate & Hloop & Hneg).
      unfold generateUnsignedCreateDummyUtxoPSBTBase64.
      rewrite Hmapped. cbn [bind]. rewrite Hrate. cbn [await bind].
      rewrite Hloop. cbn [bind].
      apply Z.ltb_lt in Hneg. rewrite Hneg. eexists; reflexivity.
Qed.

(** ** Address predicates *)

Lemma getAddressType_p2pkh (address : string) (network : Network.t) :
  getAddressType address network = p2pkh <-> isP2PKHAddress address network = true.
Proof.
  unfold getAddressType.
  destruct (isP2PKHAddress address network); [split; reflexivity|].
  destruct (isP2SHAddress address network); [split; discriminate|].
  destruct (truthy (Network.bech32 network)); [|split; discriminate].
  destruct (fromBech32 address) as [decoded|]; [|split; discriminate].
  destruct (Bech32Result.version decoded =? 0).
  - destruct (Nat.eqb (List.length (Bech32Result.data decoded)) 20); split; discriminate.
  - destruct (Bech32Result.version decoded =? 1); split; discriminate.
Qed.

Lemma getAddressType_p2sh (address : string) (network : Network.t) :
  getAddressType address network = p2sh <->
  isP2PKHAddress address network = false /\ isP2SHAddress address network = true.
Proof.
  unfold getAddressType.
  destruct (isP2PKHAddress address network).
  { split; [discriminate | intros [H _]; discriminate H]. }
  destruct (isP2SHAddress address network); [split; [split|]; reflexivity|].
  assert (Hno : forall t : AddressType, t <> p2sh ->
                  (t = p2sh <-> false = false /\ false = true)).
  { intros t Ht. split; [intros H; contradiction | intros [_ H]; discriminate H]. }
  apply Hno.
  destruct (truthy (Network.bech32 network)); [|discriminate].
  destruct (fromBech32 address) as [decoded|]; [|discriminate].
  destruct (Bech32Result.version decoded =? 0).
  - destruct (Nat.eqb (List.length (Bech32Result.data decoded)) 20); discriminate.
  - destruct (Bech32Result.version decoded =? 1); discriminate.
Qed.

Lemma isTaprootAddress_isSegWitAddress (address : string) (network : Network.t) :
  isTaprootAddress address network = true -> isSegWitAddress address network = true.
Proof.
  unfold isTaprootAddress, isSegWitAddress.
  destruct (negb (truthy (Network.bech32 network))); [discriminate|].
  destruct (fromBech32 address) as [decoded|]; [|discriminate].
  intros H. apply andb_prop in H. exact (proj2 H).
Qed.

Lemma isTaprootAddress_p2tr (address : string) (network : Network.t) :
  isTaprootAddress address network = true ->
  isLegacyAddress address network = false ->
  getAddressType address network = p2tr.
Proof.
  unfold isTaprootAddress, isLegacyAddress, getAddressType. intros Htap Hlegacy.
  apply orb_false_elim in Hlegacy. destruct Hlegacy as [-> ->].
  destruct (truthy (Network.bech32 network)); [|discriminate Htap].
  cbn [negb] in Htap.
  destruct (fromBech32 address) as [decoded|]; [|discriminate Htap].
  apply andb_prop in Htap. destruct Htap as [Hv _].
  apply Z.eqb_eq in Hv. rewrite Hv. reflexivity.
Qed.

Lemma empty_hrp_means_legacy (address : string) (network : Network.t) :
  truthy (Network.bech32 network) = false ->
  isSegWitAddress address network = false
  /\ isTaprootAddress address network = false
  /\ isValidAddress address network = isLegacyAddress address network.
Proof.
  intros Hhrp.
  unfold isSegWitAddress, isTaprootAddress, isValidAddress, isLegacyAddress,
    getAddressType.
  rewrite Hhrp. cbn [negb].
  split; [reflexivity|]. split; [reflexivity|].
  destruct (isP2PKHAddress address network); [reflexivity|].
  destruct (isP2SHAddress address network); reflexivity.
Qed.

(** X8. The address predicates of [util.ts] agree with [getAddressType] on
    the legacy types: an address is [p2pkh] exactly when [isP2PKHAddress]
    holds, [p2sh] exactly when [isP2SHAddress] holds and [isP2PKHAddress]
    does not, and legacy exactly when its type is one of the two.  A taproot
    address is a segwit address, and it is typed [p2tr] unless it is legacy.
    On a chain whose human-readable part is empty no address is segwit or
    taproot, and the valid addresses are the legacy ones. *)
Theorem address_predicates_agree (address : string) (network : Network.t) :
  (getAddressType address network = p2pkh <-> isP2PKHAddress address network = true)
  /\ (getAddressType address network = p2sh
      <-> isP2PKHAddress address network = false
          /\ isP2SHAddress address network = true)
  /\ (isLegacyAddress address network = true
      <-> getAddressType address network = p2pkh
          \/ getAddressType address network = p2sh)
  /\ (isTaprootAddress address network = true -> isSegWitAddress address network = true)
  /\ (isTaprootAddress address network = true ->
      isLegacyAddress address network = false ->
      getAddressType address network = p2tr)
  /\ (truthy (Network.bech32 network) = false ->
      isSegWitAddress address network = false
      /\ isTaprootAddress address network = false
      /\ isValidAddress address network = isLegacyAddress address network).
Proof.
  split; [apply getAddressType_p2pkh|]. split; [apply getAddressType_p2sh|].
  split.
  - rewrite getAddressType_p2pkh, getAddressType_p2sh. unfold isLegacyAddress.
    destruct (isP2PKHAddress address network);
      destruct (isP2SHAddress address network); cbn [orb]; split; intros H.
    + left; reflexivity.
    + reflexivity.
    + left; reflexivity.
    + reflexivity.
    + right; split; reflexivity.
    + reflexivity.
    + discriminate H.
    + destruct H as [H | [_ H]]; discriminate H.
  - split; [apply isTaprootAddress_isSegWitAddress|].
    split; [apply isTaprootAddress_p2tr | apply empty_hrp_means_legacy].
Qed.

(** ** Seller payout *)


(** ** Keys, hashes and transactions *)

(** X10. [toXOnly] yields 32 bytes exactly for keys of at least 32 bytes:
    a key of 32 bytes is returned as it is, a longer one gives its bytes 1
    to 32, and applying the function again changes nothing.  A key shorter
    than 32 bytes is not rejected: it loses its first byte and stays
    short. *)
Theorem toXOnly_length (pubKey : Buffer) :
  (List.length (toXOnly pubKey) = 32%nat <-> (32 <= List.length pubKey)%nat)
  /\ ((32 <= List.length pubKey)%nat -> toXOnly (toXOnly pubKey) = toXOnly pubKey)
  /\ (List.length pubKey = 33%nat -> exists prefix, pubKey = prefix :: toXOnly pubKey)
  /\ ((List.length pubKey < 32)%nat -> toXOnly pubKey = skipn 1 pubKey).
Proof.
  unfold toXOnly.
  destruct (Nat.eqb (List.length pubKey) 32) eqn:H32.
  - apply Nat.eqb_eq in H32. repeat split; intros; try lia.
    rewrite H32. reflexivity.
  - apply Nat.eqb_neq in H32.
    assert (Hlen : List.length (firstn 32 (skipn 1 pubKey))
                   = Nat.min 32 (List.length pubKey - 1)).
    { rewrite length_firstn, length_skipn. reflexivity. }
    repeat split; intros.
    + lia.
    + lia.
    + replace (Nat.eqb (List.length (firstn 32 (skipn 1 pubKey))) 32) with true;
        [reflexivity|].
      symmetry. apply Nat.eqb_eq. lia.
    + destruct pubKey as [| prefix rest]; [discriminate|].
      exists prefix. cbn [skipn]. rewrite firstn_all2; [reflexivity|].
      cbn [List.length] in *. lia.
    + apply firstn_all2. rewrite length_skipn. lia.
Qed.

Lemma bytes_of_hex_hex_of_byte (b : Byte.byte) (s : string) :
  bytes_of_hex (hex_of_byte b ++ s) = b :: bytes_of_hex s.
Proof. destruct b; reflexivity. Qed.

Lemma bytes_of_hex_toHex (buf : Buffer) : bytes_of_hex (toHex buf) = buf.
Proof.
  induction buf as [| b rest IH]; [reflexivity|].
  cbn [toHex fold_right]. fold (toHex rest).
  rewrite bytes_of_hex_hex_of_byte, IH. reflexivity.
Qed.

Lemma length_toHex (buf : Buffer) : String.length (toHex buf) = (2 * List.length buf)%nat.
Proof.
  induction buf as [| b rest IH]; [reflexivity|].
  cbn [toHex fold_right]. fold (toHex rest).
  unfold hex_of_byte. cbn [String.append String.length List.length]. rewrite IH. lia.
Qed.

(** X11. [generateTxidFromHash] renders a hash of [n] bytes as [2 * n]
    hexadecimal characters, last byte first; decoding the text as
    hexadecimal and reversing the bytes gives the hash back, so that distinct
    hashes have distinct txids. *)
Theorem generateTxidFromHash_round_trip (hash hash' : Buffer) :
  String.length (generateTxidFromHash hash) = (2 * List.length hash)%nat
  /\ rev (bytes_of_hex (generateTxidFromHash hash)) = hash
  /\ (generateTxidFromHash hash = generateTxidFromHash hash' -> hash = hash').
Proof.
  unfold generateTxidFromHash. split; [|split].
  - rewrite length_toHex, length_rev. reflexivity.
  - rewrite bytes_of_hex_toHex. apply rev_involutive.
  - intros H. apply (f_equal bytes_of_hex) in H.
    rewrite !bytes_of_hex_toHex in H.
    apply (f_equal (@rev Byte.byte)) in H. rewrite !rev_involutive in H. exact H.
Qed.

Lemma clearWitnesses_from_length (n : nat) (ins : list TxIn.t) :
  List.length (clearWitnesses_from n ins) = List.length ins.
Proof.
  revert ins. induction n as [| m IH]; intros [| i rest]; cbn; try reflexivity.
  rewrite IH. reflexivity.
Qed.

Lemma clearWitnesses_from_nth (n : nat) :
  forall (ins : list TxIn.t) (i : nat) (input : TxIn.t),
    nth_error ins i = Some input ->
    nth_error (clearWitnesses_from n ins) i
    = Some {| TxIn.hash := TxIn.hash input; TxIn.index := TxIn.index input;
              TxIn.script := TxIn.script input; TxIn.sequence := TxIn.sequence input;
              TxIn.witness := if Nat.ltb i n then [] else TxIn.witness input |}.
Proof.
  induction n as [| m IH]; intros ins i input H.
  - destruct ins; cbn [clearWitnesses_from]; rewrite H; destruct input; reflexivity.
  - destruct ins as [| x rest]; [destruct i; discriminate H|].
    destruct i as [| j]; cbn [clearWitnesses_from nth_error] in *.
    + injection H as <-. reflexivity.
    + rewrite (IH rest j input H). reflexivity.
Qed.

Lemma clearWitnesses_from_idempotent (n : nat) (ins : list TxIn.t) :
  clearWitnesses_from n (clearWitnesses_from n ins) = clearWitnesses_from n ins.
Proof.
  revert ins. induction n as [| m IH]; intros [| i rest]; cbn; try reflexivity.
  rewrite IH. reflexivity.
Qed.

(** X12. The normalisation applied to the inscription's previous
    transaction when the seller has no tap internal key keeps the version,
    the lock time, the outputs and, of every input, the outpoint, the script
    and the sequence; it empties the witness of the inputs whose index is
    below the number of outputs and leaves the witness of the other inputs
    in place.  Applying it twice is applying it once. *)
Theorem clearWitnesses_spec (tx : Transaction.t) :
  Transaction.version (clearWitnesses tx) = Transaction.version tx
  /\ Transaction.locktime (clearWitnesses tx) = Transaction.locktime tx
  /\ Transaction.outs (clearWitnesses tx) = Transaction.outs tx
  /\ List.length (Transaction.ins (clearWitnesses tx)) = List.length (Transaction.ins tx)
  /\ (forall i input,
         nth_error (Transaction.ins tx) i = Some input ->
         nth_error (Transaction.ins (clearWitnesses tx)) i
         = Some {| TxIn.hash := TxIn.hash input; TxIn.index := TxIn.index input;
                   TxIn.script := TxIn.script input; TxIn.sequence := TxIn.sequence input;
                   TxIn.witness :=
                     if Nat.ltb i (List.length (Transaction.outs tx))
                     then [] else TxIn.witness input |})
  /\ clearWitnesses (clearWitnesses tx) = clearWitnesses tx.
Proof.
  unfold clearWitnesses; cbn [Transaction.version Transaction.locktime Transaction.outs
                              Transaction.ins].
  repeat split.
  - apply clearWitnesses_from_length.
  - intros i input H. apply clearWitnesses_from_nth; exact H.
  - rewrite clearWitnesses_from_idempotent. reflexivity.
Qed.

(** ** Merge *)

Lemma js_set_length (A : Type) (i : nat) :
  forall (arr : JsArray A) (v : option A),
    List.length (js_set arr i v) = Nat.max (List.length arr) (S i).
Proof.
  induction i as [| j IH]; intros [| x rest] v; cbn [js_set List.length].
  - reflexivity.
  - lia.
  - rewrite IH. cbn [List.length]. lia.
  - rewrite IH. lia.
Qed.

Lemma js_set_set (A : Type) (i : nat) :
  forall (arr : JsArray A) (v w : option A),
    js_set (js_set arr i v) i w = js_set arr i w.
Proof.
  induction i as [| j IH]; intros [| x rest] v w; cbn [js_set]; try reflexivity.
  - rewrite IH. reflexivity.
  - rewrite IH. reflexivity.
Qed.

(** X13. [mergeSignedBuyingPSBTBase64] does not check the number of
    inputs: a buyer PSBT with at least three inputs keeps its input count,
    a shorter one is grown to three inputs, the missing slots left
    undefined.  Of the seller PSBT only input 0 is read.  Merging the same
    seller PSBT again changes nothing, and of two merges the later one
    decides slot 2. *)
Theorem merge_splice_shape (sellerPsbt sellerPsbt' buyerPsbt : Psbt.t) :
  List.length (Psbt.ins (spliceSellerInput sellerPsbt buyerPsbt))
    = Nat.max (List.length (Psbt.ins buyerPsbt)) 3
  /\ List.length (Psbt.inputs (spliceSellerInput sellerPsbt buyerPsbt))
     = Nat.max (List.length (Psbt.inputs buyerPsbt)) 3
  /\ (js_get (Psbt.ins sellerPsbt) 0 = js_get (Psbt.ins sellerPsbt') 0 ->
      js_get (Psbt.inputs sellerPsbt) 0 = js_get (Psbt.inputs sellerPsbt') 0 ->
      spliceSellerInput sellerPsbt buyerPsbt = spliceSellerInput sellerPsbt' buyerPsbt)
  /\ spliceSellerInput sellerPsbt (spliceSellerInput sellerPsbt buyerPsbt)
     = spliceSellerInput sellerPsbt buyerPsbt
  /\ spliceSellerInput sellerPsbt' (spliceSellerInput sellerPsbt buyerPsbt)
     = spliceSellerInput sellerPsbt' buyerPsbt.
Proof.
  unfold spliceSellerInput;
    cbn [Psbt.ins Psbt.inputs Psbt.outs Psbt.outputs Psbt.version Psbt.locktime].
  split; [apply js_set_length|]. split; [apply js_set_length|].
  split; [intros -> ->; reflexivity|].
  rewrite !js_set_set. split; reflexivity.
Qed.

(** X14. The listing PSBT and the buying PSBT generated from one listing
    name the same outpoint: merging the two leaves the inputs of the
    unsigned transaction as the buyer's PSBT has them, the seller's outpoint
    standing at index [BUYING_PSBT_SELLER_SIGNATURE_INDEX] before and after,
    and puts the seller's input map, with sighash type 131, into that
    slot. *)
Theorem merge_of_generated_psbts
    (listing : IListingState.t) (feeProvider : IFeeProvider)
    (sellerRpc buyerRpc : option IRPCProvider) (platformFeeAddress : option string)
    (sellerPsbt buyerPsbt : Psbt.t) (buyer : Buyer.t) :
  listingPsbt listing sellerRpc = Return sellerPsbt ->
  buyingPsbt listing feeProvider buyerRpc platformFeeAddress = Return (buyer, buyerPsbt) ->
  Psbt.ins (spliceSellerInput sellerPsbt buyerPsbt) = Psbt.ins buyerPsbt
  /\ List.length (Psbt.inputs (spliceSellerInput sellerPsbt buyerPsbt))
     = List.length (Psbt.inputs buyerPsbt)
  /\ exists sellerMap,
       js_get (Psbt.inputs (spliceSellerInput sellerPsbt buyerPsbt))
         BUYING_PSBT_SELLER_SIGNATURE_INDEX = Some sellerMap
       /\ js_get (Psbt.inputs sellerPsbt) 0 = Some sellerMap
       /\ PsbtInput.sighashType sellerMap = Some 131.
Proof.
  intros Hs Hb.
  destruct (buyingPsbt_parts _ _ _ _ Hb)
    as (p0 & total & rate & _ & Hp0 & _ & Hins & Hinputs & _).
  destruct (buyingPsbtBeforeChange_ins _ _ _ Hp0)
    as (b & d1 & d2 & payments & vout & maps & _ & _ & _ & Hvout & Hins0
        & Hmaps & Hlen & _).
  unfold listingPsbt in Hs.
  bind_inv Hs as tx Htx. bind_inv Hs as p1 Hp1.
  apply addInput_ins in Hp1. destruct Hp1 as (vout' & Hvout' & Hins1 & Hmaps1).
  cbn [InputArg.index InputArg.hash] in Hvout', Hins1.
  rewrite Hvout in Hvout'. injection Hvout' as <-.
  apply addOutput_ins in Hs. destruct Hs as [Hsins Hsmaps].
  unfold spliceSellerInput; cbn [Psbt.ins Psbt.inputs].
  rewrite Hsins, Hins1, Hsmaps, Hmaps1, Hins, Hins0, Hinputs, Hmaps.
  cbn [Psbt.empty Psbt.ins Psbt.inputs push app js_get nth_error map].
  split; [reflexivity|]. split.
  - rewrite js_set_length, length_map, Hlen.
    unfold BUYING_PSBT_SELLER_SIGNATURE_INDEX. lia.
  - eexists. split; [apply js_get_set_same|]. split; reflexivity.
Qed.

(** ** Messages of the listing verification *)

Lemma verifyTaprootInput_message (input : PsbtInput.t) :
  taprootWitnessPresent (Some input) = false ->
  exists m,
    signatureComplaint m
    /\ verifyTaprootInput (Some input) = Throw (InvalidArgumentError (Msg m)).
Proof.
  unfold taprootWitnessPresent, verifyTaprootInput, signatureComplaint.
  destruct (isSome (PsbtInput.tapInternalKey input)); [|discriminate].
  destruct (PsbtInput.finalScriptWitness input) as [w|].
  2:{ intros _. eexists. split; [right; left; reflexivity | reflexivity]. }
  destruct (Nat.ltb 0 (List.length w)).
  2:{ intros _. eexists. split; [right; left; reflexivity | reflexivity]. }
  destruct (toHex w =? "0141")%string; [|discriminate].
  intros _. eexists. split; [right; right; reflexivity | reflexivity].
Qed.

Lemma forEach_verifyTaprootInput_message (inputs : JsArray PsbtInput.t) :
  Forall (fun i => isSome i = true) inputs ->
  forallb taprootWitnessPresent inputs = false ->
  exists m,
    signatureComplaint m
    /\ forEach verifyTaprootInput inputs = Throw (InvalidArgumentError (Msg m)).
Proof.
  induction 1 as [| input rest Hin _ IH]; [discriminate|].
  cbn [forallb forEach]. destruct input as [input|]; [|discriminate Hin].
  destruct (taprootWitnessPresent (Some input)) eqn:Hpresent; cbn [andb]; intros Hrest.
  - destruct (verifyTaprootInput_cases input) as [[_ ->] | [Hfalse _]].
    + cbn [bind]. apply IH; exact Hrest.
    + rewrite Hpresent in Hfalse. discriminate Hfalse.
  - destruct (verifyTaprootInput_message input Hpresent) as (m & Hm & ->).
    exists m. split; [exact Hm | reflexivity].
Qed.

(** X15. When the PSBT of the request parses and has at least one output,
    and the library and the providers answer, [verifySignedListingPSBTBase64]
    reports the first check that fails, in the order signature, input count,
    token, price, receive address, seller address: a failed signature check
    gives one of the three [Invalid signature] texts, and the later checks
    give [Invalid number of inputs], [Invalid tokenId], [Invalid price],
    [Invalid sellerReceiveAddress] and [Invalid seller address]. *)
Theorem verify_reports_first_failed_check
    (req : IOrdAPIPostPSBTListing.t) (config : SignerConfig.t) (psbt : Psbt.t)
    (analyzeResult : option AnalyzeResult.t) (item : option IOrdItem.t)
    (makerFeeBp : Z) (sellerAddressFromPSBT : string) :
  listingObserved req config psbt analyzeResult item makerFeeBp sellerAddressFromPSBT ->
  parsedShape psbt ->
  Psbt.txOutputs psbt <> [] ->
  let verdict := verifySignedListingPSBTBase64 req config in
  let complaint := fun m => verdict = Throw (InvalidArgumentError (Msg m)) in
  (check_signature psbt analyzeResult = false
   /\ exists m, signatureComplaint m /\ complaint m)
  \/ (check_signature psbt analyzeResult = true
      /\ ((check_inputCount psbt = false /\ complaint "Invalid number of inputs")
          \/ (check_inputCount psbt = true
              /\ ((check_identity req item = false /\ complaint "Invalid tokenId")
                  \/ (check_identity req item = true
                      /\ ((check_price req psbt item makerFeeBp = false
                           /\ complaint "Invalid price")
                          \/ (check_price req psbt item makerFeeBp = true
                              /\ ((check_receiveAddress req psbt = false
                                   /\ complaint "Invalid sellerReceiveAddress")
                                  \/ (check_receiveAddress req psbt = true
                                      /\ ((check_sellerAddress item sellerAddressFromPSBT
                                           = false
                                           /\ complaint "Invalid seller address")
                                          \/ (check_sellerAddress item
                                                sellerAddressFromPSBT = true
                                              /\ verdict = Return tt))))))))))).
Proof.
  intros (Hparse & Hanalyze & Hrest) Hshape Houts verdict complaint.
  subst verdict complaint. cbv beta.
  unfold verifySignedListingPSBTBase64. rewrite Hparse. cbn [await bind].
  unfold check_signature.
  destruct (forallb taprootWitnessPresent (Psbt.inputs psbt)) eqn:Hall.
  2:{ left. split; [reflexivity|].
      destruct (forEach_verifyTaprootInput_message (proj2 (proj2 Hshape)) Hall)
        as (m & Hm & ->).
      exists m. split; [exact Hm | reflexivity]. }
  pose proof (forEach_verifyTaprootInput (proj2 (proj2 Hshape))) as Htap.
  rewrite Hall in Htap. rewrite Htap. cbn [bind andb].
  rewrite Hanalyze. cbn [await bind].
  rewrite reportsFinal_notFinal.
  destruct (notFinal analyzeResult); cbn [negb].
  { left. split; [reflexivity|].
    exists "Invalid signature". split; [left; reflexivity | reflexivity]. }
  right. split; [reflexivity|].
  unfold check_inputCount.
  destruct (Nat.eqb (Psbt.inputCount psbt) 1) eqn:Hcount; cbn [negb].
  2:{ left. split; reflexivity. }
  right. split; [reflexivity|].
  apply Nat.eqb_eq in Hcount.
  destruct (parsedShape_first_input Hshape Hcount) as [in0 Hin0].
  rewrite Hin0.
  destruct (Hrest in0 Hin0) as [Htoken Hitem]. cbn zeta in Htoken.
  rewrite Htoken. cbn [await bind].
  unfold check_identity.
  destruct item as [ordItem|]; [|left; split; reflexivity].
  destruct (IOrdItem.id ordItem =? IOrdAPIPostPSBTListing.tokenId req)%string;
    cbn [negb].
  2:{ left. split; reflexivity. }
  right. split; [reflexivity|].
  destruct (Hitem ordItem eq_refl)
    as [Hfee (txHex & tx & prevOut & Hraw & Hhex & Hout & Haddr)].
  assert (Hmaker :
            match SignerConfig.marketplaceFeeProvider config with
            | Some p => await (getMakerFeeBp p (IOrdItem.owner ordItem))
            | None => Return 0
            end = Return makerFeeBp).
  { destruct (SignerConfig.marketplaceFeeProvider config); rewrite Hfee; reflexivity. }
  rewrite Hmaker. cbn [bind].
  unfold check_price, check_receiveAddress, check_sellerAddress.
  destruct (at_index (Psbt.txOutputs psbt) 0) as [output|] eqn:Hout0.
  2:{ exfalso. unfold at_index in Hout0.
      destruct (Psbt.txOutputs psbt); [apply Houts; reflexivity | discriminate Hout0]. }
  destruct (PsbtTxOutput.value output =? _); cbn [negb].
  2:{ left. split; reflexivity. }
  right. split; [reflexivity|].
  destruct (PsbtTxOutput.address output) as [a|]; cbn [negb].
  2:{ left. split; reflexivity. }
  destruct (a =? IOrdAPIPostPSBTListing.sellerReceiveAddress req)%string; cbn [negb].
  2:{ left. split; reflexivity. }
  right. split; [reflexivity|].
  rewrite Hraw. cbn [await bind]. rewrite Hhex. cbn [await bind].
  rewrite Hout, Haddr. cbn [await bind].
  destruct (IOrdItem.owner ordItem =? sellerAddressFromPSBT)%string; cbn [negb].
  - right. split; reflexivity.
  - left. split; reflexivity.
Qed.

(** X16. The listing PSBT names the listed outpoint in the form in which
    [verifySignedListingPSBTBase64] reads it back: when the txid of
    [seller.ordItem.output] survives hexadecimal decoding and rendering, and
    its output index is the decimal rendering of the parsed number, the
    outpoint that the verification computes from input 0 (the txid of the
    reversed hash, a colon, the index) is [seller.ordItem.output] itself. *)
Theorem listing_outpoint_round_trip
    (listing : IListingState.t) (rpcProvider : option IRPCProvider) (psbt : Psbt.t) :
  listingPsbt listing rpcProvider = Return psbt ->
  toHex (Buffer_from_hex (ordinalUtxoTxId listing)) = ordinalUtxoTxId listing ->
  (forall vout,
      parseInt (ordinalUtxoVout listing) = Some vout ->
      IOrdItem.output (Seller.ordItem (IListingState.seller listing))
      = (ordinalUtxoTxId listing ++ ":" ++ string_of_Z vout)%string) ->
  exists txInput0,
    js_get (Psbt.txInputs psbt) 0 = Some txInput0
    /\ (generateTxidFromHash (TxIn.hash txInput0) ++ ":"
        ++ string_of_Z (TxIn.index txInput0))%string
       = IOrdItem.output (Seller.ordItem (IListingState.seller listing)).
Proof.
  intros Hpsbt Hhex Hcanonical.
  unfold listingPsbt in Hpsbt.
  bind_inv Hpsbt as tx Htx. bind_inv Hpsbt as p1 Hp1.
  apply addInput_ins in Hp1. destruct Hp1 as (vout & Hvout & Hins1 & _).
  cbn [InputArg.index InputArg.hash] in Hvout, Hins1.
  apply addOutput_ins in Hpsbt. destruct Hpsbt as [Hins _].
  exists (outpointIn (ordinalUtxoTxId listing) vout).
  unfold Psbt.txInputs. rewrite Hins, Hins1.
  split; [reflexivity|].
  unfold generateTxidFromHash, outpointIn. cbn [TxIn.hash TxIn.index].
  rewrite rev_involutive, Hhex. symmetry. apply Hcanonical. exact Hvout.
Qed.

(** ** Fee providers *)

Ltac tier_cases tier :=
  destruct (String.eqb_spec tier "fastestFee") as [-> | ?]; [reflexivity|];
  destruct (String.eqb_spec tier "halfHourFee") as [-> | ?]; [reflexivity|];
  destruct (String.eqb_spec tier "hourFee") as [-> | ?]; [reflexivity|];
  destruct (String.eqb_spec tier "minimumFee") as [-> | ?]; reflexivity.

Lemma knownTier_false (tier : string) :
  knownTier tier = false ->
  (tier =? "fastestFee")%string = false /\ (tier =? "halfHourFee")%string = false
  /\ (tier =? "hourFee")%string = false /\ (tier =? "minimumFee")%string = false.
Proof.
  unfold knownTier. intros H.
  apply orb_false_elim in H. destruct H as [H H4].
  apply orb_false_elim in H. destruct H as [H H3].
  apply orb_false_elim in H. destruct H as [H1 H2].
  repeat split; assumption.
Qed.

(** X17. A [StaticFeeProvider] answers every tier with a number once it is
    constructed: the rate given for the tier, or 20, 10, 5 and 1 for
    [fastestFee], [halfHourFee], [hourFee] and [minimumFee] when the rate is
    absent or [undefined].  [setFees] overwrites exactly the rates that the
    update holds, an [undefined] included, and an empty update changes
    nothing.  A tier outside the four names is answered as [hourFee], by the
    static provider and by [MempoolProvider] alike, and [MempoolProvider]
    hands on the failure of its API. *)
Theorem static_fee_provider_tiers
    (initial update : PartialFees.t) (provider : StaticFeeProvider.t)
    (mempool : MempoolProvider.t) (feeRateTier : string) :
  StaticFeeProvider.getFees (StaticFeeProvider.new initial) feeRateTier
    = Some (nullish_or (selectedFee initial feeRateTier) (defaultRate feeRateTier))
  /\ StaticFeeProvider.getFees (StaticFeeProvider.setFees provider update) feeRateTier
     = spread (StaticFeeProvider.getFees provider feeRateTier)
         (selectedFee update feeRateTier)
  /\ StaticFeeProvider.setFees provider PartialFees.empty = provider
  /\ (knownTier feeRateTier = false ->
      StaticFeeProvider.getFees provider feeRateTier
        = StaticFeeProvider.getFees provider "hourFee"
      /\ MempoolProvider.getFees mempool feeRateTier
         = MempoolProvider.getFees mempool "hourFee")
  /\ (forall reason,
         MempoolProvider.getFeesRecommended mempool = Failure reason ->
         MempoolProvider.getFees mempool feeRateTier = Failure reason).
Proof.
  split; [|split; [|split; [|split]]].
  - unfold StaticFeeProvider.getFees, StaticFeeProvider.new, selectedFee, defaultRate.
    cbn [StaticFeeProvider.fees FeesRecommended.fastestFee FeesRecommended.halfHourFee
         FeesRecommended.hourFee FeesRecommended.minimumFee].
    tier_cases feeRateTier.
  - unfold StaticFeeProvider.getFees, StaticFeeProvider.setFees, selectedFee.
    cbn [StaticFeeProvider.fees FeesRecommended.fastestFee FeesRecommended.halfHourFee
         FeesRecommended.hourFee FeesRecommended.minimumFee].
    tier_cases feeRateTier.
  - destruct provider as [[fastest halfHour hour minimum]]. reflexivity.
  - intros Hunknown. apply knownTier_false in Hunknown.
    destruct Hunknown as (H1 & H2 & H3 & H4).
    unfold StaticFeeProvider.getFees, MempoolProvider.getFees.
    rewrite H1, H2, H3, H4. cbn.
    destruct (MempoolProvider.getFeesRecommended mempool); split; reflexivity.
  - intros reason H. unfold MempoolProvider.getFees. rewrite H. reflexivity.
Qed.

(** ** The registry of chains *)



Lemma own_property_In (A : Type) (key : string) (entries : list (string * A)) (v : A) :
  own_property key entries = Some v -> In (key, v) entries.
Proof.
  induction entries as [| [k w] rest IH]; cbn [own_property]; [discriminate|].
  destruct (String.eqb_spec key k) as [-> | Hne]; intros H.
  - injection H as <-. left; reflexivity.
  - right. apply IH; exact H.
Qed.

Lemma unique_from_spec (names : list string) :
  forall seen,
    NoDup (unique_from seen names)
    /\ (forall n, In n (unique_from seen names) <-> In n names /\ ~ In n seen).
Proof.
  induction names as [| x rest IH]; intros seen; cbn [unique_from].
  - split; [constructor|]. intros n. cbn. tauto.
  - destruct (existsb (String.eqb x) seen) eqn:Hseen.
    + destruct (IH seen) as [Hnodup Hin]. split; [exact Hnodup|].
      intros n. rewrite Hin. cbn [In]. split; [tauto|].
      intros [[<- | Hn] Hnot]; [|tauto].
      exfalso. apply Hnot.
      apply existsb_exists in Hseen. destruct Hseen as (y & Hy & Hxy).
      apply String.eqb_eq in Hxy. subst y. exact Hy.
    + destruct (IH (x :: seen)) as [Hnodup Hin].
      assert (Hfresh : ~ In x seen).
      { intros Hx. assert (Hsome : existsb (String.eqb x) seen = true).
        { apply existsb_exists. exists x. split; [exact Hx | apply String.eqb_refl]. }
        rewrite Hsome in Hseen. discriminate Hseen. }
      split.
      * constructor; [|exact Hnodup].
        rewrite Hin. cbn [In]. tauto.
      * intros n. cbn [In]. rewrite Hin. cbn [In].
        destruct (String.eqb_spec x n) as [<- | Hne]; [tauto|]. tauto.
Qed.

Lemma getAddressType_p2sh_exclusive (address : string) (network : Network.t) :
  Network.pubKeyHash network <> Network.scriptHash network ->
  getAddressType address network = p2sh <-> isP2SHAddress address network = true.
Proof.
  intros Hne. rewrite getAddressType_p2sh.
  split; [intros [_ H]; exact H|].
  intros H. split; [|exact H].
  unfold isP2SHAddress, isP2PKHAddress in *.
  destruct (fromBase58Check address) as [[version hash]|]; [|reflexivity].
  apply andb_prop in H. destruct H as [Hv _]. apply Z.eqb_eq in Hv. subst version.
  replace (Network.scriptHash network =? Network.pubKeyHash network) with false;
    [reflexivity|].
  symmetry. apply Z.eqb_neq. congruence.
Qed.

(** X18. Every entry of the registry [NETWORKS] is found by [getNetwork]
    under its key in any spelling of upper and lower case, and the name of
    its chain is itself a key of the same chain and one of the names that
    [getAvailableNetworks] lists, each once.  A registered chain that
    supports taproot supports segwit, one that supports segwit has a
    human-readable part, and its two base58 version bytes differ, so that on
    a registered chain an address is typed [p2sh] exactly when
    [isP2SHAddress] holds. *)
Theorem network_registry (key : string) (chain : ChainNetwork.t) :
  In (key, chain) NETWORKS ->
  (forall name, toLowerCase name = key -> getNetwork name = NetworkFound chain)
  /\ getNetwork (ChainNetwork.name chain) = NetworkFound chain
  /\ In (ChainNetwork.name chain) getAvailableNetworks
  /\ NoDup getAvailableNetworks
  /\ (ChainNetwork.supportsTaproot chain = true -> ChainNetwork.supportsSegwit chain = true)
  /\ (ChainNetwork.supportsSegwit chain = true ->
      truthy (Network.bech32 (ChainNetwork.network chain)) = true)
  /\ (forall address,
         getAddressType address (ChainNetwork.network chain) = p2sh
         <-> isP2SHAddress address (ChainNetwork.network chain) = true).
Proof.
  intros HIn.
  assert (Hnodup : NoDup getAvailableNetworks)
    by (apply (unique_from_spec _ [])).
  unfold NETWORKS in HIn. cbn [In] in HIn.
  repeat (destruct HIn as [HIn | HIn]); try contradiction; injection HIn as <- <-;
    (split; [intros name Hname; unfold getNetwork; rewrite Hname; reflexivity|]);
    (split; [reflexivity|]);
    (split; [vm_compute; repeat (first [left; reflexivity | right])|]);
    (split; [exact Hnodup|]);
    (split; [cbn; intros H; first [reflexivity | discriminate H]|]);
    (split; [cbn; intros H; first [reflexivity | discriminate H]|]);
    intros address; apply getAddressType_p2sh_exclusive; discriminate.
Qed.


(** ** Configuration *)

(** X20. [createSignerConfig] given a chain object never throws and takes
    the network of the chain.  Given a name it reads the registry without
    changing the case: a key of the registry gives the network of its chain,
    a name that is neither a key nor a member inherited from
    [Object.prototype] is turned down with [InvalidArgumentError], so is
    every name holding an upper-case letter apart from inherited members,
    and an inherited member gives a configuration without network.  The
    call throws nothing else, and every configuration it returns holds the
    providers as given and [PLATFORM_FEE_ADDRESS]. *)
Theorem createSignerConfig_cases
    (chainNetwork : ChainArgument) (rpcProvider : IRPCProvider)
    (feeProvider : IFeeProvider) (itemProvider : IItemProvider)
    (marketplaceFeeProvider : option IMarketplaceFeeProvider) :
  let created :=
    createSignerConfig chainNetwork rpcProvider feeProvider itemProvider
      marketplaceFeeProvider in
  let unknown := fun name =>
    created = Throw (InvalidArgumentError (Msg ("Unknown network: " ++ name))) in
  (forall chain,
      chainNetwork = ByObject chain \/
      (exists name, chainNetwork = ByName name /\ In (name, chain) NETWORKS) ->
      exists config,
        created = Return config
        /\ SignerConfigObject.network config = Some (ChainNetwork.network chain))
  /\ (forall name,
         chainNetwork = ByName name ->
         (get_member NETWORKS name = NoMember -> unknown name)
         /\ (toLowerCase name <> name -> In name Object_prototype_keys \/ unknown name)
         /\ (In name Object_prototype_keys ->
             exists config,
               created = Return config /\ SignerConfigObject.network config = None))
  /\ (forall e, created = Throw e ->
                exists name, chainNetwork = ByName name /\ unknown name)
  /\ (forall config,
         created = Return config ->
         SignerConfigObject.rpcProvider config = rpcProvider
         /\ SignerConfigObject.feeProvider config = feeProvider
         /\ SignerConfigObject.itemProvider config = itemProvider
         /\ SignerConfigObject.marketplaceFeeProvider config = marketplaceFeeProvider
         /\ SignerConfigObject.platformFeeAddress config = PLATFORM_FEE_ADDRESS).
Proof.
  intros created unknown. subst created unknown. cbv beta.
  assert (Hkeys : forall name chain,
             In (name, chain) NETWORKS ->
             own_property name NETWORKS = Some chain /\ toLowerCase name = name).
  { intros name chain HIn. unfold NETWORKS in HIn. cbn [In] in HIn.
    repeat (destruct HIn as [HIn | HIn]); try contradiction; injection HIn as <- <-;
      split; reflexivity. }
  assert (Hproto : forall name,
             In name Object_prototype_keys -> get_member NETWORKS name = Inherited).
  { intros name HIn. unfold Object_prototype_keys in HIn. cbn [In] in HIn.
    repeat (destruct HIn as [HIn | HIn]); try contradiction; subst name; reflexivity. }
  unfold createSignerConfig.
  split; [|split; [|split]].
  - intros chain [-> | (name & -> & HIn)].
    + eexists. split; reflexivity.
    + destruct (Hkeys _ _ HIn) as [Hown _]. unfold get_member. rewrite Hown.
      eexists. split; reflexivity.
  - intros name ->. split; [|split].
    + intros ->. reflexivity.
    + intros Hcase. unfold get_member.
      destruct (own_property name NETWORKS) as [chain|] eqn:Hown.
      * exfalso. apply Hcase. apply own_property_In in Hown.
        exact (proj2 (Hkeys _ _ Hown)).
      * destruct (existsb (String.eqb name) Object_prototype_keys) eqn:Hex.
        -- left. apply existsb_exists in Hex. destruct Hex as (k & Hk & Heq).
           apply String.eqb_eq in Heq. subst k. exact Hk.
        -- right. reflexivity.
    + intros HIn. rewrite (Hproto _ HIn). eexists. split; reflexivity.
  - intros e H. destruct chainNetwork as [chain | name]; [discriminate H|].
    exists name. split; [reflexivity|].
    destruct (get_member NETWORKS name); try discriminate H. reflexivity.
  - intros config H.
    destruct (match chainNetwork with
              | ByObject chain => Own chain
              | ByName name => get_member NETWORKS name
              end); try discriminate H; injection H as <-; repeat split; reflexivity.
Qed.

(** X21. The runtime constants are the defaults 600, 1000, 580 and 10000
    and an empty platform fee address when none of the five variables is
    set, or when they are set to the empty string.  A variable holding a
    text that is not empty replaces the default by its conversion to a
    number, whatever the text, and [getEnvString] gives the default exactly
    for a variable that is unset or empty. *)
Theorem runtime_constants_defaults (env : Environment) (key : string) (defaultValue : Z)
    (defaultText : string) :
  ((forall variable, In variable runtimeVariables -> truthy_opt (env variable) = false) ->
   runtimeConstants env = Some defaultConstants)
  /\ (truthy_opt (env key) = false ->
      getEnvNumber env key defaultValue = Some defaultValue
      /\ getEnvString env key defaultText = defaultText)
  /\ (forall value,
         env key = Some value -> truthy value = true ->
         getEnvNumber env key defaultValue = Number (Some value)
         /\ getEnvString env key defaultText = value).
Proof.
  assert (Hunset : forall k d, truthy_opt (env k) = false -> getEnvNumber env k d = Some d).
  { intros k d H. unfold getEnvNumber. destruct (env k) as [value|]; [|reflexivity].
    cbn [truthy_opt] in H. rewrite H. reflexivity. }
  split; [|split].
  - intros Hall. unfold runtimeConstants, getEnvString, or_else.
    rewrite !Hunset by (apply Hall; unfold runtimeVariables; cbn [In]; tauto).
    rewrite (Hall "PLATFORM_FEE_ADDRESS")
      by (unfold runtimeVariables; cbn [In]; tauto).
    reflexivity.
  - intros H. split; [apply Hunset; exact H|].
    unfold getEnvString, or_else. rewrite H. reflexivity.
  - intros value Hkey Hvalue. unfold getEnvNumber, getEnvString, or_else.
    rewrite Hkey. cbn [truthy_opt]. rewrite Hvalue. split; reflexivity.
Qed.

(** X22. The default RPC client is built from the environment at most
    once: the first [getDefaultRPC] on a fresh module builds it, with
    [http://localhost], port 8332, user [__cookie__], an empty password and a
    timeout of 120000 when no variable is set, and every later call returns
    that instance whatever the environment has become.  After
    [setDefaultRPC] the instance given is returned and the environment is
    not read. *)
Theorem default_rpc_singleton
    (toNumber : option string -> option Z) (env env' : Environment)
    (defaultInstance : option FullnodeRPC.t) (instance : FullnodeRPC.t) :
  (forall first after,
      FullnodeRPC.getDefaultRPC toNumber env defaultInstance = (first, after) ->
      FullnodeRPC.getDefaultRPC toNumber env' after = (first, after)
      /\ after = Some first
      /\ (defaultInstance = None -> first = FullnodeRPC.fromEnv toNumber env))
  /\ FullnodeRPC.getDefaultRPC toNumber env
       (FullnodeRPC.setDefaultRPC instance defaultInstance)
     = (instance, Some instance)
  /\ ((forall variable, env variable = None) ->
      FullnodeRPC.fromEnv toNumber env
      = {| FullnodeRPC.host := "http://localhost";
           FullnodeRPC.port := Some 8332;
           FullnodeRPC.user := "__cookie__";
           FullnodeRPC.pass := EmptyString;
           FullnodeRPC.timeout := Some 120000 |})
  /\ (env "BITCOIN_RPC_PORT" = Some EmptyString ->
      FullnodeRPC.port (FullnodeRPC.fromEnv toNumber env) = toNumber (Some EmptyString)).
Proof.
  split; [|split; [|split]].
  - intros first after H. unfold FullnodeRPC.getDefaultRPC in H.
    destruct defaultInstance as [i|]; injection H as <- <-;
      repeat split; try reflexivity.
    intros H; discriminate H.
  - reflexivity.
  - intros Hunset. unfold FullnodeRPC.fromEnv, or_else. rewrite !Hunset. reflexivity.
  - intros Hport. unfold FullnodeRPC.fromEnv. cbn [FullnodeRPC.port].
    rewrite Hport. reflexivity.
Qed.

(** ** The selections and the PSBTs together *)

Lemma In_firstn (A : Type) (n : nat) :
  forall (l : list A) (x : A), In x (firstn n l) -> In x l.
Proof.
  induction n as [| m IH]; intros [| y rest] x H; cbn [firstn] in H;
    try contradiction.
  destruct H as [<- | H]; [left; reflexivity | right; apply IH; exact H].
Qed.

Lemma selectDummyUTXOs_in_range (utxos : list AddressTxsUtxo.t)
    (itemProvider : IItemProvider) (rpcProvider : option IRPCProvider)
    (found : list MappedUtxo.t) :
  selectDummyUTXOs utxos itemProvider rpcProvider = Return (Some found) ->
  exists d1 d2,
    found = [d1; d2]
    /\ DUMMY_UTXO_MIN_VALUE <= MappedUtxo.value d1 <= DUMMY_UTXO_MAX_VALUE
    /\ DUMMY_UTXO_MIN_VALUE <= MappedUtxo.value d2 <= DUMMY_UTXO_MAX_VALUE
    /\ cleanMapped itemProvider rpcProvider d1 = true
    /\ cleanMapped itemProvider rpcProvider d2 = true.
Proof.
  unfold selectDummyUTXOs; intros H.
  apply selectDummyUTXOs_loop_some in H; [|cbn; lia].
  destruct H as [Hlen Hmap]. cbn [map app List.length Nat.sub] in Hmap.
  destruct found as [| d1 [| d2 [| d3 more]]]; try discriminate Hlen.
  assert (Hcand : forall m, In m [d1; d2] ->
                    dummyCandidate itemProvider rpcProvider (asAddressTxsUtxo m) = true).
  { intros m Hm. apply (in_map asAddressTxsUtxo) in Hm. rewrite Hmap in Hm.
    apply In_firstn in Hm. apply filter_In in Hm. exact (proj2 Hm). }
  assert (Hrange : forall m, In m [d1; d2] ->
                     DUMMY_UTXO_MIN_VALUE <= MappedUtxo.value m <= DUMMY_UTXO_MAX_VALUE
                     /\ cleanMapped itemProvider rpcProvider m = true).
  { intros m Hm. specialize (Hcand m Hm). unfold dummyCandidate in Hcand.
    apply andb_prop in Hcand. destruct Hcand as [Hclean Hr].
    apply andb_prop in Hr. destruct Hr as [Hlo Hhi].
    apply Z.leb_le in Hlo, Hhi. cbn [asAddressTxsUtxo AddressTxsUtxo.value] in Hlo, Hhi.
    split; [lia | exact Hclean]. }
  exists d1, d2.
  destruct (Hrange d1 (or_introl eq_refl)) as [H1 C1].
  destruct (Hrange d2 (or_intror (or_introl eq_refl))) as [H2 C2].
  repeat split; solve [assumption | lia].
Qed.

(** X23. The dummies that [selectDummyUTXOs] returns fit
    [generateUnsignedBuyingPSBTBase64]: they are two, so the count check
    passes, and when the buyer's [buyerDummyUTXOs] holds them, output 0 of
    the assembled PSBT lies between twice [DUMMY_UTXO_MIN_VALUE] and twice
    [DUMMY_UTXO_MAX_VALUE], the inscription's offset added to both. *)
Theorem selected_dummies_bound_output_0
    (utxos : list AddressTxsUtxo.t) (itemProvider : IItemProvider)
    (selectionRpc rpcProvider : option IRPCProvider) (found : list MappedUtxo.t)
    (listing : IListingState.t) (feeProvider : IFeeProvider)
    (platformFeeAddress : option string) (buyer : Buyer.t) (psbt : Psbt.t) :
  selectDummyUTXOs utxos itemProvider selectionRpc = Return (Some found) ->
  buyingPsbt listing feeProvider rpcProvider platformFeeAddress = Return (buyer, psbt) ->
  Buyer.buyerDummyUTXOs buyer = Some found ->
  List.length found = 2%nat
  /\ exists offset output0,
       offsetOf listing = Some offset
       /\ at_index (Psbt.txOutputs psbt) 0 = Some output0
       /\ PsbtTxOutput.address output0 = Some (Buyer.buyerAddress buyer)
       /\ 2 * DUMMY_UTXO_MIN_VALUE + offset
          <= PsbtTxOutput.value output0
          <= 2 * DUMMY_UTXO_MAX_VALUE + offset.
Proof.
  intros Hsel Hpsbt Hfound.
  apply selectDummyUTXOs_in_range in Hsel.
  destruct Hsel as (d1 & d2 & -> & H1 & H2 & _ & _).
  split; [reflexivity|].
  apply buyingPsbt_outs in Hpsbt.
  destruct Hpsbt as (e1 & e2 & offset & change & _ & _ & _ & Hd & Hoff & _ & Houts).
  rewrite Hfound in Hd. injection Hd as <- <-.
  exists offset, (txOutput (Buyer.buyerAddress buyer)
                    (MappedUtxo.value d1 + MappedUtxo.value d2 + offset)).
  split; [exact Hoff|].
  unfold Psbt.txOutputs. rewrite Houts.
  split; [reflexivity|]. split; [reflexivity|].
  cbn [txOutput PsbtTxOutput.value]. lia.
Qed.



(** ** Edge cases of the buying PSBT *)

(** X26. A buyer who pays from a P2SH address must give a public key:
    without one, [generateUnsignedBuyingPSBTBase64] fails with a [TypeError]
    at the first dummy input and leaves the listing as it was.  With one,
    every buyer input carries the P2WPKH script of the key as redeem script
    and, as witness UTXO, the P2SH script over it with the value of the
    UTXO. *)
Theorem p2sh_buyer_needs_public_key
    (listing : IListingState.t) (feeProvider : IFeeProvider)
    (rpcProvider : option IRPCProvider) (platformFeeAddress : option string)
    (buyer : Buyer.t) (d1 d2 : MappedUtxo.t) (payments : list AddressTxsUtxo.t) :
  IListingState.buyer listing = Some buyer ->
  truthy (Buyer.buyerAddress buyer) = true ->
  truthy (Buyer.buyerTokenReceiveAddress buyer) = true ->
  Buyer.buyerDummyUTXOs buyer = Some [d1; d2] ->
  Buyer.buyerPaymentUTXOs buyer = Some payments ->
  isP2SHAddress (Buyer.buyerAddress buyer) (IListingState.network listing) = true ->
  (Buyer.buyerPublicKey buyer = None ->
   generateUnsignedBuyingPSBTBase64 listing feeProvider rpcProvider platformFeeAddress
   = (listing, Throw TypeError))
  /\ (forall utxo input,
         buyerInput buyer (IListingState.network listing) utxo = Return input ->
         exists key redeemScript p2shOutput,
           Buyer.buyerPublicKey buyer = Some key
           /\ p2wpkh_output (Buffer_from_hex key) = Answer redeemScript
           /\ p2sh_output redeemScript = Answer p2shOutput
           /\ InputArg.redeemScript input = Some redeemScript
           /\ InputArg.witnessUtxo input
              = Some {| TxOut.script := p2shOutput;
                        TxOut.value := MappedUtxo.value utxo |}).
Proof.
  intros Hb Ha Ht Hd Hpay Hp2sh. split.
  - intros Hkey.
    unfold generateUnsignedBuyingPSBTBase64, buyingPsbt, buyingPsbtBeforeChange.
    rewrite Hb, Ha, Ht, Hd, Hpay. cbn [negb orb List.length Nat.eqb addDummyInputs].
    unfold buyerInput. rewrite Hp2sh, Hkey. reflexivity.
  - intros utxo input H. unfold buyerInput in H. rewrite Hp2sh in H.
    unfold p2shWrappedSegwit in H.
    destruct (Buyer.buyerPublicKey buyer) as [key|]; [|discriminate H].
    destruct (p2wpkh_output (Buffer_from_hex key)) as [redeemScript | r1] eqn:Hredeem;
      [|discriminate H].
    cbn [await bind] in H.
    destruct (p2sh_output redeemScript) as [p2shOutput | r2] eqn:Hscript;
      [|discriminate H].
    cbn [await bind] in H. injection H as <-.
    exists key, redeemScript, p2shOutput.
    split; [reflexivity|]. split; [exact Hredeem|]. split; [exact Hscript|].
    split; reflexivity.
Qed.

(** ** Kinds of failure *)

Lemma notInvalid_Return (A : Type) (a : A) : notInvalid (Return a).
Proof. intros m H. discriminate H. Qed.

Lemma notInvalid_await (A : Type) (r : response A) : notInvalid (await r).
Proof. intros m H. destruct r; discriminate H. Qed.

Lemma notInvalid_bind (A B : Type) (r : result A) (k : A -> result B) :
  notInvalid r -> (forall a, r = Return a -> notInvalid (k a)) -> notInvalid (bind r k).
Proof.
  intros Hr Hk m H. destruct r as [a | e]; cbn [bind] in H.
  - exact (Hk a eq_refl m H).
  - injection H as ->. exact (Hr m eq_refl).
Qed.

Lemma addInput_notInvalid (p : Psbt.t) (i : InputArg.t) : notInvalid (addInput p i).
Proof.
  unfold addInput. apply notInvalid_bind; [apply notInvalid_await|].
  intros u _. destruct (InputArg.index i); intros m H; discriminate H.
Qed.

Lemma addOutput_notInvalid (p : Psbt.t) (o : OutputArg.t) : notInvalid (addOutput p o).
Proof.
  unfold addOutput. apply notInvalid_bind; [apply notInvalid_await|].
  intros u _. apply notInvalid_Return.
Qed.

Lemma p2shWrappedSegwit_notInvalid (buyerPublicKey : option string) :
  notInvalid (p2shWrappedSegwit buyerPublicKey).
Proof.
  unfold p2shWrappedSegwit. destruct buyerPublicKey as [key|];
    [|intros m H; discriminate H].
  apply notInvalid_bind; [apply notInvalid_await|]. intros rs _.
  apply notInvalid_bind; [apply notInvalid_await|]. intros po _.
  apply notInvalid_Return.
Qed.

Lemma buyerInput_notInvalid (buyer : Buyer.t) (network : Network.t) (utxo : MappedUtxo.t) :
  notInvalid (buyerInput buyer network utxo).
Proof.
  unfold buyerInput. destruct (isP2SHAddress (Buyer.buyerAddress buyer) network);
    [|apply notInvalid_Return].
  apply notInvalid_bind; [apply p2shWrappedSegwit_notInvalid|].
  intros [po rs] _. apply notInvalid_Return.
Qed.

Lemma addDummyInputs_notInvalid (buyer : Buyer.t) (network : Network.t)
    (dummies : list MappedUtxo.t) :
  forall p total, notInvalid (addDummyInputs buyer network dummies p total).
Proof.
  induction dummies as [| d rest IH]; intros p total; cbn [addDummyInputs];
    [apply notInvalid_Return|].
  apply notInvalid_bind; [apply buyerInput_notInvalid|]. intros input _.
  apply notInvalid_bind; [apply addInput_notInvalid|]. intros q _. apply IH.
Qed.

Lemma mapUtxos_notInvalid (utxos : list AddressTxsUtxo.t)
    (rpcProvider : option IRPCProvider) :
  notInvalid (mapUtxos utxos rpcProvider).
Proof.
  intros m H. unfold mapUtxos in H. apply mapUtxos_loop_throws_external in H.
  destruct H as [reason H]. discriminate H.
Qed.

Lemma addPaymentInputs_notInvalid (buyer : Buyer.t) (network : Network.t)
    (rpcProvider : option IRPCProvider) (payments : list AddressTxsUtxo.t) :
  forall p total, notInvalid (addPaymentInputs buyer network rpcProvider payments p total).
Proof.
  induction payments as [| u rest IH]; intros p total; cbn [addPaymentInputs];
    [apply notInvalid_Return|].
  apply notInvalid_bind; [apply mapUtxos_notInvalid|]. intros mapped _.
  destruct (at_index mapped 0) as [m|]; [|intros msg H; discriminate H].
  apply notInvalid_bind; [apply buyerInput_notInvalid|]. intros input _.
  apply notInvalid_bind; [apply addInput_notInvalid|]. intros q _. apply IH.
Qed.

Lemma fetchOrdinalTx_notInvalid (listing : IListingState.t) (rpc : IRPCProvider)
    (txid : string) :
  notInvalid (fetchOrdinalTx listing rpc txid).
Proof.
  unfold fetchOrdinalTx.
  apply notInvalid_bind; [apply notInvalid_await|]. intros txHex _.
  apply notInvalid_bind; [apply notInvalid_await|]. intros tx _.
  apply notInvalid_Return.
Qed.

Lemma listingPsbt_notInvalid (listing : IListingState.t)
    (rpcProvider : option IRPCProvider) :
  notInvalid (listingPsbt listing rpcProvider).
Proof.
  unfold listingPsbt.
  apply notInvalid_bind; [apply fetchOrdinalTx_notInvalid|]. intros tx _.
  apply notInvalid_bind; [apply addInput_notInvalid|]. intros p _.
  apply addOutput_notInvalid.
Qed.

Lemma buyingPsbtBeforeChange_invalid (listing : IListingState.t)
    (rpcProvider : option IRPCProvider) (platformFeeAddress : option string)
    (m : Message) :
  buyingPsbtBeforeChange listing rpcProvider platformFeeAddress
    = Throw (InvalidArgumentError m) ->
  (buyerAddressUnset listing = true /\ m = Msg "Buyer address is not set")
  \/ (buyerAddressUnset listing = false /\ buyerUtxosUnset listing = true
      /\ m = Msg "Buyer address has not enough utxos").
Proof.
  unfold buyingPsbtBeforeChange, buyerAddressUnset, buyerUtxosUnset.
  destruct (IListingState.buyer listing) as [buyer|].
  2:{ intros H. injection H as <-. left. split; reflexivity. }
  destruct (negb (truthy (Buyer.buyerAddress buyer))
            || negb (truthy (Buyer.buyerTokenReceiveAddress buyer))).
  { intros H. injection H as <-. left. split; reflexivity. }
  destruct (Buyer.buyerDummyUTXOs buyer) as [dummies|].
  2:{ intros H. injection H as <-. right. repeat split; reflexivity. }
  destruct (Buyer.buyerPaymentUTXOs buyer) as [payments|].
  2:{ intros H. injection H as <-. right. split; [reflexivity|].
      split; [apply orb_true_r | reflexivity]. }
  destruct (Nat.eqb (List.length dummies) 2); cbn [negb orb isSome].
  2:{ intros H. injection H as <-. right. repeat split; reflexivity. }
  intros H. exfalso. revert H.
  apply notInvalid_bind; [apply addDummyInputs_notInvalid|]. intros [p0 t0] _.
  apply notInvalid_bind.
  { destruct (dummyValue dummies 0), (dummyValue dummies 1), (offsetOf listing);
      try (intros msg H; discriminate H). apply addOutput_notInvalid. }
  intros p1 _.
  apply notInvalid_bind; [apply addOutput_notInvalid|]. intros p2 _.
  apply notInvalid_bind.
  { unfold getSellerInputAndOutput.
    apply notInvalid_bind; [apply fetchOrdinalTx_notInvalid|]. intros tx _.
    apply notInvalid_Return. }
  intros [sellerInput sellerOutput] _.
  apply notInvalid_bind; [apply addInput_notInvalid|]. intros p3 _.
  apply notInvalid_bind; [apply addOutput_notInvalid|]. intros p4 _.
  apply notInvalid_bind; [apply addPaymentInputs_notInvalid|]. intros [p5 t5] _.
  apply notInvalid_bind.
  { destruct (_ && _); [apply addOutput_notInvalid | apply notInvalid_Return]. }
  intros p6 _.
  apply notInvalid_bind; [apply addOutput_notInvalid|]. intros p7 _.
  apply notInvalid_bind; [apply addOutput_notInvalid|]. intros p8 _.
  apply notInvalid_Return.
Qed.

Lemma buyingPsbt_invalid (listing : IListingState.t) (feeProvider : IFeeProvider)
    (rpcProvider : option IRPCProvider) (platformFeeAddress : option string)
    (m : Message) :
  buyingPsbt listing feeProvider rpcProvider platformFeeAddress
    = Throw (InvalidArgumentError m) ->
  (buyerAddressUnset listing = true /\ m = Msg "Buyer address is not set")
  \/ (buyerAddressUnset listing = false /\ buyerUtxosUnset listing = true
      /\ m = Msg "Buyer address has not enough utxos")
  \/ (cannotCoverOutputs listing feeProvider rpcProvider platformFeeAddress
      /\ exists required missing,
           m = NotEnoughFundsToBuy (Seller.price (IListingState.seller listing))
                 required missing
           /\ 0 < missing).
Proof.
  unfold buyingPsbt; intros H.
  destruct (buyingPsbtBeforeChange listing rpcProvider platformFeeAddress)
    as [[p0 total] | e] eqn:Hp0; cbn [bind] in H.
  2:{ injection H as ->. apply buyingPsbtBeforeChange_invalid in Hp0.
      destruct Hp0 as [H | H]; [left; exact H | right; left; exact H]. }
  right; right.
  destruct (IListingState.buyer listing) as [buyer|] eqn:Hb; [|discriminate H].
  destruct (buyingFee buyer feeProvider p0) as [fee | e] eqn:Hfee; cbn [bind] in H.
  2:{ exfalso. injection H as ->. unfold buyingFee, calculateTxBytesFee in Hfee.
      revert Hfee. apply notInvalid_bind; [apply notInvalid_await|].
      intros rate _. apply notInvalid_Return. }
  destruct (total - sumOutputs p0 - fee <? 0) eqn:Hneg.
  - apply Z.ltb_lt in Hneg. injection H as <-. split.
    + exists buyer, p0, total, fee. repeat split; assumption.
    + eexists. eexists. split; [reflexivity | lia].
  - exfalso. revert H. apply notInvalid_bind.
    { destruct (DUMMY_UTXO_MIN_VALUE <? _);
        [apply addOutput_notInvalid | apply notInvalid_Return]. }
    intros p1 _. apply notInvalid_Return.
Qed.

(** X28. [generateUnsignedBuyingPSBTBase64] throws [InvalidArgumentError]
    for three reasons only, each with its own text: an unset buyer address or
    token receive address, a dummy list that is missing or not of length 2 or
    a missing payment list, and funds that do not cover the outputs and the
    fee, the amount reported as missing being positive.  Every other failure
    of the call, and every failure of
    [generateUnsignedListingPSBTBase64], is a [TypeError] or a failure of the
    library or of a provider. *)
Theorem buying_psbt_invalid_argument_reasons
    (listing : IListingState.t) (feeProvider : IFeeProvider)
    (rpcProvider : option IRPCProvider) (platformFeeAddress : option string) :
  (forall listing' m,
      generateUnsignedBuyingPSBTBase64 listing feeProvider rpcProvider platformFeeAddress
        = (listing', Throw (InvalidArgumentError m)) ->
      (buyerAddressUnset listing = true /\ m = Msg "Buyer address is not set")
      \/ (buyerAddressUnset listing = false /\ buyerUtxosUnset listing = true
          /\ m = Msg "Buyer address has not enough utxos")
      \/ (cannotCoverOutputs listing feeProvider rpcProvider platformFeeAddress
          /\ exists required missing,
               m = NotEnoughFundsToBuy (Seller.price (IListingState.seller listing))
                     required missing
               /\ 0 < missing))
  /\ (forall listing' m,
         generateUnsignedListingPSBTBase64 listing rpcProvider
         <> (listing', Throw (InvalidArgumentError m))).
Proof.
  split.
  - intros listing' m H. apply (@buyingPsbt_invalid listing feeProvider rpcProvider
                                  platformFeeAddress m).
    unfold generateUnsignedBuyingPSBTBase64 in H.
    destruct (buyingPsbt listing feeProvider rpcProvider platformFeeAddress)
      as [[buyer psbt] | e]; cbn [bind] in H.
    + destruct (Psbt_toBase64 psbt); cbn in H; [discriminate H|].
      injection H as _ H. discriminate H.
    + injection H as _ ->. reflexivity.
  - intros listing' m H. unfold generateUnsignedListingPSBTBase64 in H.
    destruct (listingPsbt listing rpcProvider) as [psbt | e] eqn:Hpsbt; cbn [bind] in H.
    + destruct (Psbt_toBase64 psbt); cbn in H; [discriminate H|].
      injection H as _ H. discriminate H.
    + injection H as _ ->. exact (@listingPsbt_notInvalid listing rpcProvider m Hpsbt).
Qed.

Lemma split_colon_aux_no_colon (s : string) :
  (forall c, In c (list_ascii_of_string s) -> c <> ":"%char) ->
  forall cur, split_colon_aux cur s = [(cur ++ s)%string].
Proof.
  induction s as [| c rest IH]; intros Hno cur; cbn [split_colon_aux].
  - replace (cur ++ EmptyString)%string with cur; [reflexivity|].
    clear. induction cur as [| a cur' IHc]; [reflexivity|].
    cbn [String.append]. rewrite <- IHc. reflexivity.
  - destruct (Ascii.eqb_spec c ":"%char) as [Hc | Hc].
    + exfalso. apply (Hno c); [left; reflexivity | exact Hc].
    + rewrite IH by (intros d Hd; apply Hno; right; exact Hd).
      f_equal. clear. induction cur as [| a cur' IHc]; [reflexivity|].
      cbn [String.append]. rewrite IHc. reflexivity.
Qed.

(** X27. A listing whose [seller.ordItem.output] holds no colon names no
    output index: [parseInt] of the missing component being no number,
    neither [generateUnsignedListingPSBTBase64] nor
    [generateUnsignedBuyingPSBTBase64] builds a PSBT from it or writes to the
    listing.  The former never fails with [InvalidArgumentError], the latter
    only when the buyer's addresses or UTXO lists are unset. *)
Theorem outpoint_without_index_is_rejected
    (listing : IListingState.t) (feeProvider : IFeeProvider)
    (rpcProvider : option IRPCProvider) (platformFeeAddress : option string) :
  parseInt None = None ->
  (forall c,
      In c (list_ascii_of_string
              (IOrdItem.output (Seller.ordItem (IListingState.seller listing)))) ->
      c <> ":"%char) ->
  (exists e,
      generateUnsignedListingPSBTBase64 listing rpcProvider = (listing, Throw e)
      /\ forall m, e <> InvalidArgumentError m)
  /\ (exists e,
         generateUnsignedBuyingPSBTBase64 listing feeProvider rpcProvider
           platformFeeAddress = (listing, Throw e)
         /\ (forall m, e = InvalidArgumentError m ->
                       buyerAddressUnset listing = true
                       \/ buyerUtxosUnset listing = true)).
Proof.
  intros Hnan Hno.
  assert (Hvout : parseInt (ordinalUtxoVout listing) = None).
  { unfold ordinalUtxoVout, split_colon.
    rewrite (split_colon_aux_no_colon _ Hno). exact Hnan. }
  split.
  - unfold generateUnsignedListingPSBTBase64.
    destruct (listingPsbt listing rpcProvider) as [psbt | e] eqn:Hpsbt.
    + exfalso. unfold listingPsbt in Hpsbt.
      bind_inv Hpsbt as tx Htx. bind_inv Hpsbt as p1 Hp1.
      apply addInput_ins in Hp1. destruct Hp1 as (vout & Hv & _).
      cbn [InputArg.index] in Hv. rewrite Hvout in Hv. discriminate Hv.
    + exists e. cbn [bind]. split; [reflexivity|].
      intros m ->. exact (@listingPsbt_notInvalid listing rpcProvider m Hpsbt).
  - destruct (buyingPsbt listing feeProvider rpcProvider platformFeeAddress)
      as [[buyer psbt] | e] eqn:Hpsbt.
    + exfalso.
      destruct (buyingPsbt_parts _ _ _ _ Hpsbt) as (p0 & total & rate & _ & Hp0 & _).
      destruct (buyingPsbtBeforeChange_ins _ _ _ Hp0)
        as (b & d1 & d2 & payments & vout & maps & _ & _ & _ & Hv & _).
      rewrite Hvout in Hv. discriminate Hv.
    + exists e. split; [apply generateUnsignedBuyingPSBTBase64_failure; exact Hpsbt|].
      intros m ->. apply buyingPsbt_invalid in Hpsbt.
      destruct Hpsbt as [[H _] | [(_ & H & _) | [(buyer & p0 & total & fee & _ & Hp0 & _) _]]].
      * left; exact H.
      * right; exact H.
      * exfalso.
        destruct (buyingPsbtBeforeChange_ins _ _ _ Hp0)
          as (b & d1 & d2 & payments & vout & maps & _ & _ & _ & Hv & _).
        rewrite Hvout in Hv. discriminate Hv.
Qed.

End Signer.

(** * The properties on concrete inputs *)

(** Scenario S1: the generated PSBT pays 1200 to the buyer at output 0 and
    the postage 10000 to the token receive address at output 1. *)
Lemma buying_psbt_dummy_and_ordinal_outputs_witness :
  exists listing' psbt,
    @generateUnsignedBuyingPSBTBase64 sampleLib defaultConstants (sampleListing 200000)
      sampleFees (Some sampleRPC) (Some "platform") = (listing', Return tt)
    /\ @buyingPsbt sampleLib defaultConstants (sampleListing 200000)
         sampleFees (Some sampleRPC) (Some "platform") = Return (sampleBuyer 200000, psbt)
    /\ at_index (Psbt.txOutputs psbt) 0 = Some (txOutput "buyer" 1200)
    /\ at_index (Psbt.txOutputs psbt) 1 = Some (txOutput "buyer-ordinals" 10000).
Proof.
  pose (out := @generateUnsignedBuyingPSBTBase64 sampleLib defaultConstants
                 (sampleListing 200000) sampleFees (Some sampleRPC) (Some "platform")).
  assert (H : out = (fst out, Return tt)) by (vm_compute; reflexivity).
  destruct (@buying_psbt_dummy_and_ordinal_outputs sampleLib defaultConstants _ _ _ _ _ H)
    as (buyer & psbt & base64 & d1 & d2 & offset & Hb & Hd & Ho & Hp & _ & _ & H0 & H1).
  cbn in Hb. injection Hb as <-.
  cbn in Hd. injection Hd as <- <-.
  vm_compute in Ho. injection Ho as <-.
  exists (fst out), psbt.
  split; [exact H|]. split; [exact Hp|]. split; [exact H0 | exact H1].
Defined.



(** Scenario S4: a buyer holding 50000 satoshis in all is turned down, and
    the listing is returned as it was. *)
Lemma buying_psbt_rejections_leave_listing_unchanged_witness :
  exists message,
    @generateUnsignedBuyingPSBTBase64 sampleLib defaultConstants (sampleListing 48800)
      sampleFees (Some sampleRPC) (Some "platform")
    = (sampleListing 48800, Throw (InvalidArgumentError message)).
Proof.
  apply (@buying_psbt_rejections_leave_listing_unchanged sampleLib defaultConstants).
  right; right.
  destruct (@buyingPsbtBeforeChange sampleLib defaultConstants (sampleListing 48800)
              (Some sampleRPC) (Some "platform")) as [[psbt total] | e] eqn:Hr;
    [|vm_compute in Hr; discriminate Hr].
  exists (sampleBuyer 48800), psbt, total, 968.
  vm_compute in Hr. injection Hr as <- <-.
  repeat split; vm_compute; reflexivity.
Defined.

(** The seller's input lands in slot 2 and the payment input of slot 3
    stays. *)
Lemma merge_replaces_only_seller_slot_witness :
  exists merged,
    @mergeSignedBuyingPSBTBase64 sampleLib "signed-listing" "signed-buying" None
      = await (@Psbt_toBase64 sampleLib merged)
    /\ js_get (Psbt.ins merged) 2 = js_get (Psbt.ins signedListingPsbt) 0
    /\ js_get (Psbt.ins merged) 3 = placeholderIn 3
    /\ Psbt.outs merged = Psbt.outs signedBuyingPsbt.
Proof.
  destruct (@merge_replaces_only_seller_slot sampleLib "signed-listing" "signed-buying" None
              signedListingPsbt signedBuyingPsbt eq_refl eq_refl)
    as (merged & Hm & Hins & _ & Hframe & Houts & _).
  exists merged.
  split; [exact Hm|]. split; [exact Hins|]. split; [|exact Houts].
  assert (Hne : 3%nat <> BUYING_PSBT_SELLER_SIGNATURE_INDEX) by discriminate.
  exact (proj1 (Hframe 3%nat Hne)).
Defined.



(** The largest UTXO alone covers 8000 plus the fee of 968. *)
Lemma select_payment_utxos_policy_witness :
  @selectPaymentUTXOs sampleLib defaultConstants 8000 3 6 "hourFee" emptyIndexer sampleFees
    (Some sampleRPC) sampleWallet = Return [confirmedUtxo "d" 9000].
Proof.
  pose proof (@select_payment_utxos_policy sampleLib defaultConstants 8000 3 6 "hourFee"
                emptyIndexer sampleFees (Some sampleRPC) sampleWallet) as H.
  cbv zeta in H. destruct H as (_ & _ & _ & _ & _ & Hreturn & _).
  apply Hreturn. exists 9000. split; [reflexivity | discriminate].
Defined.

(** The sample listing passes the six checks. *)
Lemma verify_signed_listing_checks_witness :
  @verifySignedListingPSBTBase64 sampleLib (sampleRequest "signed-listing") sampleConfig
    = Return tt.
Proof.
  assert (Hobs : @listingObserved sampleLib (sampleRequest "signed-listing") sampleConfig
                   signedListingPsbt
                   (Some {| AnalyzeResult.inputs := [ {| AnalyzeInput.is_final := true |} ] |})
                   (Some sampleItem) 100 "seller-ord").
  { split; [reflexivity|]. split; [reflexivity|].
    intros txInput0 Hin. cbn in Hin. injection Hin as <-.
    split; [reflexivity|].
    intros ordItem Hitem. injection Hitem as <-.
    split; [reflexivity|].
    exists "rawtx", sampleTx, {| TxOut.script := bytes_of_hex "51"; TxOut.value := 10000 |}.
    repeat split; reflexivity. }
  assert (Hshape : parsedShape signedListingPsbt).
  { split; [reflexivity|]. split; repeat constructor. }
  assert (Houts : Psbt.txOutputs signedListingPsbt <> []) by discriminate.
  apply (proj2 (@verify_signed_listing_checks sampleLib _ _ _ _ _ _ _ Hobs Hshape Houts)).
  reflexivity.
Defined.

(** A signed listing with one input and no output: check 4 fails, and the
    call ends in a [TypeError], not in an [InvalidArgumentError]. *)
Lemma verify_signed_listing_counterexample :
  let req := sampleRequest "listing-without-output" in
  let analyzeResult :=
    Some {| AnalyzeResult.inputs := [ {| AnalyzeInput.is_final := true |} ] |} in
  @listingObserved sampleLib req sampleConfig listingPsbtWithoutOutput analyzeResult
    (Some sampleItem) 100 "seller-ord"
  /\ sixChecks req listingPsbtWithoutOutput analyzeResult (Some sampleItem) 100 "seller-ord"
     = false
  /\ @verifySignedListingPSBTBase64 sampleLib req sampleConfig = Throw TypeError
  /\ ~ ((exists m, @verifySignedListingPSBTBase64 sampleLib req sampleConfig
                   = Throw (InvalidArgumentError m))
        <-> sixChecks req listingPsbtWithoutOutput analyzeResult (Some sampleItem) 100
              "seller-ord" = false).
Proof.
  intros req analyzeResult.
  assert (Hv : @verifySignedListingPSBTBase64 sampleLib req sampleConfig = Throw TypeError)
    by reflexivity.
  split; [|split; [reflexivity | split; [exact Hv|]]].
  - split; [reflexivity|]. split; [reflexivity|].
    intros txInput0 Hin. cbn in Hin. injection Hin as <-.
    split; [reflexivity|].
    intros ordItem Hitem. injection Hitem as <-.
    split; [reflexivity|].
    exists "rawtx", sampleTx, {| TxOut.script := bytes_of_hex "51"; TxOut.value := 10000 |}.
    repeat split; reflexivity.
  - intros [_ Hback]. destruct (Hback eq_refl) as [m Hm].
    rewrite Hv in Hm. discriminate Hm.
Qed.


(** C9, at the failing input.  The BIP 173 testnet address decodes, with a
    valid checksum, to witness version 0 under the human-readable part [tb];
    [getAddressType] classifies it [p2wpkh] on Bitcoin mainnet
    (human-readable part [bc]), where the classification constrained to the
    chain's human-readable part answers [unknown] and the sibling predicates
    [isSegWitAddress] and [isTaprootAddress] answer [false]. *)
Theorem getAddressType_accepts_foreign_hrp :
  @fromBech32 sampleLib testnetP2WPKH
    = Some {| Bech32Result.version := 0; Bech32Result.prefix := "tb";
              Bech32Result.data := bip173Program |}
  /\ @getAddressType sampleLib testnetP2WPKH bitcoin_networks_bitcoin = p2wpkh
  /\ @classify_address_spec sampleLib testnetP2WPKH bitcoin_networks_bitcoin = unknown
  /\ @isSegWitAddress sampleLib testnetP2WPKH bitcoin_networks_bitcoin = false
  /\ @isTaprootAddress sampleLib testnetP2WPKH bitcoin_networks_bitcoin = false.
Proof. repeat split; vm_compute; reflexivity. Qed.

(** * The scenarios of the specification *)

(** S1: the outputs of the buying PSBT. *)
Example scenario_S1_outputs :
  outputValues
    (@buyingPsbt sampleLib defaultConstants (sampleListing 200000) sampleFees
       (Some sampleRPC) (Some "platform"))
  = Some [1200; 10000; 109000; 3000; 600; 600; 75832].
Proof. vm_compute. reflexivity. Qed.

(** S2: seller payout 99010000, merged dummy output 4200, platform fee
    1000000. *)
Example scenario_S2_outputs :
  option_map (firstn 4)
    (outputValues
       (@buyingPsbt sampleLib defaultConstants legacyListing sampleFees
          (Some sampleRPC) (Some "platform")))
  = Some [4200; 10000; 99010000; 1000000].
Proof. vm_compute. reflexivity. Qed.

(** S3: only the clean 700-satoshi output qualifies as a dummy, so no pair
    is found. *)
Example scenario_S3_no_dummy_pair :
  @selectDummyUTXOs sampleLib defaultConstants taintedWallet taintedIndexer
    (Some syncedNode) = Return None.
Proof. vm_compute. reflexivity. Qed.

(** S4: with 50000 satoshis in all, 75368 are missing of the 125368
    required. *)
Example scenario_S4_shortfall :
  @generateUnsignedBuyingPSBTBase64 sampleLib defaultConstants (sampleListing 48800)
    sampleFees (Some sampleRPC) (Some "platform")
  = (sampleListing 48800,
     Throw (InvalidArgumentError (NotEnoughFundsToBuy 100000 125368 75368))).
Proof. vm_compute. reflexivity. Qed.

(** S5: a listing paying 108999 for a price of 100000 is rejected. *)
Example scenario_S5_invalid_price :
  @verifySignedListingPSBTBase64 sampleLib (sampleRequest "tampered-listing") sampleConfig
  = Throw (InvalidArgumentError (Msg "Invalid price")).
Proof. vm_compute. reflexivity. Qed.

(** The address types of the two BIP 173 addresses on their own chains. *)
Example classify_own_chain :
  @getAddressType sampleLib mainnetP2WPKH bitcoin_networks_bitcoin = p2wpkh
  /\ @getAddressType sampleLib testnetP2WPKH
       {| Network.bech32 := EmptyString; Network.pubKeyHash := 30; Network.scriptHash := 22 |}
     = unknown.
Proof. split; vm_compute; reflexivity. Qed.

(** * The JavaScript helpers on small inputs *)

Example split_colon_location :
  split_colon "ab:1:330" = ["ab"; "1"; "330"]
  /\ split_colon "ab:1" = ["ab"; "1"]
  /\ split_colon EmptyString = [EmptyString].
Proof. repeat split; reflexivity. Qed.

Example string_of_Z_decimal :
  string_of_Z 0 = "0" /\ string_of_Z 42 = "42" /\ string_of_Z (-7) = "-7".
Proof. repeat split; reflexivity. Qed.

Example toHex_sentinel :
  toHex (bytes_of_hex "0141") = "0141"
  /\ @generateTxidFromHash (bytes_of_hex "0a0b0c") = "0c0b0a".
Proof. split; vm_compute; reflexivity. Qed.

Example js_set_grows_the_array :
  js_set [] 2 (Some 5) = [None; None; Some 5]
  /\ js_set [Some 1; Some 2; Some 3; Some 4] 2 (Some 5) = [Some 1; Some 2; Some 5; Some 4].
Proof. split; reflexivity. Qed.

Example sort_desc_is_stable :
  map AddressTxsUtxo.txid
    (@filteredUtxos defaultConstants
       [ confirmedUtxo "a" 700; confirmedUtxo "b" 9000; confirmedUtxo "c" 600;
         confirmedUtxo "d" 700; confirmedUtxo "e" 3000 ])
  = ["b"; "e"; "a"; "d"].
Proof. vm_compute. reflexivity. Qed.

Example bech32_rejects_bad_checksum :
  bech32_fromBech32 "tb1qw508d6qejxtdg4y5r3zarvary0c5xw7kxpjzsy" = None
  /\ option_map Bech32Result.prefix (bech32_fromBech32 mainnetP2WPKH) = Some "bc".
Proof. split; vm_compute; reflexivity. Qed.

(** * Further properties on concrete inputs *)

(** Scenario S1: four inputs, the seller's outpoint in slot 2 and the
    payment UTXO behind it. *)
Lemma buying_psbt_input_layout_witness :
  exists psbt,
    @buyingPsbt sampleLib defaultConstants (sampleListing 200000)
      sampleFees (Some sampleRPC) (Some "platform") = Return (sampleBuyer 200000, psbt)
    /\ js_get (Psbt.txInputs psbt) 2 = Some (@outpointIn sampleLib sampleTxid 0)
    /\ js_get (Psbt.txInputs psbt) 3 = Some (@outpointIn sampleLib "funds" 0)
    /\ Psbt.inputCount psbt = 4%nat.
Proof.
  pose (out := @generateUnsignedBuyingPSBTBase64 sampleLib defaultConstants
                 (sampleListing 200000) sampleFees (Some sampleRPC) (Some "platform")).
  assert (H : out = (fst out, Return tt)) by (vm_compute; reflexivity).
  destruct (@buying_psbt_input_layout sampleLib defaultConstants _ _ _ _ _ H)
    as (buyer & psbt & d1 & d2 & payments & vout & Hp & Hd & Hpay & Hvout & Hins
        & Hslot & _ & Hcount).
  assert (Hbuyer : buyer = sampleBuyer 200000).
  { vm_compute in Hp. injection Hp as <- _. reflexivity. }
  subst buyer.
  cbn in Hd. injection Hd as <- <-.
  cbn in Hpay. injection Hpay as <-.
  vm_compute in Hvout. injection Hvout as <-.
  exists psbt.
  split; [exact Hp|]. split; [exact Hslot|]. split; [|exact Hcount].
  rewrite Hins. reflexivity.
Defined.

(** Scenario S1: the outputs, 200232 in all, and the fee estimate of 968
    add up to the buyer's 201200. *)
Lemma buying_psbt_value_conservation_witness :
  exists buyer psbt,
    @buyingPsbt sampleLib defaultConstants (sampleListing 200000)
      sampleFees (Some sampleRPC) (Some "platform") = Return (buyer, psbt)
    /\ @sumOutputs psbt + 968 = 201200.
Proof.
  destruct (@buyingPsbt sampleLib defaultConstants (sampleListing 200000)
              sampleFees (Some sampleRPC) (Some "platform"))
    as [[buyer psbt] | e] eqn:Hp; [|vm_compute in Hp; discriminate Hp].
  exists buyer, psbt. split; [reflexivity|].
  destruct (@buying_psbt_value_conservation sampleLib defaultConstants _ _ _ _ _ _ Hp)
    as (d1 & d2 & payments & offset & rate & Hd & Hpay & Hoff & Hrate & Hcons).
  vm_compute in Hp. injection Hp as <- <-.
  cbn in Hd. injection Hd as <- <-.
  cbn in Hpay. injection Hpay as <-.
  cbn in Hrate. injection Hrate as <-.
  cbv zeta in Hcons.
  destruct Hcons as [(changeValue & _ & _ & Hsum) | (Houts & _)].
  - exact Hsum.
  - vm_compute in Hoff. injection Hoff as <-.
    vm_compute in Houts. discriminate Houts.
Defined.

(** Scenario S1: the seller section is untouched and the stored input size
    is 4. *)
Lemma buying_psbt_success_frame_witness :
  exists listing' buyer',
    @generateUnsignedBuyingPSBTBase64 sampleLib defaultConstants (sampleListing 200000)
      sampleFees (Some sampleRPC) (Some "platform") = (listing', Return tt)
    /\ IListingState.seller listing' = sampleSeller
    /\ IListingState.buyer listing' = Some buyer'
    /\ Buyer.unsignedBuyingPSBTInputSize buyer' = Some 4.
Proof.
  pose (out := @generateUnsignedBuyingPSBTBase64 sampleLib defaultConstants
                 (sampleListing 200000) sampleFees (Some sampleRPC) (Some "platform")).
  assert (H : out = (fst out, Return tt)) by (vm_compute; reflexivity).
  destruct (@buying_psbt_success_frame sampleLib defaultConstants _ _ _ _ _ H)
    as ((_ & Hseller & _) & buyer & buyer' & psbt & base64 & payments
        & Hp & _ & Hb' & _ & Hpay & Hsize).
  exists (fst out), buyer'.
  split; [exact H|]. split; [exact Hseller|]. split; [exact Hb'|].
  rewrite Hsize.
  assert (Hpayments : Buyer.buyerPaymentUTXOs buyer'
                      = Buyer.buyerPaymentUTXOs (sampleBuyer 200000)).
  { vm_compute in Hb'. injection Hb' as <-. reflexivity. }
  rewrite Hpay in Hpayments. cbn in Hpayments. injection Hpayments as ->.
  reflexivity.
Defined.

(** Scenario S1: the listing PSBT spends the inscription outpoint with
    sighash type 131. *)
Lemma listing_psbt_single_input_witness :
  exists psbt,
    @listingPsbt sampleLib (sampleListing 200000) (Some sampleRPC) = Return psbt
    /\ Psbt.txInputs psbt = [Some (@outpointIn sampleLib sampleTxid 0)]
    /\ option_map PsbtInput.sighashType (js_get (Psbt.inputs psbt) 0) = Some (Some 131).
Proof.
  pose (out := @generateUnsignedListingPSBTBase64 sampleLib (sampleListing 200000)
                 (Some sampleRPC)).
  assert (H : out = (fst out, Return tt)) by (vm_compute; reflexivity).
  destruct (@listing_psbt_single_input sampleLib _ _ _ H)
    as (psbt & base64 & vout & tx & Hp & _ & _ & _ & Hvout & _ & Hins & Hmaps & _).
  vm_compute in Hvout. injection Hvout as <-.
  exists psbt. split; [exact Hp|]. split; [exact Hins|].
  rewrite Hmaps. reflexivity.
Defined.

(** The sample wallet keeps its four UTXOs in order. *)
Lemma mapUtxos_keeps_utxos_witness :
  exists mapped,
    @mapUtxos sampleLib sampleWallet (Some sampleRPC) = Return mapped
    /\ map asAddressTxsUtxo mapped = sampleWallet.
Proof.
  destruct (@mapUtxos_keeps_utxos sampleLib sampleWallet (Some sampleRPC))
    as (Hkeeps & Htotal & _).
  assert (Hnode : @nodeServes sampleLib (@resolveRPC sampleLib (Some sampleRPC))).
  { intros txid. exists "rawtx", sampleTx. split; reflexivity. }
  destruct (Htotal Hnode) as [mapped Hmapped].
  exists mapped. split; [exact Hmapped|].
  exact (proj1 (Hkeeps mapped Hmapped)).
Defined.

(** Of five UTXOs worth 500, 600, 9000, 700 and 800 the second and the
    fourth are returned. *)
Lemma select_dummy_utxos_first_two_witness :
  exists found,
    @selectDummyUTXOs sampleLib defaultConstants
      [ confirmedUtxo "a" 500; confirmedUtxo "b" 600; confirmedUtxo "c" 9000;
        confirmedUtxo "d" 700; confirmedUtxo "e" 800 ]
      emptyIndexer (Some sampleRPC) = Return (Some found)
    /\ map asAddressTxsUtxo found = [ confirmedUtxo "b" 600; confirmedUtxo "d" 700 ].
Proof.
  set (wallet := [ confirmedUtxo "a" 500; confirmedUtxo "b" 600; confirmedUtxo "c" 9000;
                   confirmedUtxo "d" 700; confirmedUtxo "e" 800 ]).
  destruct (@select_dummy_utxos_first_two sampleLib defaultConstants wallet emptyIndexer
              (Some sampleRPC)) as (Hsome & _ & _).
  destruct (@selectDummyUTXOs sampleLib defaultConstants wallet emptyIndexer
              (Some sampleRPC)) as [[found |] | e] eqn:Hr;
    try (vm_compute in Hr; discriminate Hr).
  exists found. split; [reflexivity|].
  exact (proj2 (Hsome found eq_refl)).
Defined.

(** The sample wallet: the UTXOs of 500 and 3000 are spent, the change is
    1828; a wallet holding 500 satoshis is turned down. *)
Lemma create_dummy_psbt_shape_witness :
  (exists psbt used,
      @Psbt_toBase64 sampleLib psbt = Answer "psbt-base64"
      /\ map MappedUtxo.txid used = ["a"; "b"]
      /\ Psbt.txInputs psbt = map Some (map (@mappedOutpoint sampleLib) used)
      /\ map PsbtTxOutput.value (Psbt.txOutputs psbt) = [600; 600; 1828])
  /\ exists m,
       @generateUnsignedCreateDummyUtxoPSBTBase64 sampleLib defaultConstants "buyer" None
         [confirmedUtxo "a" 500] "hourFee" sampleNetwork sampleFees emptyIndexer
         (Some sampleRPC) = Throw (InvalidArgumentError m).
Proof.
  split.
  - destruct (@create_dummy_psbt_shape sampleLib defaultConstants "buyer" None sampleWallet
                "hourFee" sampleNetwork sampleFees emptyIndexer (Some sampleRPC))
      as [Hshape _].
    assert (Hr : @generateUnsignedCreateDummyUtxoPSBTBase64 sampleLib defaultConstants
                   "buyer" None sampleWallet "hourFee" sampleNetwork sampleFees
                   emptyIndexer (Some sampleRPC) = Return "psbt-base64")
      by (vm_compute; reflexivity).
    destruct (Hshape _ Hr)
      as (psbt & rate & mapped & used & H64 & Hrate & Hmapped
          & (scanned & remaining & Hsplit & Hused & Hstop & Hearly) & Hins & _ & Houts).
    cbn in Hrate. injection Hrate as <-.
    vm_compute in Hmapped. injection Hmapped as <-.
    exists psbt, used. split; [exact H64|].
    assert (Hscanned : map MappedUtxo.txid scanned = ["a"; "b"]).
    { destruct scanned as [| s1 [| s2 [| s3 more]]]; cbn [app] in Hsplit.
      - exfalso. destruct Hstop as [Hnil | (_ & pre & u & Hp & _)].
        + rewrite Hnil in Hsplit. discriminate Hsplit.
        + destruct pre; discriminate Hp.
      - exfalso. injection Hsplit as <- Hrem.
        destruct Hstop as [Hnil | (Hcov & _)].
        + rewrite Hnil in Hrem. discriminate Hrem.
        + subst used. apply Z.leb_le in Hcov. vm_compute in Hcov. discriminate Hcov.
      - injection Hsplit as <- <- _. reflexivity.
      - exfalso. injection Hsplit as <- <- <- Hrem.
        refine (Hearly [_] _ (_ :: more) eq_refl _ _ _).
        + discriminate.
        + vm_compute. reflexivity.
        + apply Z.leb_le. vm_compute. reflexivity. }
    assert (Hlist : scanned
                    = [ {| MappedUtxo.txid := "a"; MappedUtxo.vout := 0;
                           MappedUtxo.value := 500;
                           MappedUtxo.status := {| TxStatus.confirmed := true |};
                           MappedUtxo.tx := sampleTx |};
                        {| MappedUtxo.txid := "b"; MappedUtxo.vout := 0;
                           MappedUtxo.value := 3000;
                           MappedUtxo.status := {| TxStatus.confirmed := true |};
                           MappedUtxo.tx := sampleTx |} ]).
    { destruct scanned as [| s1 [| s2 [| s3 more]]]; try discriminate Hscanned.
      cbn [app] in Hsplit. injection Hsplit as <- <- _. reflexivity. }
    subst scanned.
    assert (Hu : used = [ {| MappedUtxo.txid := "a"; MappedUtxo.vout := 0;
                             MappedUtxo.value := 500;
                             MappedUtxo.status := {| TxStatus.confirmed := true |};
                             MappedUtxo.tx := sampleTx |};
                          {| MappedUtxo.txid := "b"; MappedUtxo.vout := 0;
                             MappedUtxo.value := 3000;
                             MappedUtxo.status := {| TxStatus.confirmed := true |};
                             MappedUtxo.tx := sampleTx |} ])
      by (rewrite Hused; vm_compute; reflexivity).
    cbv zeta in Hins, Houts.
    split; [rewrite Hu; reflexivity|]. split; [exact Hins|].
    rewrite Houts, Hu. vm_compute. reflexivity.
  - apply (@create_dummy_psbt_shape sampleLib defaultConstants).
    eexists. eexists. eexists. eexists. eexists.
    split; [vm_compute; reflexivity|]. split; [vm_compute; reflexivity|].
    split; [vm_compute; reflexivity|]. vm_compute. reflexivity.
Defined.

(** The BIP 350 taproot address of Bitcoin mainnet is taproot, segwit and
    typed [p2tr]. *)
Lemma address_predicates_agree_witness :
  let address := "bc1p0xlxvlhemja6c4dqv22uapctqupfhlxm9h8z3k2e72q4k9hcz7vqzk5jj0" in
  @isTaprootAddress sampleLib address bitcoin_networks_bitcoin = true
  /\ @isSegWitAddress sampleLib address bitcoin_networks_bitcoin = true
  /\ @getAddressType sampleLib address bitcoin_networks_bitcoin = p2tr.
Proof.
  intros address.
  destruct (@address_predicates_agree sampleLib address bitcoin_networks_bitcoin)
    as (_ & _ & _ & Hsegwit & Hp2tr & _).
  assert (Htap : @isTaprootAddress sampleLib address bitcoin_networks_bitcoin = true)
    by (vm_compute; reflexivity).
  split; [exact Htap|]. split; [exact (Hsegwit Htap)|].
  apply (Hp2tr Htap). vm_compute. reflexivity.
Defined.


(** A compressed public key of 33 bytes. *)
Lemma toXOnly_length_witness :
  let pubKey := bytes_of_hex ("02" ++ sampleTxid) in
  List.length (toXOnly pubKey) = 32%nat
  /\ toXOnly (toXOnly pubKey) = toXOnly pubKey
  /\ toXOnly pubKey = bytes_of_hex sampleTxid.
Proof.
  intros pubKey.
  destruct (toXOnly_length pubKey) as (Hlength & Hagain & _).
  assert (Hlong : (32 <= List.length pubKey)%nat)
    by (apply Nat.leb_le; vm_compute; reflexivity).
  split; [apply Hlength; exact Hlong|]. split; [apply Hagain; exact Hlong|].
  vm_compute. reflexivity.
Defined.

(** Two buffers with one txid are one buffer. *)
Lemma generateTxidFromHash_round_trip_witness :
  generateTxidFromHash (bytes_of_hex "0a0b0c") = "0c0b0a"
  /\ bytes_of_hex "0a0b0c" = rev (bytes_of_hex "0c0b0a").
Proof.
  split; [vm_compute; reflexivity|].
  apply (generateTxidFromHash_round_trip (bytes_of_hex "0a0b0c")
           (rev (bytes_of_hex "0c0b0a"))).
  vm_compute. reflexivity.
Defined.

(** A transaction with two inputs and one output: the witness of the
    second input stays. *)
Lemma clearWitnesses_spec_witness :
  let input := fun w => {| TxIn.hash := []; TxIn.index := 0; TxIn.script := [];
                           TxIn.sequence := 0; TxIn.witness := w |} in
  let tx := {| Transaction.version := 2; Transaction.locktime := 0;
               Transaction.ins := [input [bytes_of_hex "01"]; input [bytes_of_hex "02"]];
               Transaction.outs := [ {| TxOut.script := []; TxOut.value := 1 |} ] |} in
  nth_error (Transaction.ins (clearWitnesses tx)) 0 = Some (input [])
  /\ nth_error (Transaction.ins (clearWitnesses tx)) 1 = Some (input [bytes_of_hex "02"]).
Proof.
  intros input tx.
  destruct (clearWitnesses_spec tx) as (_ & _ & _ & _ & Hnth & _).
  split.
  - exact (Hnth 0%nat (input [bytes_of_hex "01"]) eq_refl).
  - exact (Hnth 1%nat (input [bytes_of_hex "02"]) eq_refl).
Defined.

(** A buyer PSBT with one input is grown to three; the tampered listing
    has the input of the signed one and merges to the same PSBT. *)
Lemma merge_splice_shape_witness :
  List.length (Psbt.ins (spliceSellerInput signedListingPsbt listingPsbtWithoutOutput))
    = 3%nat
  /\ spliceSellerInput signedListingPsbt signedBuyingPsbt
     = spliceSellerInput tamperedListingPsbt signedBuyingPsbt.
Proof.
  destruct (merge_splice_shape signedListingPsbt tamperedListingPsbt
              listingPsbtWithoutOutput) as (Hlength & _).
  destruct (merge_splice_shape signedListingPsbt tamperedListingPsbt signedBuyingPsbt)
    as (_ & _ & Hsame & _).
  split; [exact Hlength | exact (Hsame eq_refl eq_refl)].
Defined.

(** Scenario S1: the merge leaves the four inputs of the unsigned
    transaction as they are. *)
Lemma merge_of_generated_psbts_witness :
  exists sellerPsbt buyerPsbt,
    @listingPsbt sampleLib (sampleListing 200000) (Some sampleRPC) = Return sellerPsbt
    /\ @buyingPsbt sampleLib defaultConstants (sampleListing 200000) sampleFees
         (Some sampleRPC) (Some "platform") = Return (sampleBuyer 200000, buyerPsbt)
    /\ Psbt.ins (spliceSellerInput sellerPsbt buyerPsbt) = Psbt.ins buyerPsbt.
Proof.
  destruct (@listingPsbt sampleLib (sampleListing 200000) (Some sampleRPC))
    as [sellerPsbt | e] eqn:Hs; [|vm_compute in Hs; discriminate Hs].
  destruct (@buyingPsbt sampleLib defaultConstants (sampleListing 200000) sampleFees
              (Some sampleRPC) (Some "platform"))
    as [[buyer buyerPsbt] | e] eqn:Hb; [|vm_compute in Hb; discriminate Hb].
  exists sellerPsbt, buyerPsbt.
  split; [reflexivity|].
  destruct (@merge_of_generated_psbts sampleLib defaultConstants _ _ _ _ _ _ _ _ Hs Hb)
    as (Hins & _).
  split; [|exact Hins].
  vm_compute in Hb. injection Hb as <- _. reflexivity.
Defined.

(** Scenario S5: the signature and the token are in order, the price is
    not. *)
Lemma verify_reports_first_failed_check_witness :
  @verifySignedListingPSBTBase64 sampleLib (sampleRequest "tampered-listing") sampleConfig
  = Throw (InvalidArgumentError (Msg "Invalid price")).
Proof.
  assert (Hobs : @listingObserved sampleLib (sampleRequest "tampered-listing") sampleConfig
                   tamperedListingPsbt
                   (Some {| AnalyzeResult.inputs := [ {| AnalyzeInput.is_final := true |} ] |})
                   (Some sampleItem) 100 "seller-ord").
  { split; [reflexivity|]. split; [reflexivity|].
    intros txInput0 Hin. cbn in Hin. injection Hin as <-.
    split; [reflexivity|].
    intros ordItem Hitem. injection Hitem as <-.
    split; [reflexivity|].
    exists "rawtx", sampleTx, {| TxOut.script := bytes_of_hex "51"; TxOut.value := 10000 |}.
    repeat split; reflexivity. }
  assert (Hshape : parsedShape tamperedListingPsbt).
  { split; [reflexivity|]. split; repeat constructor. }
  assert (Houts : Psbt.txOutputs tamperedListingPsbt <> []) by discriminate.
  pose proof (@verify_reports_first_failed_check sampleLib _ _ _ _ _ _ _ Hobs Hshape Houts)
    as H.
  cbv zeta beta in H.
  destruct H as [[Hsig _] | [_ [[Hcount _] | [_ [[Hid _] | [_ [[_ Hprice] | [Hp _]]]]]]]].
  - vm_compute in Hsig. discriminate Hsig.
  - vm_compute in Hcount. discriminate Hcount.
  - vm_compute in Hid. discriminate Hid.
  - exact Hprice.
  - vm_compute in Hp. discriminate Hp.
Defined.

(** Scenario S1: the verification looks up the listed outpoint. *)
Lemma listing_outpoint_round_trip_witness :
  exists psbt txInput0,
    @listingPsbt sampleLib (sampleListing 200000) (Some sampleRPC) = Return psbt
    /\ js_get (Psbt.txInputs psbt) 0 = Some txInput0
    /\ (generateTxidFromHash (TxIn.hash txInput0) ++ ":"
        ++ string_of_Z (TxIn.index txInput0))%string
       = IOrdItem.output sampleItem.
Proof.
  destruct (@listingPsbt sampleLib (sampleListing 200000) (Some sampleRPC))
    as [psbt | e] eqn:Hpsbt; [|vm_compute in Hpsbt; discriminate Hpsbt].
  assert (Hhex : toHex (@Buffer_from_hex sampleLib
                          (ordinalUtxoTxId (sampleListing 200000)))
                 = ordinalUtxoTxId (sampleListing 200000))
    by (vm_compute; reflexivity).
  assert (Hcanonical :
            forall vout,
              @parseInt sampleLib (ordinalUtxoVout (sampleListing 200000)) = Some vout ->
              IOrdItem.output (Seller.ordItem (IListingState.seller (sampleListing 200000)))
              = (ordinalUtxoTxId (sampleListing 200000) ++ ":" ++ string_of_Z vout)%string).
  { intros vout Hvout. vm_compute in Hvout. injection Hvout as <-.
    vm_compute. reflexivity. }
  destruct (@listing_outpoint_round_trip sampleLib _ _ _ Hpsbt Hhex Hcanonical)
    as (txInput0 & Hin0 & Hout).
  exists psbt, txInput0. split; [reflexivity|]. split; [exact Hin0 | exact Hout].
Defined.

(** A provider constructed without rates answers the tier [economyFee],
    which is none of the four, with the default of [hourFee]. *)
Lemma static_fee_provider_tiers_witness :
  StaticFeeProvider.getFees (StaticFeeProvider.new PartialFees.empty) "economyFee" = Some 5.
Proof.
  destruct (static_fee_provider_tiers PartialFees.empty PartialFees.empty
              (StaticFeeProvider.new PartialFees.empty)
              {| MempoolProvider.api_fees_getFeesRecommended := Failure "offline" |}
              "economyFee") as (_ & _ & _ & Hunknown & _).
  destruct (Hunknown eq_refl) as [Hstatic _].
  rewrite Hstatic.
  exact (proj1 (static_fee_provider_tiers PartialFees.empty PartialFees.empty
                  (StaticFeeProvider.new PartialFees.empty)
                  {| MempoolProvider.api_fees_getFeesRecommended := Failure "offline" |}
                  "hourFee")).
Defined.

(** Litecoin is found under [LTC]; it supports segwit and has the
    human-readable part [ltc]. *)
Lemma network_registry_witness :
  getNetwork "LTC" = NetworkFound litecoinMainnet
  /\ In "litecoin" getAvailableNetworks
  /\ truthy (Network.bech32 (ChainNetwork.network litecoinMainnet)) = true.
Proof.
  assert (HIn : In ("ltc", litecoinMainnet) NETWORKS).
  { unfold NETWORKS. cbn [In]. repeat (first [left; reflexivity | right]). }
  destruct (@network_registry sampleLib "ltc" litecoinMainnet HIn)
    as (Hfound & _ & Hlisted & _ & _ & Hsegwit & _).
  split; [apply Hfound; reflexivity|]. split; [exact Hlisted|].
  apply Hsegwit. reflexivity.
Defined.


(** [createSignerConfig] takes [bitcoin] and turns down [Bitcoin]. *)
Lemma createSignerConfig_cases_witness :
  (exists config,
      @createSignerConfig defaultConstants (ByName "bitcoin") sampleRPC sampleFees
        sampleItems None = Return config
      /\ SignerConfigObject.network config = Some bitcoin_networks_bitcoin)
  /\ @createSignerConfig defaultConstants (ByName "Bitcoin") sampleRPC sampleFees
       sampleItems None
     = Throw (InvalidArgumentError (Msg "Unknown network: Bitcoin")).
Proof.
  split.
  - destruct (@createSignerConfig_cases defaultConstants (ByName "bitcoin") sampleRPC
                sampleFees sampleItems None) as (Hfound & _).
    apply (Hfound bitcoinMainnet). right. exists "bitcoin". split; [reflexivity|].
    left. reflexivity.
  - destruct (@createSignerConfig_cases defaultConstants (ByName "Bitcoin") sampleRPC
                sampleFees sampleItems None) as (_ & Hname & _).
    destruct (Hname "Bitcoin" eq_refl) as (_ & Hcase & _).
    destruct Hcase as [Hproto | Hunknown].
    + discriminate.
    + unfold Object_prototype_keys in Hproto. cbn [In] in Hproto.
      repeat (destruct Hproto as [Hproto | Hproto]); try contradiction;
        discriminate Hproto.
    + exact Hunknown.
Defined.

(** With no variable set the constants are the defaults. *)
Lemma runtime_constants_defaults_witness :
  @runtimeConstants sampleLib (fun _ => None) = Some defaultConstants
  /\ @getEnvNumber sampleLib
       (fun key => if (key =? "DUMMY_UTXO_VALUE")%string then Some "330" else None)
       "DUMMY_UTXO_VALUE" 600 = Some 330.
Proof.
  split.
  - apply (@runtime_constants_defaults sampleLib (fun _ => None) "DUMMY_UTXO_VALUE" 600
             EmptyString).
    intros variable _. reflexivity.
  - destruct (@runtime_constants_defaults sampleLib
                (fun key => if (key =? "DUMMY_UTXO_VALUE")%string then Some "330" else None)
                "DUMMY_UTXO_VALUE" 600 EmptyString) as (_ & _ & Hset).
    destruct (Hset "330" eq_refl eq_refl) as [Hnumber _].
    rewrite Hnumber. reflexivity.
Defined.

(** A fresh module with an empty environment: the second call returns the
    client of the first, though the host has been set in between. *)
Lemma default_rpc_singleton_witness :
  let later := fun key =>
    if (key =? "BITCOIN_RPC_HOST")%string then Some "http://node" else None in
  exists first after,
    FullnodeRPC.getDefaultRPC decimalNumber (fun _ => None) None = (first, after)
    /\ FullnodeRPC.getDefaultRPC decimalNumber later after = (first, after)
    /\ FullnodeRPC.host first = "http://localhost".
Proof.
  intros later.
  destruct (FullnodeRPC.getDefaultRPC decimalNumber (fun _ => None) None)
    as [first after] eqn:Hfirst.
  destruct (default_rpc_singleton decimalNumber (fun _ => None) later None
              (FullnodeRPC.fromEnv decimalNumber later)) as (Honce & _ & Hdefaults & _).
  exists first, after. split; [reflexivity|].
  destruct (Honce first after Hfirst) as (Hsecond & _ & Hbuilt).
  split; [exact Hsecond|].
  rewrite (Hbuilt eq_refl), (Hdefaults (fun _ => eq_refl)). reflexivity.
Defined.

(** Two dummies of 600 and 700 selected from a wallet, and the listing of
    scenario S1 holding two dummies of 600: output 0 holds 1200. *)
Lemma selected_dummies_bound_output_0_witness :
  exists psbt output0,
    @buyingPsbt sampleLib defaultConstants (sampleListing 200000) sampleFees
      (Some sampleRPC) (Some "platform") = Return (sampleBuyer 200000, psbt)
    /\ at_index (Psbt.txOutputs psbt) 0 = Some output0
    /\ 2 * 580 + 0 <= PsbtTxOutput.value output0 <= 2 * 1000 + 0.
Proof.
  set (wallet := [ confirmedUtxo "d1" 600; confirmedUtxo "d2" 600 ]).
  assert (Hsel : @selectDummyUTXOs sampleLib defaultConstants wallet emptyIndexer
                   (Some sampleRPC) = Return (Some [ sampleDummy "d1"; sampleDummy "d2" ]))
    by (vm_compute; reflexivity).
  destruct (@buyingPsbt sampleLib defaultConstants (sampleListing 200000) sampleFees
              (Some sampleRPC) (Some "platform"))
    as [[buyer psbt] | e] eqn:Hpsbt; [|vm_compute in Hpsbt; discriminate Hpsbt].
  assert (Hbuyer : buyer = sampleBuyer 200000).
  { vm_compute in Hpsbt. injection Hpsbt as <- _. reflexivity. }
  subst buyer.
  destruct (@selected_dummies_bound_output_0 sampleLib defaultConstants _ _ _ _ _ _ _ _ _ _
              Hsel Hpsbt eq_refl) as (_ & offset & output0 & Hoff & Hout0 & _ & Hrange).
  vm_compute in Hoff. injection Hoff as <-.
  exists psbt, output0. split; [reflexivity|]. split; [exact Hout0 | exact Hrange].
Defined.




(** A buyer at the P2SH address [3-buyer]: without a public key the call
    fails with a [TypeError]; with one, the input of the first dummy carries
    the redeem script of the key. *)
Lemma p2sh_buyer_needs_public_key_witness :
  @generateUnsignedBuyingPSBTBase64 p2shLib defaultConstants (p2shListing None)
    sampleFees (Some sampleRPC) (Some "platform") = (p2shListing None, Throw TypeError)
  /\ exists buyer input redeemScript,
       IListingState.buyer
         (p2shListing
            (Some "0279be667ef9dcbbac55a06295ce870b07029bfcdb2dce28d959f2815b16f81798"))
       = Some buyer
       /\ @buyerInput p2shLib buyer sampleNetwork (sampleDummy "d1") = Return input
       /\ InputArg.redeemScript input = Some redeemScript
       /\ option_map TxOut.value (InputArg.witnessUtxo input)
          = Some (MappedUtxo.value (sampleDummy "d1")).
Proof.
  split.
  - destruct (IListingState.buyer (p2shListing None)) as [buyer|] eqn:Hb;
      [|discriminate Hb].
    assert (Hbuyer := Hb). cbn in Hbuyer. injection Hbuyer as Hbuyer. subst buyer.
    exact (proj1 (@p2sh_buyer_needs_public_key p2shLib defaultConstants
                    (p2shListing None) sampleFees (Some sampleRPC) (Some "platform")
                    _ (sampleDummy "d1") (sampleDummy "d2")
                    [confirmedUtxo "funds" 200000]
                    Hb eq_refl eq_refl eq_refl eq_refl eq_refl) eq_refl).
  - set (key := "0279be667ef9dcbbac55a06295ce870b07029bfcdb2dce28d959f2815b16f81798").
    destruct (IListingState.buyer (p2shListing (Some key))) as [buyer|] eqn:Hb;
      [|discriminate Hb].
    assert (Hbuyer := Hb). cbn in Hbuyer. injection Hbuyer as Hbuyer. subst buyer.
    match type of Hb with _ = Some ?b => set (buyer := b) in * end.
    destruct (@buyerInput p2shLib buyer sampleNetwork (sampleDummy "d1"))
      as [input | e] eqn:Hinput; [|vm_compute in Hinput; discriminate Hinput].
    destruct (proj2 (@p2sh_buyer_needs_public_key p2shLib defaultConstants
                       (p2shListing (Some key)) sampleFees (Some sampleRPC)
                       (Some "platform") buyer (sampleDummy "d1") (sampleDummy "d2")
                       [confirmedUtxo "funds" 200000]
                       Hb eq_refl eq_refl eq_refl eq_refl eq_refl) _ _ Hinput)
      as (k & redeemScript & p2shOutput & _ & _ & _ & Hredeem & Hwitness).
    exists buyer, input, redeemScript.
    split; [reflexivity|]. split; [exact Hinput|]. split; [exact Hredeem|].
    rewrite Hwitness. reflexivity.
Defined.

(** An [ordItem.output] that is a bare transaction id: neither PSBT is
    built, and the listing is returned as it was. *)
Lemma outpoint_without_index_is_rejected_witness :
  (exists e,
      @generateUnsignedListingPSBTBase64 sampleLib bareOutputListing (Some sampleRPC)
      = (bareOutputListing, Throw e))
  /\ (exists e,
         @generateUnsignedBuyingPSBTBase64 sampleLib defaultConstants bareOutputListing
           sampleFees (Some sampleRPC) (Some "platform") = (bareOutputListing, Throw e)).
Proof.
  assert (Hno : forall c,
             In c (list_ascii_of_string
                     (IOrdItem.output
                        (Seller.ordItem (IListingState.seller bareOutputListing)))) ->
             c <> ":"%char).
  { intros c Hc Heq.
    assert (Hall : forallb (fun a => negb (Ascii.eqb a ":"%char))
                     (list_ascii_of_string
                        (IOrdItem.output
                           (Seller.ordItem (IListingState.seller bareOutputListing))))
                   = true) by (vm_compute; reflexivity).
    rewrite forallb_forall in Hall. specialize (Hall c Hc).
    rewrite Heq in Hall. discriminate Hall. }
  destruct (@outpoint_without_index_is_rejected sampleLib defaultConstants
              bareOutputListing sampleFees (Some sampleRPC) (Some "platform")
              eq_refl Hno) as ((e1 & H1 & _) & (e2 & H2 & _)).
  split; [exists e1; exact H1 | exists e2; exact H2].
Defined.

(** A buyer with 1000 satoshis of payment funds: the call is rejected for
    missing funds, and the amount reported as missing is positive. *)
Lemma buying_psbt_invalid_argument_reasons_witness :
  exists listing' required missing,
    @generateUnsignedBuyingPSBTBase64 sampleLib defaultConstants (sampleListing 1000)
      sampleFees (Some sampleRPC) (Some "platform")
    = (listing',
       Throw (InvalidArgumentError
                (NotEnoughFundsToBuy
                   (Seller.price (IListingState.seller (sampleListing 1000)))
                   required missing)))
    /\ 0 < missing.
Proof.
  pose (out := @generateUnsignedBuyingPSBTBase64 sampleLib defaultConstants
                 (sampleListing 1000) sampleFees (Some sampleRPC) (Some "platform")).
  destruct (snd out) as [u | [m | | reason]] eqn:Hout;
    try (vm_compute in Hout; discriminate Hout).
  assert (H : out = (fst out, Throw (InvalidArgumentError m))).
  { rewrite <- Hout. destruct out; reflexivity. }
  destruct (proj1 (@buying_psbt_invalid_argument_reasons sampleLib defaultConstants
                     (sampleListing 1000) sampleFees (Some sampleRPC)
                     (Some "platform")) _ _ H)
    as [[Hunset _] | [(_ & Hunset & _) | (_ & required & missing & Hm & Hpos)]].
  - vm_compute in Hunset. discriminate Hunset.
  - vm_compute in Hunset. discriminate Hunset.
  - exists (fst out), required, missing. split; [|exact Hpos].
    rewrite <- Hm. exact H.
Defined.
